(** * forest-fires: time-fold cross-validation iterators and the model runner

    A shallow embedding of [code/modeling/time_val.py] and
    [code/modeling/run_model.py], and the properties of their specification
    proved (or refuted) on it.

    [time_val.py] holds two versions of every class, separated by merge
    markers: the [HEAD] side (the specification's Design A) and the [master]
    side (Design B).  Each side is embedded in a module of its own,
    [DesignA] and [DesignB].

    Conventions of the embedding.
    - A datetime is the number of microseconds since 0001-01-01T00:00:00 of
      the proleptic Gregorian calendar, a [Z]; a timedelta is a number of
      microseconds.  Calendar fields are computed the way Python's
      [datetime] module does ([_ymd2ord], [_ord2ymd]), and the [datetime]
      constructor and datetime addition fail outside the years 1..9999 as
      Python's do.
    - A Python exception is a [Raise e]; a loop that may run forever takes
      fuel and answers [None] when the fuel runs out before the loop ends.
    - Index arrays are lists of row positions ([nat]).
    - Fractions of rows and probabilities are rationals ([Q]): every finite
      float denotes one, and comparing two finite floats compares the
      rationals they denote.
    - A date column is a [datetime64[ns]] Series, an empty one too: its
      minimum and maximum are [NaT] when it is empty, and comparing it with
      a datetime, like [pd.date_range], first makes the datetime a pandas
      [Timestamp], which fails outside the range a 64-bit count of
      nanoseconds covers.  That failure, [OutOfBoundsDatetime], is a
      subclass of [ValueError] and is modelled as [ValueError].
    - The random draws of [np.random.choice] are an explicit argument. *)

From Stdlib Require Import ZArith QArith Lia Ascii.
From stdpp Require Import base list gmap strings sorting.

Open Scope Z_scope.

(** ** Python results *)

Inductive exn : Type :=
  | StopIteration
  | ValueError
  | OverflowError
  | TypeError
  | AttributeError
  | IndexError
  | InvalidInput.

Inductive result (A : Type) : Type :=
  | Ok (a : A)
  | Raise (e : exn).

Arguments Ok {A} a.
Arguments Raise {A} e.

#[global] Instance result_ret : MRet result := fun A a => Ok a.
#[global] Instance result_bind : MBind result := fun A B k r =>
  match r with
  | Ok a => k a
  | Raise e => Raise e
  end.

(** ** The proleptic Gregorian calendar, after Python's [datetime.py] *)

Module Calendar.

Definition is_leap (year : Z) : bool :=
  (year mod 4 =? 0) && (negb (year mod 100 =? 0) || (year mod 400 =? 0)).

Definition days_before_year (year : Z) : Z :=
  let y := year - 1 in y * 365 + y / 4 - y / 100 + y / 400.

Definition DAYS_IN_MONTH (m : Z) : Z :=
  match m with
  | 1 => 31 | 2 => 28 | 3 => 31 | 4 => 30 | 5 => 31 | 6 => 30
  | 7 => 31 | 8 => 31 | 9 => 30 | 10 => 31 | 11 => 30 | 12 => 31
  | _ => -1
  end.

Definition DAYS_BEFORE_MONTH (m : Z) : Z :=
  match m with
  | 1 => 0 | 2 => 31 | 3 => 59 | 4 => 90 | 5 => 120 | 6 => 151
  | 7 => 181 | 8 => 212 | 9 => 243 | 10 => 273 | 11 => 304 | 12 => 334
  | _ => -1
  end.

Definition days_in_month (year month : Z) : Z :=
  if (month =? 2) && is_leap year then 29 else DAYS_IN_MONTH month.

Definition days_before_month (year month : Z) : Z :=
  DAYS_BEFORE_MONTH month + (if (2 <? month) && is_leap year then 1 else 0).

(** [_ymd2ord]: 0001-01-01 is day 1. *)
Definition ymd2ord (year month day : Z) : Z :=
  days_before_year year + days_before_month year month + day.

Definition DI400Y : Z := 146097.
Definition DI100Y : Z := 36524.
Definition DI4Y : Z := 1461.

(** [_ord2ymd], with [divmod] as Python's floor division. *)
Definition ord2ymd (n0 : Z) : Z * Z * Z :=
  let n := n0 - 1 in
  let n400 := n / DI400Y in
  let n := n mod DI400Y in
  let year := n400 * 400 + 1 in
  let n100 := n / DI100Y in
  let n := n mod DI100Y in
  let n4 := n / DI4Y in
  let n := n mod DI4Y in
  let n1 := n / 365 in
  let n := n mod 365 in
  let year := year + n100 * 100 + n4 * 4 + n1 in
  if (n1 =? 4) || (n100 =? 4) then (year - 1, 12, 31)
  else
    let leapyear := (n1 =? 3) && (negb (n4 =? 24) || (n100 =? 3)) in
    let month := Z.shiftr (n + 50) 5 in
    let preceding :=
      DAYS_BEFORE_MONTH month + (if (2 <? month) && leapyear then 1 else 0) in
    if n <? preceding then
      let month := month - 1 in
      let preceding :=
        preceding
        - (DAYS_IN_MONTH month + (if (month =? 2) && leapyear then 1 else 0)) in
      (year, month, n - preceding + 1)
    else (year, month, n - preceding + 1).

Definition valid_ymd (y m d : Z) : bool :=
  (1 <=? m) && (m <=? 12) && (1 <=? d) && (d <=? days_in_month y m).

(** The month and the day of the day numbered [n] from 0 in its year, as
    the end of [ord2ymd] finds them. *)
Definition month_day (leapyear : bool) (n : Z) : Z * Z :=
  let month := Z.shiftr (n + 50) 5 in
  let preceding :=
    DAYS_BEFORE_MONTH month + (if (2 <? month) && leapyear then 1 else 0) in
  if n <? preceding then
    let month := month - 1 in
    let preceding :=
      preceding
      - (DAYS_IN_MONTH month + (if (month =? 2) && leapyear then 1 else 0)) in
    (month, n - preceding + 1)
  else (month, n - preceding + 1).

(** [ord2ymd]'s test for a leap year, on the 100-year, 4-year and 1-year
    counts of a year of the cycle. *)
Definition leap_flag (n100 n4 n1 : Z) : bool :=
  (n1 =? 3) && (negb (n4 =? 24) || (n100 =? 3)).

(** A check of [month_day] on one day of a year. *)
Definition day_check (leapyear : bool) (n : Z) : bool :=
  let '(m, d) := month_day leapyear n in
  (1 <=? m) && (m <=? 12) && (1 <=? d)
  && (d <=? DAYS_IN_MONTH m + (if (m =? 2) && leapyear then 1 else 0))
  && (DAYS_BEFORE_MONTH m + (if (2 <? m) && leapyear then 1 else 0) + d
      =? n + 1).

(** A check of [is_leap] and [days_before_year] on one year of the cycle. *)
Definition year_check (n100 n4 n1 : Z) : bool :=
  let y := 1 + n100 * 100 + n4 * 4 + n1 in
  bool_decide (is_leap y = leap_flag n100 n4 n1)
  && (days_before_year y =? n100 * DI100Y + n4 * DI4Y + n1 * 365).

(** What [ord2ymd] has to answer on a day of the first 400-year cycle: a
    date of the calendar that [ymd2ord] numbers [n], in the years 1..400.
    Day 145731 is the last day of the year 399. *)
Definition cycle_check (n : Z) : bool :=
  let '(y, m, d) := ord2ymd n in
  valid_ymd y m d && (ymd2ord y m d =? n) && (1 <=? y) && (y <=? 400)
  && ((145731 <? n) || (y <=? 399)).

(** The date [q] 400-year cycles later. *)
Definition shift_year (q : Z) (ymd : Z * Z * Z) : Z * Z * Z :=
  (ymd.1.1 + 400 * q, ymd.1.2, ymd.2).

(** [p] holds of [1], [2], ..., [k]. *)
Definition all_upto (k : positive) (p : Z -> bool) : bool :=
  (Pos.iter (fun st => (st.1 + 1, st.2 && p st.1)) (1, true) k).2.

End Calendar.

(** ** Datetimes and timedeltas *)

Module Datetime.
Import Calendar.

Definition us_per_second : Z := 1000000.
Definition us_per_minute : Z := 60 * us_per_second.
Definition us_per_hour : Z := 60 * us_per_minute.
Definition us_per_day : Z := 24 * us_per_hour.

Definition MINYEAR : Z := 1.
Definition MAXYEAR : Z := 9999.

(** The ordinal of 9999-12-31. *)
Definition max_ordinal : Z := 3652059.

Definition in_range (t : Z) : bool :=
  (0 <=? t) && (t <? max_ordinal * us_per_day).

(** [timedelta(days=n)] *)
Definition days (n : Z) : Z := n * us_per_day.

Definition toordinal (t : Z) : Z := t / us_per_day + 1.

Definition year (t : Z) : Z := (ord2ymd (toordinal t)).1.1.
Definition month (t : Z) : Z := (ord2ymd (toordinal t)).1.2.
Definition day (t : Z) : Z := (ord2ymd (toordinal t)).2.
Definition hour (t : Z) : Z := (t mod us_per_day) / us_per_hour.
Definition minute (t : Z) : Z := (t mod us_per_hour) / us_per_minute.
Definition second (t : Z) : Z := (t mod us_per_minute) / us_per_second.

(** [datetime(y, m, d, h, mi, s)]: a [ValueError] on a field out of range. *)
Definition datetime (y m d h mi s : Z) : result Z :=
  if (MINYEAR <=? y) && (y <=? MAXYEAR) && valid_ymd y m d
     && (0 <=? h) && (h <=? 23) && (0 <=? mi) && (mi <=? 59)
     && (0 <=? s) && (s <=? 59)
  then Ok ((ymd2ord y m d - 1) * us_per_day
           + h * us_per_hour + mi * us_per_minute + s * us_per_second)
  else Raise ValueError.

(** [t + delta] on a datetime: an [OverflowError] outside the years 1..9999. *)
Definition add (t delta : Z) : result Z :=
  if in_range (t + delta) then Ok (t + delta) else Raise OverflowError.

Definition sub (t delta : Z) : result Z := add t (- delta).



End Datetime.

(** ** The numpy and pandas operations the iterators use *)

Module Np.

(** [np.where(mask)[0]]: the positions at which the mask holds, ascending. *)
Fixpoint where_from {A} (p : A -> bool) (i : nat) (l : list A) : list nat :=
  match l with
  | [] => []
  | x :: l' =>
      if p x then i :: where_from p (S i) l' else where_from p (S i) l'
  end.

Definition np_where {A} (p : A -> bool) (l : list A) : list nat :=
  where_from p 0 l.

(** [np.unique]: the distinct values, ascending. *)
Definition unique (l : list nat) : list nat :=
  merge_sort Nat.le (remove_dups l).

(** [np.intersect1d(a, b)]: the sorted, distinct values in both. *)
Definition intersect1d (a b : list nat) : list nat :=
  unique (filter (fun i => i ∈ b) a).

(** [np.setdiff1d(a, b)]: the sorted, distinct values of [a] not in [b]. *)
Definition setdiff1d (a b : list nat) : list nat :=
  unique (filter (fun i => i ∉ b) a).

(** [a[idx]] for an index array [idx] whose entries are positions of [a]. *)
Definition take_idx (a : list nat) (idx : list nat) : list nat :=
  omap (fun i => a !! i) idx.

(** [np.random.choice(a, size)] (with replacement), as numpy's legacy
    generator computes it: [a[randint(0, len(a), size)]], and a
    [ValueError] on an empty [a].  [draw] is what [randint] returns. *)
Definition random_choice (a : list nat) (size : nat) (draw : list nat)
  : result (list nat) :=
  if bool_decide (a = []) then Raise ValueError
  else Ok (take_idx a (take size draw)).

(** [np.random.choice(a, size, replace=False)]:
    [a[permutation(len(a))[:size]]], and a [ValueError] on an empty [a] or
    on a sample larger than the population.  [draw] is the permutation. *)
Definition random_choice_no_replace (a : list nat) (size : nat)
    (draw : list nat) : result (list nat) :=
  if bool_decide (a = []) then Raise ValueError
  else if bool_decide (length a < size)%nat then Raise ValueError
  else Ok (take_idx a (take size draw)).

(** A well-formed draw of [permutation(pop)]. *)
Definition permutation_draw (pop : nat) (draw : list nat) : Prop :=
  draw ≡ₚ seq 0 pop.

(** Two index arrays with no index in common. *)
Definition disjoint_indices (a b : list nat) : Prop :=
  forall i, i ∈ a -> i ∈ b -> False.

(** pandas keeps a datetime as a signed 64-bit count of nanoseconds from
    1970-01-01T00:00:00, the least count standing for [NaT].  A datetime is
    a [Timestamp] when its count fits: from 1677-09-21 00:12:43.145225 to
    2262-04-11 23:47:16.854775. *)
Definition epoch : Z := (Calendar.ymd2ord 1970 1 1 - 1) * Datetime.us_per_day.

Definition Timestamp_max_ns : Z := 2 ^ 63 - 1.

Definition is_timestamp (t : Z) : bool :=
  (- Timestamp_max_ns <=? (t - epoch) * 1000)
  && ((t - epoch) * 1000 <=? Timestamp_max_ns).

(** The datetime [t] made a [Timestamp], as a comparison of a date column
    with [t] and [pd.date_range] do with their arguments: an
    [OutOfBoundsDatetime], which is a [ValueError], when it is none. *)
Definition to_timestamp (t : Z) : result Z :=
  if is_timestamp t then Ok t else Raise ValueError.

#[global] Arguments is_timestamp : simpl never.
#[global] Arguments to_timestamp : simpl never.

(** [pd.date_range(start, stop)] at its default daily frequency is
    [start, start + 1 day, ...] up to [stop]; only its [min()] and [max()]
    are used.  [None] is the empty range, whose [min()] and [max()] are
    [NaT]. *)
Definition date_range (start stop : Z) : option (Z * Z) :=
  if stop <? start then None
  else Some (start,
             start + ((stop - start) / Datetime.us_per_day) * Datetime.us_per_day).

(** The mask [(dates >= r.min()) & (dates < r.max())]: comparing with [NaT]
    is false. *)
Definition in_date_range (r : option (Z * Z)) (d : Z) : bool :=
  match r with
  | Some (lo, hi) => (lo <=? d) && (d <? hi)
  | None => false
  end.

(** [dates.min()] and [dates.max()] of a date column: [None] (a [NaT]) when
    empty. *)
Definition series_min (l : list Z) : option Z :=
  match l with
  | [] => None
  | x :: l' => Some (foldr Z.min x l')
  end.

Definition series_max (l : list Z) : option Z :=
  match l with
  | [] => None
  | x :: l' => Some (foldr Z.max x l')
  end.

(** [xrange(lo, hi)] *)
Definition xrange (lo hi : Z) : list Z :=
  (fun k => lo + Z.of_nat k) <$> seq 0 (Z.to_nat (hi - lo)).

End Np.

(** ** Design B: the [master] side of [time_val.py] *)

Module DesignB.
Import Np.

(** The attributes [BaseTimeFold.__init__] sets. *)
Record BaseTimeFold : Type := {
  n_folds : nat;
  dates : list Z;
  step_size : Z;
  test_indices : list nat;
  init_split_point : Z;
  split_point : Z;
}.

(** [BaseTimeFold._set_init_split_point]: [dates.min()] of an empty column
    is [NaT], adding a timedelta to it gives [NaT], whose [year], [month]
    and [day] are [nan], and [datetime(nan, nan, nan, 0, 0, 0)] is a
    [TypeError]. *)
Definition _set_init_split_point (dates : list Z) (step_size : Z) : result Z :=
  match series_min dates with
  | None => Raise TypeError
  | Some first =>
      exact_init_split_point ← Datetime.add first step_size;
      Datetime.datetime (Datetime.year exact_init_split_point)
        (Datetime.month exact_init_split_point)
        (Datetime.day exact_init_split_point) 0 0 0
  end.

(** [BaseTimeFold.__init__(dates, step_size, init_split_point=None)]; a
    datetime is never falsy, so [if not init_split_point] is the test for
    [None]. *)
Definition BaseTimeFold_init (dates : list Z) (step_size : Z)
    (init_split_point : option Z) : result BaseTimeFold :=
  match init_split_point with
  | None =>
      p ← _set_init_split_point dates step_size;
      mret {| n_folds := 0; dates := dates; step_size := step_size;
              test_indices := [3; 4]%nat;
              init_split_point := p; split_point := p |}
  | Some p =>
      mret {| n_folds := 0; dates := dates; step_size := step_size;
              test_indices := [3; 4]%nat;
              init_split_point := p; split_point := p |}
  end.

Definition set_test_indices (s : BaseTimeFold) (t : list nat) : BaseTimeFold :=
  {| n_folds := n_folds s; dates := dates s; step_size := step_size s;
     test_indices := t;
     init_split_point := init_split_point s; split_point := split_point s |}.

Definition set_split_point (s : BaseTimeFold) (p : Z) : BaseTimeFold :=
  {| n_folds := n_folds s; dates := dates s; step_size := step_size s;
     test_indices := test_indices s;
     init_split_point := init_split_point s; split_point := p |}.

Definition incr_n_folds (s : BaseTimeFold) : BaseTimeFold :=
  {| n_folds := S (n_folds s); dates := dates s; step_size := step_size s;
     test_indices := test_indices s;
     init_split_point := init_split_point s; split_point := split_point s |}.

(** A fold: the train indices, then the test indices. *)
Definition fold : Type := list nat * list nat.

(** [SequentialTimeFold.__init__] only calls the base class. *)
Definition SequentialTimeFold_init := BaseTimeFold_init.

(** [SequentialTimeFold.next]: the outcome of the call and the object after
    it.  An exception leaves the attributes assigned before it; the first
    comparison of the dates with the split point raises when the split
    point is no [Timestamp]. *)
Definition SequentialTimeFold_next (s : BaseTimeFold)
  : result fold * BaseTimeFold :=
  match to_timestamp (split_point s) with
  | Raise e => (Raise e, s)
  | Ok _ =>
      let test_indices := np_where (fun d => split_point s <=? d) (dates s) in
      let train_indices := np_where (fun d => d <? split_point s) (dates s) in
      let s1 := set_test_indices s test_indices in
      match Datetime.add (split_point s1) (step_size s1) with
      | Raise e => (Raise e, s1)
      | Ok p =>
          let s2 := set_split_point s1 p in
          if negb (bool_decide (test_indices = []))
          then (Ok (train_indices, test_indices), incr_n_folds s2)
          else (Raise StopIteration, s2)
      end
  end.

Record StratifiedTimeFold : Type := {
  base : BaseTimeFold;
  years_list : list Z;
}.

(** [StratifiedTimeFold._set_years_list]: the [year] of the [NaT] that an
    empty column answers is [nan], and [xrange(nan, nan + 1)] is a
    [TypeError]. *)
Definition _set_years_list (dates : list Z) : result (list Z) :=
  match series_max dates, series_min dates with
  | Some last, Some first =>
      Ok (xrange (Datetime.year first) (Datetime.year last + 1))
  | _, _ => Raise TypeError
  end.

Definition StratifiedTimeFold_init (dates : list Z) (step_size : Z)
    (init_split_point : option Z) : result StratifiedTimeFold :=
  b ← BaseTimeFold_init dates step_size init_split_point;
  ys ← _set_years_list dates;
  mret {| base := b; years_list := ys |}.

(** [StratifiedTimeFold._get_date_range] *)
Definition _get_date_range (s : BaseTimeFold) (year : Z)
  : result (option (Z * Z)) :=
  let p := split_point s in
  start_date_range ←
    Datetime.datetime year (Datetime.month p) (Datetime.day p)
      (Datetime.hour p) (Datetime.minute p) (Datetime.second p);
  end_date_range ← Datetime.add start_date_range (step_size s);
  start ← to_timestamp start_date_range;
  stop ← to_timestamp end_date_range;
  mret (date_range start stop).

(** [StratifiedTimeFold._grab_indices] *)
Definition _grab_indices (s : BaseTimeFold) (year : Z) : result fold :=
  let p := split_point s in
  r ← _get_date_range s year;
  _ ← to_timestamp p;
  let test_indices :=
    np_where (fun d => in_date_range r d && (p <=? d)) (dates s) in
  let train_indices :=
    np_where (fun d => in_date_range r d && (d <? p)) (dates s) in
  mret (train_indices, test_indices).

(** The [for year in self.years_list] loop of [StratifiedTimeFold.next]. *)
Fixpoint grab_years (s : BaseTimeFold) (years : list Z) (acc : fold)
  : result fold :=
  match years with
  | [] => Ok acc
  | year :: years' =>
      match _grab_indices s year with
      | Raise e => Raise e
      | Ok (train_idx_temp, test_idx_temp) =>
          grab_years s years' (train_idx_temp ++ acc.1, test_idx_temp ++ acc.2)
      end
  end.

(** [StratifiedTimeFold.next] *)
Definition StratifiedTimeFold_next (s : StratifiedTimeFold)
  : result fold * StratifiedTimeFold :=
  if negb (bool_decide (test_indices (base s) = [])) then
    let b1 := incr_n_folds (base s) in
    let s1 := {| base := b1; years_list := years_list s |} in
    match grab_years b1 (years_list s) ([], []) with
    | Raise e => (Raise e, s1)
    | Ok (train_indices, test_indices) =>
        match Datetime.add (split_point b1) (step_size b1) with
        | Raise e => (Raise e, s1)
        | Ok p =>
            (Ok (train_indices, test_indices),
             {| base := set_test_indices (set_split_point b1 p) test_indices;
                years_list := years_list s |})
        end
    end
  else (Raise StopIteration, s).

(** The object after [k] calls of [next] that each yielded a fold, with the
    folds in the order they were yielded; [None] when one of the [k] calls
    raised. *)
Fixpoint Sequential_folds (k : nat) (s : BaseTimeFold)
  : option (list fold * BaseTimeFold) :=
  match k with
  | O => Some ([], s)
  | S k' =>
      match SequentialTimeFold_next s with
      | (Ok f, s') =>
          match Sequential_folds k' s' with
          | Some (fs, s'') => Some (f :: fs, s'')
          | None => None
          end
      | (Raise _, _) => None
      end
  end.

Fixpoint Stratified_folds (k : nat) (s : StratifiedTimeFold)
  : option (list fold * StratifiedTimeFold) :=
  match k with
  | O => Some ([], s)
  | S k' =>
      match StratifiedTimeFold_next s with
      | (Ok f, s') =>
          match Stratified_folds k' s' with
          | Some (fs, s'') => Some (f :: fs, s'')
          | None => None
          end
      | (Raise _, _) => None
      end
  end.

(** A fold whose train rows are dated before the split point and whose test
    rows are dated at or after it. *)
Definition split_by (s : BaseTimeFold) (f : fold) : Prop :=
  (forall i, i ∈ f.1 -> exists d, dates s !! i = Some d /\ d < split_point s) /\
  (forall i, i ∈ f.2 -> exists d, dates s !! i = Some d /\ split_point s <= d).

(** The exceptions that end an iteration: the end-of-stream signal, and a
    date computation out of range. *)
Definition ends_with (e : exn) : Prop :=
  e = StopIteration \/ e = OverflowError \/ e = ValueError.

End DesignB.

(** ** More of Design B *)

Module DesignBMore.
Import Np DesignB.

(** [BaseTimeFold.__len__] *)
Definition len (s : BaseTimeFold) : nat := n_folds s.

(** The object after [k] calls of [SequentialTimeFold.next], whatever they
    answered. *)
Fixpoint Sequential_calls (k : nat) (s : BaseTimeFold) : BaseTimeFold :=
  match k with
  | O => s
  | S k' => Sequential_calls k' (SequentialTimeFold_next s).2
  end.

(** The window [_get_date_range] opens in [year]: from the split point moved
    to that year, for a step. *)
Definition in_year_window (s : BaseTimeFold) (year d : Z) : Prop :=
  exists start,
    Datetime.datetime year (Datetime.month (split_point s))
      (Datetime.day (split_point s)) (Datetime.hour (split_point s))
      (Datetime.minute (split_point s)) (Datetime.second (split_point s))
    = Ok start /\
    start <= d < start + step_size s.

End DesignBMore.

(** ** Design A: the [HEAD] side of [time_val.py] *)

Module DesignA.
Import Np.

(** A row of the feature table, with the two columns the iterators read.
    The table's index is the default one, so a row's label is its position. *)
Record Row : Type := {
  date_fire : Z;
  fire_bool : bool;
}.

Record BaseTimeFold : Type := {
  n_folds : nat;
  max_folds : Z;
  df : list Row;
  step_size : Z;
  test_date : Z;
  resample_method : string;
  resample_train_fire_pct : Q;
}.

Definition all_dates (s : BaseTimeFold) : list Z := date_fire <$> df s.

(** [BaseTimeFold.__init__] *)
Definition BaseTimeFold_init (df : list Row) (step_size : Z) (max_folds : Z)
    (test_set_date : Z) (resample_train_fire_pct : Q)
    (resample_method : string) : result BaseTimeFold :=
  d ← Datetime.sub test_set_date (Datetime.days 1);
  mret {| n_folds := 0; max_folds := max_folds; df := df;
          step_size := step_size; test_date := d;
          resample_method := resample_method;
          resample_train_fire_pct := resample_train_fire_pct |}.

Definition set_test_date (s : BaseTimeFold) (d : Z) : BaseTimeFold :=
  {| n_folds := n_folds s; max_folds := max_folds s; df := df s;
     step_size := step_size s; test_date := d;
     resample_method := resample_method s;
     resample_train_fire_pct := resample_train_fire_pct s |}.

Definition incr_n_folds (s : BaseTimeFold) : BaseTimeFold :=
  {| n_folds := S (n_folds s); max_folds := max_folds s; df := df s;
     step_size := step_size s; test_date := test_date s;
     resample_method := resample_method s;
     resample_train_fire_pct := resample_train_fire_pct s |}.

Definition fold : Type := list nat * list nat.

(** [self.df.ix[indices, 'fire_bool']]: the rows at the given labels, one
    per entry of [indices]. *)
Definition fire_rows (df : list Row) (indices : list nat) : list bool :=
  omap (fun i => fire_bool <$> df !! i) indices.

(** [.mean()] of a boolean column: the fraction of [True], and [None] for
    the [NaN] that the mean of no rows is. *)
Definition mean (col : list bool) : option Q :=
  match col with
  | [] => None
  | _ => Some (Z.of_nat (length (filter (fun b => b = true) col))
               # Pos.of_nat (length col))
  end.

Definition Qlt_bool (x y : Q) : bool := negb (Qle_bool y x).

(** [m > x] and [m < x] for a float [m] that may be [NaN]: both are false
    on a [NaN]. *)
Definition float_gt (m : option Q) (x : Q) : bool :=
  match m with Some q => Qlt_bool x q | None => false end.

Definition float_lt (m : option Q) (x : Q) : bool :=
  match m with Some q => Qlt_bool q x | None => false end.

Definition fire_indices (df : list Row) : list nat := np_where fire_bool df.

(** [BaseTimeFold._resample].  [draw] is the random draw that
    [np.random.choice] makes.  With any other [resample_method] the
    function body ends without a [return] and the call answers [None]. *)
Definition _resample (s : BaseTimeFold) (draw : list nat)
    (train_indices : list nat) : result (option (list nat)) :=
  if bool_decide (resample_method s = "simple upsample") then
    let positive_indices := intersect1d (fire_indices (df s)) train_indices in
    resampled_indices ←
      random_choice positive_indices (length positive_indices) draw;
    mret (Some (train_indices ++ resampled_indices))
  else if bool_decide (resample_method s = "downsample") then
    let positive_indices := intersect1d (fire_indices (df s)) train_indices in
    let negative_indices := setdiff1d train_indices (fire_indices (df s)) in
    resampled_indices ←
      random_choice_no_replace negative_indices (length positive_indices) draw;
    mret (Some (positive_indices ++ resampled_indices))
  else mret None.

(** [BaseTimeFold._check_resample] *)
Definition _check_resample (s : BaseTimeFold) (draw : list nat)
    (train_indices : list nat) : result (option (list nat)) :=
  let training_perc_fire := mean (fire_rows (df s) train_indices) in
  if float_gt training_perc_fire (resample_train_fire_pct s)
  then mret (Some train_indices)
  else _resample s draw train_indices.

(** [SequentialTimeFold.__init__] passes four arguments to
    [BaseTimeFold.__init__], which takes six and has no defaults: the call
    is a [TypeError] whatever the arguments. *)
Definition SequentialTimeFold_init (df : list Row) (step_size : Z)
    (max_folds : Z) (test_set_date : Z) : result BaseTimeFold :=
  Raise TypeError.

(** The two bounds of a test slice made [Timestamp]s, as the comparisons of
    the dates with them do first. *)
Definition slice_bounds (test_date test_date_plus : Z) : result (Z * Z) :=
  lo ← to_timestamp test_date;
  hi ← to_timestamp test_date_plus;
  mret (lo, hi).

#[global] Arguments slice_bounds : simpl never.

(** The [while test_indices.shape[0] == 0] loop of
    [SequentialTimeFold.next]: [None] when it is still running after [fuel]
    rounds. *)
Fixpoint Sequential_search (fuel : nat) (s : BaseTimeFold)
  : option (result fold * BaseTimeFold) :=
  match fuel with
  | O => None
  | S fuel' =>
      let test_date := test_date s in
      match Datetime.add test_date (Datetime.days 1) with
      | Raise e => Some (Raise e, s)
      | Ok test_date_plus =>
          match slice_bounds test_date test_date_plus with
          | Raise e => Some (Raise e, s)
          | Ok _ =>
              let test_indices :=
                np_where (fun d => (test_date <=? d) && (d <? test_date_plus))
                  (all_dates s) in
              let train_indices :=
                np_where (fun d => d <? test_date) (all_dates s) in
              match Datetime.sub test_date (step_size s) with
              | Raise e => Some (Raise e, s)
              | Ok d =>
                  let s' := set_test_date s d in
                  if bool_decide (test_indices = [])
                  then Sequential_search fuel' s'
                  else Some (Ok (train_indices, test_indices), s')
              end
          end
      end
  end.

(** The fold cap that ends both [next] methods. *)
Definition cap (f : fold) (s : BaseTimeFold) : result fold * BaseTimeFold :=
  if Z.of_nat (n_folds s) <=? max_folds s
  then (Ok f, incr_n_folds s)
  else (Raise StopIteration, s).

(** [SequentialTimeFold.next] *)
Definition SequentialTimeFold_next (fuel : nat) (s : BaseTimeFold)
  : option (result fold * BaseTimeFold) :=
  match Sequential_search fuel s with
  | None => None
  | Some (Raise e, s') => Some (Raise e, s')
  | Some (Ok f, s') => Some (cap f s')
  end.

Record StratifiedTimeFold : Type := {
  base : BaseTimeFold;
  years_list : list Z;
  days_back : Z;
  cutoff_train_fire_pct : Q;
}.

Definition set_base (s : StratifiedTimeFold) (b : BaseTimeFold)
  : StratifiedTimeFold :=
  {| base := b; years_list := years_list s; days_back := days_back s;
     cutoff_train_fire_pct := cutoff_train_fire_pct s |}.

(** [StratifiedTimeFold._set_years_list]: on an empty column the years are
    those of [NaT], which are [nan], and [xrange(nan, nan + 1)] is a
    [TypeError]. *)
Definition _set_years_list (dates : list Z) : result (list Z) :=
  match series_max dates, series_min dates with
  | Some last, Some first =>
      Ok (xrange (Datetime.year first) (Datetime.year last + 1))
  | _, _ => Raise TypeError
  end.

(** [StratifiedTimeFold.__init__]; its defaults are
    [cutoff_train_fire_pct=0.05], [resample_train_fire_pct=0.20] and
    [resample_method='downsample']. *)
Definition StratifiedTimeFold_init (df : list Row) (step_size : Z)
    (max_folds : Z) (test_set_date : Z) (days_back : Z)
    (cutoff_train_fire_pct resample_train_fire_pct : Q)
    (resample_method : string) : result StratifiedTimeFold :=
  b ← BaseTimeFold_init df step_size max_folds test_set_date
        resample_train_fire_pct resample_method;
  ys ← _set_years_list (all_dates b);
  mret {| base := b; years_list := ys; days_back := days_back;
          cutoff_train_fire_pct := cutoff_train_fire_pct |}.

(** [StratifiedTimeFold._get_date_range] *)
Definition _get_date_range (s : StratifiedTimeFold) (year : Z)
  : result (option (Z * Z)) :=
  let d := test_date (base s) in
  start_date_range ←
    (if year =? Datetime.year d then Ok d
     else Datetime.datetime year (Datetime.month d) (Datetime.day d + 1) 0 0 0);
  end_date_range ← Datetime.sub start_date_range (Datetime.days (days_back s));
  start ← to_timestamp end_date_range;
  stop ← to_timestamp start_date_range;
  mret (date_range start stop).

(** [StratifiedTimeFold._grab_indices] *)
Definition _grab_indices (s : StratifiedTimeFold) (year : Z)
  : result (list nat) :=
  r ← _get_date_range s year;
  mret (np_where (in_date_range r) (all_dates (base s))).

(** The [for year in self.years_list] loop of [StratifiedTimeFold.next]. *)
Fixpoint grab_years (s : StratifiedTimeFold) (years : list Z)
    (train_indices : list nat) : result (list nat) :=
  match years with
  | [] => Ok train_indices
  | year :: years' =>
      match _grab_indices s year with
      | Raise e => Raise e
      | Ok train_idx_temp => grab_years s years' (train_idx_temp ++ train_indices)
      end
  end.

(** The [while test_indices.shape[0] == 0] loop of
    [StratifiedTimeFold.next].  [train_indices] is assigned once before the
    loop and carried from one round to the next. *)
Fixpoint Stratified_search (fuel : nat) (s : StratifiedTimeFold)
    (train_indices : list nat) : option (result fold * StratifiedTimeFold) :=
  match fuel with
  | O => None
  | S fuel' =>
      let b := base s in
      let test_date := test_date b in
      match Datetime.add test_date (step_size b) with
      | Raise e => Some (Raise e, s)
      | Ok test_date_plus =>
          match slice_bounds test_date test_date_plus with
          | Raise e => Some (Raise e, s)
          | Ok _ =>
              let test_indices :=
                np_where (fun d => (test_date <=? d) && (d <? test_date_plus))
                  (all_dates b) in
              match grab_years s (years_list s) train_indices with
              | Raise e => Some (Raise e, s)
              | Ok gathered =>
                  let training_perc_fire := mean (fire_rows (df b) gathered) in
                  let train_indices :=
                    if float_lt training_perc_fire (cutoff_train_fire_pct s)
                    then np_where (fun d => d <? test_date) (all_dates b)
                    else gathered in
                  match Datetime.sub test_date (step_size b) with
                  | Raise e => Some (Raise e, s)
                  | Ok d =>
                      let s' := set_base s (set_test_date b d) in
                      if bool_decide (test_indices = [])
                      then Stratified_search fuel' s' train_indices
                      else Some (Ok (train_indices, test_indices), s')
                  end
              end
          end
      end
  end.

(** [StratifiedTimeFold.next].  The two [print]s are left out.  When
    [_check_resample] answers [None], indexing the table with it is taken to
    raise a [TypeError]. *)
Definition StratifiedTimeFold_next (fuel : nat) (draw : list nat)
    (s : StratifiedTimeFold) : option (result fold * StratifiedTimeFold) :=
  match Stratified_search fuel s [] with
  | None => None
  | Some (Raise e, s') => Some (Raise e, s')
  | Some (Ok (train_indices, test_indices), s') =>
      match _check_resample (base s') draw train_indices with
      | Raise e => Some (Raise e, s')
      | Ok None => Some (Raise TypeError, s')
      | Ok (Some train_indices) =>
          let '(r, b) := cap (train_indices, test_indices) (base s') in
          Some (r, set_base s' b)
      end
  end.

(** The calls of [next] that each yielded a fold, one entry of [fuels] per
    call. *)
Fixpoint Sequential_folds (fuels : list nat) (s : BaseTimeFold)
  : option (list fold * BaseTimeFold) :=
  match fuels with
  | [] => Some ([], s)
  | fuel :: fuels' =>
      match SequentialTimeFold_next fuel s with
      | Some (Ok f, s') =>
          match Sequential_folds fuels' s' with
          | Some (fs, s'') => Some (f :: fs, s'')
          | None => None
          end
      | _ => None
      end
  end.

(** The same for [StratifiedTimeFold], each call with its fuel and its
    random draw. *)
Fixpoint Stratified_folds (calls : list (nat * list nat))
    (s : StratifiedTimeFold) : option (list fold * StratifiedTimeFold) :=
  match calls with
  | [] => Some ([], s)
  | (fuel, draw) :: calls' =>
      match StratifiedTimeFold_next fuel draw s with
      | Some (Ok f, s') =>
          match Stratified_folds calls' s' with
          | Some (fs, s'') => Some (f :: fs, s'')
          | None => None
          end
      | _ => None
      end
  end.


End DesignA.

(** ** More of Design A *)

Module DesignAMore.
Import Np DesignA.

(** [BaseTimeFold.__len__] *)
Definition len (s : BaseTimeFold) : nat := n_folds s.

(** The rows dated before [d], and the rows dated in [[d, d + width)]. *)
Definition rows_before (dates : list Z) (d : Z) : list nat :=
  np_where (fun x => x <? d) dates.

Definition rows_in (dates : list Z) (d width : Z) : list nat :=
  np_where (fun x => (d <=? x) && (x <? d + width)) dates.

(** The test date of [s] stepped back [k] times. *)
Definition stepped_back (s : BaseTimeFold) (k : nat) : Z :=
  test_date s - Z.of_nat k * step_size s.

(** The fold of [SequentialTimeFold] cut at the test date stepped back [k]
    times. *)
Definition fold_at (s : BaseTimeFold) (k : nat) : fold :=
  (rows_before (all_dates s) (stepped_back s k),
   rows_in (all_dates s) (stepped_back s k) (Datetime.days 1)).

(** The window [_get_date_range] opens in [year]: the [days_back] days
    before the test date, or before the midnight after its day moved to
    that year. *)
Definition in_year_window (s : StratifiedTimeFold) (year d : Z) : Prop :=
  exists start,
    (if year =? Datetime.year (test_date (base s))
     then Ok (test_date (base s))
     else Datetime.datetime year (Datetime.month (test_date (base s)))
            (Datetime.day (test_date (base s)) + 1) 0 0 0) = Ok start /\
    start - Datetime.days (days_back s) <= d < start.


(** A well-formed draw of [randint(0, pop, size)]. *)
Definition randint_draw (pop size : nat) (draw : list nat) : Prop :=
  length draw = size /\ Forall (fun i => (i < pop)%nat) draw.

End DesignAMore.

(** ** The model runner, [run_model.py] *)

Module RunModel.

(** A table: its column names and its rows, each row with one number per
    column. *)
Record DataFrame : Type := {
  columns : list string;
  values : list (list Q);
}.

(** [df.shape[1]] *)
Definition n_columns (d : DataFrame) : Z := Z.of_nat (length (columns d)).

(** The layers [get_neural_net] adds, with the arguments it gives them. *)
Inductive layer : Type :=
  | Dense (input_dim output_dim : Z) (init : string)
  | Activation (name : string)
  | Dropout (p : Q).

(** The models [get_model] instantiates. *)
Inductive model : Type :=
  | LogisticRegression (random_state : Z)
  | RandomForestClassifier (random_state : Z)
  | GradientBoostingClassifier (random_state : Z)
  | Sequential (layers : list layer) (loss optimizer : string).

(** [get_neural_net] *)
Definition get_neural_net (train_data : DataFrame) : model :=
  let hlayer_1_nodes := 200 in
  let hlayer_2_nodes := 200 in
  Sequential
    [ Dense (n_columns train_data - 1) hlayer_1_nodes "uniform";
      Activation "relu";
      Dropout (35 # 100);
      Dense hlayer_1_nodes hlayer_2_nodes "uniform";
      Activation "relu";
      Dropout (35 # 100);
      Dense hlayer_2_nodes 2 "uniform";
      Activation "softmax" ]
    "categorical_crossentropy" "adadelta".

(** [get_model].  The [if]/[elif] chain has no [else]: on any other name the
    body ends without a [return], and the call answers [None]. *)
Definition get_model (model_name : string) (train_data : DataFrame)
  : result (option model) :=
  let random_seed := 24 in
  if bool_decide (model_name = "logit")
  then Ok (Some (LogisticRegression random_seed))
  else if bool_decide (model_name = "random_forest")
  then Ok (Some (RandomForestClassifier random_seed))
  else if bool_decide (model_name = "gradient_boosting")
  then Ok (Some (GradientBoostingClassifier random_seed))
  else if bool_decide (model_name = "neural_net")
  then Ok (Some (get_neural_net train_data))
  else Ok None.

(** The values of a parameter grid. *)
Inductive pyval : Type :=
  | PStr (s : string)
  | PInt (z : Z)
  | PFloat (q : Q).

(** [get_grid_params]: a dict, or [None] on any other name. *)
Definition get_grid_params (model_name : string)
  : option (gmap string (list pyval)) :=
  if bool_decide (model_name = "logit")
  then Some (<["penalty" := [PStr "l2"; PStr "l1"]]>
             (<["C" := [PFloat (1 # 10); PFloat (5 # 10); PInt 1; PInt 2;
                        PInt 10]]> ∅))
  else if bool_decide (model_name = "random_forest")
  then Some (<["n_estimators" := [PInt 500]]>
             (<["max_depth" := [PInt 3; PInt 5; PInt 10; PInt 20]]> ∅))
  else if bool_decide (model_name = "gradient_boosting")
  then Some (<["learning_rate" := [PFloat (1 # 100); PFloat (5 # 100);
                                   PFloat (1 # 10)]]> ∅)
  else None.

(** The position of the first entry equal to [x]. *)
Fixpoint index_of (x : string) (l : list string) : option nat :=
  match l with
  | [] => None
  | y :: l' => if bool_decide (x = y) then Some O else S <$> index_of x l'
  end.

(** [get_target_features]: the [fire_bool] column, and the table without
    it.  Reading a column the table does not have is an [AttributeError].
    Column names are taken to be distinct: with [fire_bool] more than once
    in the header the code's target is the table of those columns and its
    features lose them all, which a target of one column does not hold; the
    properties below that depend on it ask for distinct names. *)
Definition get_target_features (d : DataFrame)
  : result (list Q * DataFrame) :=
  match index_of "fire_bool" (columns d) with
  | None => Raise AttributeError
  | Some k =>
      Ok (omap (fun row => row !! k) (values d),
          {| columns := delete k (columns d);
             values := delete k <$> values d |})
  end.

(** A fitted model, as [predict_with_model] sees it: whether it is a
    [keras.models.Sequential], and its two prediction methods.  A network
    predicts one row of class probabilities per input row. *)
Inductive fitted_model : Type :=
  | FittedSequential (predict predict_proba : list (list Q) -> list (list Q))
  | FittedClassifier (predict : DataFrame -> list bool)
      (predict_proba : DataFrame -> list (list Q)).

(** [a[:, 1]]: column 1 of a two-dimensional array; an [IndexError] when
    the array has no such column. *)
Fixpoint column_1 (a : list (list Q)) : result (list Q) :=
  match a with
  | [] => Ok []
  | row :: a' =>
      match row !! 1%nat with
      | None => Raise IndexError
      | Some p => ps ← column_1 a'; mret (p :: ps)
      end
  end.

(** [p > 0.50] *)
Definition gt_half (p : Q) : bool := negb (Qle_bool p (50 # 100)).

(** [predict_with_model] *)
Definition predict_with_model (test_data : DataFrame) (m : fitted_model)
  : result (list bool * list (list Q)) :=
  '(target, features) ← get_target_features test_data;
  match m with
  | FittedSequential predict predict_proba =>
      ps ← column_1 (predict (values features));
      mret (gt_half <$> ps, predict_proba (values features))
  | FittedClassifier predict predict_proba =>
      mret (predict features, predict_proba features)
  end.

(** ['\n'] *)
Definition newline : string := String (Ascii.ascii_of_nat 10) EmptyString.

(** [s * n] on strings *)
Fixpoint str_mul (s : string) (n : nat) : string :=
  match n with
  | O => EmptyString
  | S n' => s +:+ str_mul s n'
  end.

(** What one call of [log_results] writes, in the order of its six
    [f.write] calls.  [st] is the formatted time of the call; [params] and
    [scores] are [str(fitted_model.get_params())] and [str(scores)]. *)
Definition log_writes (st model_name params : string)
    (train_columns : list string) (scores : string) : list string :=
  [ st +:+ newline;
    str_mul "-" 100 +:+ newline;
    "Model Run: " +:+ model_name +:+ str_mul newline 2;
    "Params: " +:+ params +:+ str_mul newline 2;
    "Features: " +:+ String.concat ", " train_columns +:+ str_mul newline 2;
    "Scores: " +:+ scores +:+ str_mul newline 2 ].

(** The entry of one run: the text its writes add up to. *)
Definition log_entry (st model_name params : string)
    (train_columns : list string) (scores : string) : string :=
  foldr String.append EmptyString
    (log_writes st model_name params train_columns scores).

Definition log_filename (model_name : string) : string :=
  "./modeling/logs/" +:+ model_name +:+ ".txt".

(** [open(filename, 'a+')]: every write goes to the end of the file, and a
    file that does not exist starts empty. *)
Definition append_to (fs : gmap string string) (filename : string)
    (writes : list string) : gmap string string :=
  <[filename := foldl String.append (default EmptyString (fs !! filename)) writes]> fs.

(** [log_results], on a file system that maps a path to the text of the
    file there (the log directory exists). *)
Definition log_results (st model_name : string) (train_columns : list string)
    (params scores : string) (fs : gmap string string) : gmap string string :=
  append_to fs (log_filename model_name)
    (log_writes st model_name params train_columns scores).

(** [needle] occurs in [s] at its start. *)
Fixpoint starts_with (needle s : string) : bool :=
  match needle, s with
  | EmptyString, _ => true
  | String a n', String b s' => bool_decide (a = b) && starts_with n' s'
  | String _ _, EmptyString => false
  end.

(** [needle] occurs somewhere in [s]. *)
Fixpoint occurs_in (needle s : string) : bool :=
  starts_with needle s
  || match s with
     | EmptyString => false
     | String _ s' => occurs_in needle s'
     end.

End RunModel.

(** ** More of the model runner *)

Module RunModelMore.
Import RunModel.

(** [isinstance(model, keras.models.Sequential)], on what [get_model]
    answers ([None] is no instance of it). *)
Definition is_sequential (m : option model) : bool :=
  match m with
  | Some (Sequential _ _ _) => true
  | _ => false
  end.

(** One run of the script as far as the log sees it: the arguments of its
    call of [log_results]. *)
Record run : Type := {
  run_time : string;
  run_name : string;
  run_columns : list string;
  run_params : string;
  run_scores : string;
}.

Definition log_run (fs : gmap string string) (r : run) : gmap string string :=
  log_results (run_time r) (run_name r) (run_columns r) (run_params r)
    (run_scores r) fs.

Definition run_entry (r : run) : string :=
  log_entry (run_time r) (run_name r) (run_params r) (run_columns r)
    (run_scores r).

(** The file system after a sequence of runs. *)
Definition log_runs (runs : list run) (fs : gmap string string)
  : gmap string string :=
  foldl log_run fs runs.

End RunModelMore.

(** ** Examples *)

(** Concrete tables and iterators the statements below are tried on. *)

Module Examples.

(** Midnight of the day [y]-[m]-[d]. *)
Definition at_date (y m d : Z) : Z :=
  (Calendar.ymd2ord y m d - 1) * Datetime.us_per_day.

(** Three rows on three successive days of June 2015, cut at the second. *)
Definition june_dates : list Z :=
  [at_date 2015 6 14; at_date 2015 6 15; at_date 2015 6 16].

Definition june_B : DesignB.BaseTimeFold :=
  {| DesignB.n_folds := 0; DesignB.dates := june_dates;
     DesignB.step_size := Datetime.days 1;
     DesignB.test_indices := [3; 4]%nat;
     DesignB.init_split_point := at_date 2015 6 15;
     DesignB.split_point := at_date 2015 6 15 |}.

Definition june_stratified_B : DesignB.StratifiedTimeFold :=
  {| DesignB.base := june_B; DesignB.years_list := [2015] |}.


(** A fire on 2014-06-15 and one on 2015-01-01. *)
Definition two_year_df : list DesignA.Row :=
  [ {| DesignA.date_fire := at_date 2014 6 15; DesignA.fire_bool := true |};
    {| DesignA.date_fire := at_date 2015 1 1; DesignA.fire_bool := true |} ].

Definition june_df : list DesignA.Row :=
  [ {| DesignA.date_fire := at_date 2015 6 14; DesignA.fire_bool := true |};
    {| DesignA.date_fire := at_date 2015 6 15; DesignA.fire_bool := false |};
    {| DesignA.date_fire := at_date 2015 6 16; DesignA.fire_bool := false |} ].

(** A [SequentialTimeFold] of Design A as its [next] expects it, two days
    after the last row. *)
Definition june_A : DesignA.BaseTimeFold :=
  {| DesignA.n_folds := 0; DesignA.max_folds := 5; DesignA.df := june_df;
     DesignA.step_size := Datetime.days 1;
     DesignA.test_date := at_date 2015 6 18;
     DesignA.resample_method := "downsample";
     DesignA.resample_train_fire_pct := 20 # 100 |}.

Definition june_stratified_A : DesignA.StratifiedTimeFold :=
  {| DesignA.base := june_A; DesignA.years_list := [2015];
     DesignA.days_back := 1; DesignA.cutoff_train_fire_pct := 5 # 100 |}.

(** A table of [fires] rows with a fire, then [others] rows without one,
    all on one day, and a [BaseTimeFold] of Design A over it. *)
Definition fire_table (fires others : nat) : list DesignA.Row :=
  replicate fires
    {| DesignA.date_fire := at_date 2015 6 14; DesignA.fire_bool := true |}
  ++ replicate others
    {| DesignA.date_fire := at_date 2015 6 14; DesignA.fire_bool := false |}.

Definition resampler (fires others : nat) (pct : Q) (method : string)
  : DesignA.BaseTimeFold :=
  {| DesignA.n_folds := 0; DesignA.max_folds := 5;
     DesignA.df := fire_table fires others;
     DesignA.step_size := Datetime.days 1;
     DesignA.test_date := at_date 2015 6 15;
     DesignA.resample_method := method;
     DesignA.resample_train_fire_pct := pct |}.

(** A test table of four rows with one feature column, and a fitted network
    that predicts the positive-class probabilities 0.2, 0.6, 0.5 and 0.51
    for them. *)
Definition four_rows : RunModel.DataFrame :=
  {| RunModel.columns := ["conf"; "fire_bool"];
     RunModel.values := [[30 # 1; 0]; [80 # 1; 1]; [50 # 1; 0]; [60 # 1; 1]]%Q |}.

Definition four_probabilities : list (list Q) :=
  [[8 # 10; 2 # 10]; [4 # 10; 6 # 10]; [5 # 10; 5 # 10]; [49 # 100; 51 # 100]]%Q.

Definition four_network : RunModel.fitted_model :=
  RunModel.FittedSequential (fun _ => four_probabilities)
    (fun _ => four_probabilities).

(** Two runs of the model [logit], half a minute apart. *)
Definition first_run (fs : gmap string string) : gmap string string :=
  RunModel.log_results "2016-03-01 10:00:00" "logit" ["conf"; "fire_bool"]
    "{C: 1}" "{roc_auc: 0.5}" fs.

Definition second_run (fs : gmap string string) : gmap string string :=
  RunModel.log_results "2016-03-01 10:00:30" "logit" ["conf"; "fire_bool"]
    "{C: 2}" "{roc_auc: 0.6}" fs.

Definition first_entry : string :=
  RunModel.log_entry "2016-03-01 10:00:00" "logit" "{C: 1}"
    ["conf"; "fire_bool"] "{roc_auc: 0.5}".

Definition second_entry : string :=
  RunModel.log_entry "2016-03-01 10:00:30" "logit" "{C: 2}"
    ["conf"; "fire_bool"] "{roc_auc: 0.6}".

(** A line of 100 dashes. *)
Definition dash_line : string := RunModel.str_mul "-" 100 +:+ RunModel.newline.





(** What [StratifiedTimeFold(two_year_df, timedelta(days=1), 5,
    datetime(2014, 6, 16), 366)] of Design A builds. *)
Definition overlap_A : result DesignA.StratifiedTimeFold :=
  DesignA.StratifiedTimeFold_init two_year_df (Datetime.days 1) 5
    (at_date 2014 6 16) 366 (5 # 100) (20 # 100) "downsample".

End Examples.

(** More examples. *)

Module MoreExamples.
Import Examples.

(** The June iterator after two folds, and a [StratifiedTimeFold] of Design B
    whose split point is a 29th of February. *)
Definition june_B_done : DesignB.BaseTimeFold :=
  DesignBMore.Sequential_calls 2 june_B.

Definition leap_day_B : DesignB.StratifiedTimeFold :=
  {| DesignB.base :=
       {| DesignB.n_folds := 0;
          DesignB.dates := [at_date 2015 3 1; at_date 2016 3 1];
          DesignB.step_size := Datetime.days 7;
          DesignB.test_indices := [3; 4]%nat;
          DesignB.init_split_point := at_date 2016 2 29;
          DesignB.split_point := at_date 2016 2 29 |};
     DesignB.years_list := [2015; 2016] |}.

(** A [StratifiedTimeFold] of Design A over two years whose test date is the
    last day of January. *)
Definition month_end_A : DesignA.StratifiedTimeFold :=
  {| DesignA.base :=
       {| DesignA.n_folds := 0; DesignA.max_folds := 5;
          DesignA.df :=
            [ {| DesignA.date_fire := at_date 2014 1 31;
                 DesignA.fire_bool := true |};
              {| DesignA.date_fire := at_date 2015 1 31;
                 DesignA.fire_bool := false |} ];
          DesignA.step_size := Datetime.days 1;
          DesignA.test_date := at_date 2015 1 31;
          DesignA.resample_method := "downsample";
          DesignA.resample_train_fire_pct := 20 # 100 |};
     DesignA.years_list := [2014; 2015];
     DesignA.days_back := 14; DesignA.cutoff_train_fire_pct := 5 # 100 |}.

End MoreExamples.

(** * Properties *)

(** ** The calendar *)

Module CalendarFacts.
Import Calendar.

Lemma all_upto_iter (p : Z -> bool) (k : positive) :
  let st := Pos.iter (fun st => (st.1 + 1, st.2 && p st.1)) (1, true) k in
  st.1 = 1 + Z.pos k /\
  (st.2 = true -> forall i, 1 <= i <= Z.pos k -> p i = true).
Proof.
  induction k as [|k IH] using Pos.peano_ind; cbn zeta.
  - cbn. split; [done|]. intros H i Hi.
    assert (i = 1) as -> by lia. by destruct (p 1).
  - rewrite Pos.iter_succ. cbn zeta in IH. destruct IH as [IH1 IH2].
    cbn [fst snd]. split; [lia|].
    intros [H1 H2]%andb_true_iff i Hi.
    destruct (decide (i = Z.pos (Pos.succ k))) as [->|Hne].
    + rewrite IH1 in H2. by replace (Z.pos (Pos.succ k)) with (1 + Z.pos k) by lia.
    + apply IH2; [done|lia].
Qed.

Lemma all_upto_spec (p : Z -> bool) (k : positive) :
  all_upto k p = true -> forall i, 1 <= i <= Z.pos k -> p i = true.
Proof. intros H. by apply (all_upto_iter p k). Qed.

Lemma days_checked :
  all_upto 365 (fun i => day_check false (i - 1) && day_check true (i - 1))
  = true.
Proof. vm_compute. reflexivity. Qed.

Lemma day_check_ok (leapyear : bool) (n : Z) :
  0 <= n < 365 -> day_check leapyear n = true.
Proof.
  intros Hn.
  pose proof (all_upto_spec _ _ days_checked (n + 1) ltac:(lia)) as H.
  cbn beta in H. replace (n + 1 - 1) with n in H by lia.
  apply andb_true_iff in H as [? ?]. by destruct leapyear.
Qed.

Lemma years_checked :
  all_upto 4 (fun a =>
    all_upto 25 (fun b =>
      all_upto 4 (fun c => year_check (a - 1) (b - 1) (c - 1)))) = true.
Proof. vm_compute. reflexivity. Qed.

Lemma year_check_ok (n100 n4 n1 : Z) :
  0 <= n100 < 4 -> 0 <= n4 < 25 -> 0 <= n1 < 4 ->
  year_check n100 n4 n1 = true.
Proof.
  intros H100 H4 H1.
  pose proof (all_upto_spec _ _ years_checked (n100 + 1) ltac:(lia)) as Ha.
  cbn beta in Ha.
  pose proof (all_upto_spec _ _ Ha (n4 + 1) ltac:(lia)) as Hb. cbn beta in Hb.
  pose proof (all_upto_spec _ _ Hb (n1 + 1) ltac:(lia)) as Hc. cbn beta in Hc.
  by replace (n100 + 1 - 1) with n100 in Hc by lia;
     replace (n4 + 1 - 1) with n4 in Hc by lia;
     replace (n1 + 1 - 1) with n1 in Hc by lia.
Qed.

(** [ord2ymd] on the day [r + 1] of the first cycle. *)
Lemma ord2ymd_cycle (r : Z) :
  0 <= r < 146097 ->
  let n100 := r / DI100Y in
  let n4 := (r mod DI100Y) / DI4Y in
  let n1 := ((r mod DI100Y) mod DI4Y) / 365 in
  let n := ((r mod DI100Y) mod DI4Y) mod 365 in
  ord2ymd (r + 1) =
  if (n1 =? 4) || (n100 =? 4) then (n100 * 100 + n4 * 4 + n1, 12, 31)
  else (1 + n100 * 100 + n4 * 4 + n1,
        (month_day (leap_flag n100 n4 n1) n).1,
        (month_day (leap_flag n100 n4 n1) n).2).
Proof.
  intros Hr. cbv zeta. unfold ord2ymd, month_day, leap_flag.
  replace (r + 1 - 1) with r by lia.
  rewrite (Z.div_small r DI400Y), (Z.mod_small r DI400Y) by (unfold DI400Y; lia).
  cbn zeta.
  repeat match goal with
  | |- context [if ?c then _ else _] => destruct c
  end; cbn [fst snd]; f_equal; try f_equal; lia.
Qed.

Lemma cycle_check_ok (n : Z) : 1 <= n <= 146097 -> cycle_check n = true.
Proof.
  intros Hn. unfold cycle_check.
  replace n with (n - 1 + 1) at 1 by lia.
  rewrite (ord2ymd_cycle (n - 1)) by lia. cbv zeta. unfold DI100Y, DI4Y.
  pose proof (Z.div_mod (n - 1) 36524 ltac:(lia)) as E100.
  pose proof (Z.mod_pos_bound (n - 1) 36524 ltac:(lia)) as B100.
  set (n100 := (n - 1) / 36524) in *. set (r1 := (n - 1) mod 36524) in *.
  pose proof (Z.div_mod r1 1461 ltac:(lia)) as E4.
  pose proof (Z.mod_pos_bound r1 1461 ltac:(lia)) as B4.
  set (n4 := r1 / 1461) in *. set (r2 := r1 mod 1461) in *.
  pose proof (Z.div_mod r2 365 ltac:(lia)) as E1.
  pose proof (Z.mod_pos_bound r2 365 ltac:(lia)) as B1.
  set (n1 := r2 / 365) in *. set (r3 := r2 mod 365) in *.
  assert (0 <= n100 <= 4) as H100 by lia.
  assert (0 <= n4 <= 24) as H4 by lia.
  assert (0 <= n1 <= 4) as H1 by lia.
  destruct (Z.eqb_spec n100 4) as [E|N100].
  { (* the last day of the cycle *)
    rewrite orb_true_r.
    assert (n4 = 0 /\ n1 = 0 /\ n = 146097) as (-> & -> & ->) by lia.
    rewrite E. reflexivity. }
  destruct (Z.eqb_spec n1 4) as [E|N1]; cbn [orb].
  { (* the last day of a leap year *)
    assert (n4 < 24) as H4' by lia.
    pose proof (year_check_ok n100 n4 3 ltac:(lia) ltac:(lia) ltac:(lia)) as Hy.
    unfold year_check, leap_flag, DI100Y, DI4Y in Hy. cbv zeta in Hy.
    apply andb_true_iff in Hy as [Hleap%bool_decide_eq_true Hdby%Z.eqb_eq].
    replace (n4 =? 24) with false in Hleap by (symmetry; apply Z.eqb_neq; lia).
    cbn in Hleap. rewrite E.
    replace (n100 * 100 + n4 * 4 + 4) with (1 + n100 * 100 + n4 * 4 + 3) by lia.
    unfold valid_ymd, days_in_month, ymd2ord, days_before_month.
    rewrite Hleap, Hdby. cbn.
    repeat (apply andb_true_iff; split);
      first [apply Z.leb_le; lia | apply Z.eqb_eq; lia | idtac].
    apply orb_true_iff.
    destruct (Z.ltb_spec 145731 n); [by left|right; apply Z.leb_le; lia]. }
  pose proof (year_check_ok n100 n4 n1 ltac:(lia) ltac:(lia) ltac:(lia)) as Hy.
  unfold year_check, DI100Y, DI4Y in Hy. cbv zeta in Hy.
  apply andb_true_iff in Hy as [Hleap%bool_decide_eq_true Hdby%Z.eqb_eq].
  pose proof (day_check_ok (leap_flag n100 n4 n1) r3 B1) as Hd.
  unfold day_check in Hd.
  destruct (month_day (leap_flag n100 n4 n1) r3) as [m d]. cbn [fst snd].
  apply andb_true_iff in Hd as [Hd Hsum%Z.eqb_eq].
  apply andb_true_iff in Hd as [Hd Hdim%Z.leb_le].
  apply andb_true_iff in Hd as [Hd Hd1%Z.leb_le].
  apply andb_true_iff in Hd as [Hm1%Z.leb_le Hm12%Z.leb_le].
  unfold valid_ymd, days_in_month, ymd2ord, days_before_month.
  rewrite Hleap, Hdby.
  assert (DAYS_IN_MONTH m
          + (if (m =? 2) && leap_flag n100 n4 n1 then 1 else 0)
          = (if (m =? 2) && leap_flag n100 n4 n1 then 29 else DAYS_IN_MONTH m))
    as Hdim'.
  { destruct (Z.eqb_spec m 2) as [->|]; [|cbn; lia].
    destruct (leap_flag n100 n4 n1); reflexivity. }
  rewrite Hdim' in Hdim.
  repeat (apply andb_true_iff; split);
    first [apply Z.leb_le; lia | apply Z.eqb_eq; lia | idtac].
  apply orb_true_iff.
  destruct (Z.ltb_spec 145731 n); [by left|right; apply Z.leb_le; lia].
Qed.

Lemma is_leap_shift (y q : Z) : is_leap (y + 400 * q) = is_leap y.
Proof.
  unfold is_leap.
  replace ((y + 400 * q) mod 4) with (y mod 4)
    by (replace (y + 400 * q) with (y + (100 * q) * 4) by lia; by rewrite Z.mod_add).
  replace ((y + 400 * q) mod 100) with (y mod 100)
    by (replace (y + 400 * q) with (y + (4 * q) * 100) by lia; by rewrite Z.mod_add).
  replace ((y + 400 * q) mod 400) with (y mod 400)
    by (replace (y + 400 * q) with (y + q * 400) by lia; by rewrite Z.mod_add).
  done.
Qed.

Lemma days_before_year_shift (y q : Z) :
  days_before_year (y + 400 * q) = days_before_year y + 146097 * q.
Proof.
  unfold days_before_year. cbn zeta.
  replace (y + 400 * q - 1) with (y - 1 + 400 * q) by lia.
  replace ((y - 1 + 400 * q) / 4) with ((y - 1) / 4 + 100 * q)
    by (replace (y - 1 + 400 * q) with (y - 1 + (100 * q) * 4) by lia; by rewrite Z.div_add).
  replace ((y - 1 + 400 * q) / 100) with ((y - 1) / 100 + 4 * q)
    by (replace (y - 1 + 400 * q) with (y - 1 + (4 * q) * 100) by lia; by rewrite Z.div_add).
  replace ((y - 1 + 400 * q) / 400) with ((y - 1) / 400 + q)
    by (replace (y - 1 + 400 * q) with (y - 1 + q * 400) by lia; by rewrite Z.div_add).
  lia.
Qed.

Lemma ymd2ord_shift (y m d q : Z) :
  ymd2ord (y + 400 * q) m d = ymd2ord y m d + 146097 * q.
Proof.
  unfold ymd2ord, days_before_month.
  rewrite days_before_year_shift, is_leap_shift. lia.
Qed.

Lemma valid_ymd_shift (y m d q : Z) :
  valid_ymd (y + 400 * q) m d = valid_ymd y m d.
Proof. unfold valid_ymd, days_in_month. by rewrite is_leap_shift. Qed.

Lemma ord2ymd_shift (n : Z) :
  ord2ymd n = shift_year ((n - 1) / 146097) (ord2ymd ((n - 1) mod 146097 + 1)).
Proof.
  unfold ord2ymd, DI400Y.
  pose proof (Z.mod_pos_bound (n - 1) 146097 ltac:(lia)) as Hr.
  set (r := (n - 1) mod 146097) in *.
  set (q := (n - 1) / 146097).
  replace (r + 1 - 1) with r by lia.
  rewrite (Z.div_small r 146097), (Z.mod_small r 146097) by lia.
  cbn zeta.
  repeat match goal with
  | |- context [if ?c then _ else _] => destruct c
  end; unfold shift_year; cbn [fst snd]; f_equal; try f_equal; lia.
Qed.

Lemma cycle_day_range (n : Z) : 1 <= (n - 1) mod 146097 + 1 <= 146097.
Proof. pose proof (Z.mod_pos_bound (n - 1) 146097 ltac:(lia)). lia. Qed.

(** [ord2ymd] answers a date of the calendar, the one [ymd2ord] numbers [n]. *)
Lemma ord2ymd_spec (n : Z) :
  ymd2ord (ord2ymd n).1.1 (ord2ymd n).1.2 (ord2ymd n).2 = n /\
  valid_ymd (ord2ymd n).1.1 (ord2ymd n).1.2 (ord2ymd n).2 = true.
Proof.
  rewrite ord2ymd_shift.
  pose proof (cycle_check_ok _ (cycle_day_range n)) as Hc.
  unfold cycle_check in Hc.
  destruct (ord2ymd ((n - 1) mod 146097 + 1)) as [[y m] d].
  unfold shift_year; cbn [fst snd].
  rewrite ymd2ord_shift, valid_ymd_shift.
  apply andb_true_iff in Hc as [Hc _].
  apply andb_true_iff in Hc as [Hc _].
  apply andb_true_iff in Hc as [Hc _].
  apply andb_true_iff in Hc as [Hv Hc%Z.eqb_eq].
  split; [|done].
  pose proof (Z.div_mod (n - 1) 146097 ltac:(lia)). lia.
Qed.



Lemma days_before_year_succ (y : Z) :
  days_before_year (y + 1)
  = days_before_year y + 365 + (if is_leap y then 1 else 0).
Proof.
  unfold days_before_year, is_leap. cbv zeta.
  replace (y + 1 - 1) with (y - 1 + 1) by lia.
  destruct (Z.eqb_spec (y mod 4) 0), (Z.eqb_spec (y mod 100) 0),
    (Z.eqb_spec (y mod 400) 0); cbn; Z.div_mod_to_equations; lia.
Qed.

Lemma days_before_year_mono (y1 y2 : Z) :
  y1 <= y2 -> days_before_year y1 <= days_before_year y2.
Proof.
  intros H. unfold days_before_year. cbv zeta. Z.div_mod_to_equations. lia.
Qed.

(** The day of the year of a date of the calendar. *)
Lemma day_of_year_range (y m d : Z) :
  valid_ymd y m d = true ->
  1 <= days_before_month y m + d <= 365 + (if is_leap y then 1 else 0).
Proof.
  unfold valid_ymd, days_in_month, days_before_month.
  intros [[[Hm1%Z.leb_le Hm12%Z.leb_le]%andb_true_iff Hd1%Z.leb_le]%andb_true_iff
          Hd%Z.leb_le]%andb_true_iff.
  assert (m = 1 \/ m = 2 \/ m = 3 \/ m = 4 \/ m = 5 \/ m = 6 \/ m = 7 \/ m = 8
          \/ m = 9 \/ m = 10 \/ m = 11 \/ m = 12) as Hm by lia.
  destruct (is_leap y);
    destruct Hm as [->|[->|[->|[->|[->|[->|[->|[->|[->|[->|[->| ->]]]]]]]]]]];
    cbn in *; lia.
Qed.

(** The days of the year [y] are those after [days_before_year y] up to
    [days_before_year (y + 1)]. *)
Lemma ord2ymd_year_bounds (n : Z) :
  days_before_year (ord2ymd n).1.1 < n
  <= days_before_year ((ord2ymd n).1.1 + 1).
Proof.
  destruct (ord2ymd_spec n) as [Hord Hvalid].
  destruct (ord2ymd n) as [[y m] d]. cbn [fst snd] in *.
  pose proof (day_of_year_range y m d Hvalid) as Hday.
  unfold ymd2ord in Hord. rewrite days_before_year_succ. lia.
Qed.

Lemma ord2ymd_year_mono (n1 n2 : Z) :
  n1 <= n2 -> (ord2ymd n1).1.1 <= (ord2ymd n2).1.1.
Proof.
  intros Hn.
  pose proof (ord2ymd_year_bounds n1) as [H1 _].
  pose proof (ord2ymd_year_bounds n2) as [_ H2].
  generalize dependent (ord2ymd n1).1.1. generalize dependent (ord2ymd n2).1.1.
  intros y2 H2 y1 H1.
  destruct (Z.le_gt_cases y1 y2) as [|Hgt]; [done|].
  pose proof (days_before_year_mono (y2 + 1) y1 ltac:(lia)). lia.
Qed.

End CalendarFacts.

(** ** Datetimes *)

Module DatetimeFacts.
Import Calendar CalendarFacts Datetime.

Lemma us_per_day_eq : us_per_day = 86400000000.
Proof. reflexivity. Qed.







Lemma year_mono (t1 t2 : Z) : t1 <= t2 -> year t1 <= year t2.
Proof.
  intros Ht. unfold year. apply ord2ymd_year_mono. unfold toordinal.
  pose proof (Z.div_le_mono t1 t2 us_per_day ltac:(done) Ht). lia.
Qed.

End DatetimeFacts.

(** ** Index arrays *)

Module NpFacts.
Import Np.

Section where_facts.
Context {A : Type} (p : A -> bool).

Lemma elem_of_where_from (l : list A) (k i : nat) :
  i ∈ where_from p k l <->
  (k <= i)%nat /\ exists x, l !! (i - k)%nat = Some x /\ p x = true.
Proof.
  revert k. induction l as [|y l IH]; intros k; cbn.
  - split; [by intros ?%elem_of_nil | by intros (_ & x & ? & _)].
  - assert (i ∈ where_from p (S k) l <->
            (k < i)%nat /\ exists x, (y :: l) !! (i - k)%nat = Some x /\ p x = true)
      as IH'.
    { rewrite IH. split.
      - intros (Hk & x & Hx & Hp). split; [lia|]. exists x. split; [|done].
        replace (i - k)%nat with (S (i - S k)) by lia. done.
      - intros (Hk & x & Hx & Hp). split; [lia|]. exists x. split; [|done].
        replace (i - k)%nat with (S (i - S k)) in Hx by lia. done. }
    destruct (p y) eqn:Hy.
    + rewrite elem_of_cons, IH'. split.
      * intros [->|(Hk & Hx)]; [|split; [lia|done]].
        split; [lia|]. exists y. by rewrite Nat.sub_diag.
      * intros (Hk & x & Hx & Hp).
        destruct (decide (i = k)) as [->|Hne]; [by left|right].
        split; [lia|]. by exists x.
    + rewrite IH'. split.
      * intros (Hk & Hx). split; [lia|done].
      * intros (Hk & x & Hx & Hp).
        destruct (decide (i = k)) as [->|Hne].
        { rewrite Nat.sub_diag in Hx. cbn in Hx. congruence. }
        split; [lia|]. by exists x.
Qed.

Lemma elem_of_np_where (l : list A) (i : nat) :
  i ∈ np_where p l <-> exists x, l !! i = Some x /\ p x = true.
Proof.
  unfold np_where. rewrite elem_of_where_from, Nat.sub_0_r.
  split; [by intros [_ ?] | intros ?; split; [lia|done]].
Qed.

Lemma NoDup_where_from (l : list A) (k : nat) : NoDup (where_from p k l).
Proof.
  revert k. induction l as [|y l IH]; intros k; cbn; [constructor|].
  destruct (p y); [|done]. constructor; [|done].
  rewrite elem_of_where_from. lia.
Qed.

Lemma NoDup_np_where (l : list A) : NoDup (np_where p l).
Proof. apply NoDup_where_from. Qed.

Lemma np_where_lt (l : list A) (i : nat) :
  i ∈ np_where p l -> (i < length l)%nat.
Proof.
  rewrite elem_of_np_where. intros (x & Hx & _). by eapply lookup_lt_Some.
Qed.

Lemma np_where_nil (l : list A) :
  np_where p l = [] <-> forall x, x ∈ l -> p x = false.
Proof.
  split.
  - intros Hnil x (i & Hi)%list_elem_of_lookup.
    destruct (p x) eqn:Hp; [|done].
    assert (i ∈ np_where p l) as Hin by (apply elem_of_np_where; eauto).
    rewrite Hnil in Hin. by apply elem_of_nil in Hin.
  - intros Hall. destruct (np_where p l) as [|i t] eqn:Heq; [done|].
    assert (i ∈ np_where p l) as Hin by (rewrite Heq; left).
    apply elem_of_np_where in Hin as (x & Hx & Hp).
    rewrite (Hall x) in Hp; [done|]. by eapply list_elem_of_lookup_2.
Qed.

End where_facts.

(** Masks that exclude each other select no common position. *)
Lemma np_where_disjoint {A} (p q : A -> bool) (l : list A) :
  (forall x, p x = true -> q x = true -> False) ->
  disjoint_indices (np_where p l) (np_where q l).
Proof.
  intros Hpq i (x & Hx & Hp)%elem_of_np_where (y & Hy & Hq)%elem_of_np_where.
  simplify_eq. eauto.
Qed.

Lemma elem_of_unique (l : list nat) (i : nat) : i ∈ unique l <-> i ∈ l.
Proof. unfold unique. by rewrite merge_sort_Permutation, elem_of_remove_dups. Qed.

Lemma NoDup_unique (l : list nat) : NoDup (unique l).
Proof. unfold unique. rewrite merge_sort_Permutation. apply NoDup_remove_dups. Qed.

Lemma elem_of_intersect1d (a b : list nat) (i : nat) :
  i ∈ intersect1d a b <-> i ∈ a /\ i ∈ b.
Proof. unfold intersect1d. rewrite elem_of_unique, list_elem_of_filter. tauto. Qed.

Lemma elem_of_setdiff1d (a b : list nat) (i : nat) :
  i ∈ setdiff1d a b <-> i ∈ a /\ i ∉ b.
Proof. unfold setdiff1d. rewrite elem_of_unique, list_elem_of_filter. tauto. Qed.

Lemma elem_of_take_idx (a idx : list nat) (x : nat) :
  x ∈ take_idx a idx -> x ∈ a.
Proof.
  unfold take_idx. rewrite list_elem_of_omap.
  intros (i & _ & Hi). by eapply list_elem_of_lookup_2.
Qed.

Lemma take_idx_cons (a idx : list nat) (i : nat) :
  take_idx a (i :: idx) =
  match a !! i with
  | Some x => x :: take_idx a idx
  | None => take_idx a idx
  end.
Proof. unfold take_idx. cbn. by destruct (a !! i). Qed.

Lemma length_take_idx (a idx : list nat) :
  (forall i, i ∈ idx -> (i < length a)%nat) ->
  length (take_idx a idx) = length idx.
Proof.
  induction idx as [|i idx IH]; intros Hlt; [done|].
  rewrite take_idx_cons.
  destruct (lookup_lt_is_Some_2 a i) as [x ->]; [apply Hlt; left|].
  cbn. f_equal. apply IH. intros j Hj. apply Hlt. by right.
Qed.

Lemma NoDup_take_idx (a idx : list nat) :
  NoDup a -> NoDup idx -> NoDup (take_idx a idx).
Proof.
  intros Ha. induction idx as [|i idx IH]; intros Hidx; [constructor|].
  apply NoDup_cons in Hidx as [Hi Hidx]. rewrite take_idx_cons.
  destruct (a !! i) as [x|] eqn:Hx; [|by apply IH].
  constructor; [|by apply IH].
  unfold take_idx. rewrite list_elem_of_omap. intros (j & Hj & Hxj).
  cbn in Hxj. pose proof (NoDup_lookup a i j x Ha Hx Hxj) as ->. done.
Qed.

Lemma permutation_draw_spec (pop : nat) (draw : list nat) :
  permutation_draw pop draw ->
  NoDup draw /\ length draw = pop /\ forall i, i ∈ draw -> (i < pop)%nat.
Proof.
  unfold permutation_draw. intros Hp. split_and!.
  - rewrite Hp. apply NoDup_seq.
  - by rewrite Hp, length_seq.
  - intros i. rewrite Hp, elem_of_seq. lia.
Qed.

(** A sample without replacement: as many distinct entries of [a] as asked
    for. *)
Lemma random_choice_no_replace_spec (a : list nat) (size : nat)
    (draw : list nat) :
  NoDup a -> a <> [] -> (size <= length a)%nat ->
  permutation_draw (length a) draw ->
  exists sample,
    random_choice_no_replace a size draw = Ok sample /\
    length sample = size /\ NoDup sample /\ forall i, i ∈ sample -> i ∈ a.
Proof.
  intros Ha Hne Hsize (Hnd & Hlen & Hlt)%permutation_draw_spec.
  unfold random_choice_no_replace.
  rewrite bool_decide_eq_false_2 by done.
  rewrite bool_decide_eq_false_2 by lia.
  eexists. split; [done|]. split_and!.
  - rewrite length_take_idx, length_take_le; [done|lia|].
    intros i Hi%subseteq_take. by apply Hlt.
  - apply NoDup_take_idx; [done|].
    eapply sublist_NoDup; [exact Hnd|]. apply sublist_take.
  - apply elem_of_take_idx.
Qed.

End NpFacts.

(** ** Design B *)

Module DesignBFacts.
Import Np NpFacts DesignB.

Lemma to_timestamp_ok (t p : Z) :
  to_timestamp t = Ok p -> p = t /\ is_timestamp t = true.
Proof. unfold to_timestamp. destruct (is_timestamp t); by intros [= <-]. Qed.

Lemma to_timestamp_raises (t : Z) (e : exn) :
  to_timestamp t = Raise e -> e = ValueError /\ is_timestamp t = false.
Proof. unfold to_timestamp. destruct (is_timestamp t); by intros [= <-]. Qed.


Lemma series_min_spec (l : list Z) (m : Z) :
  series_min l = Some m -> m ∈ l /\ forall d, d ∈ l -> m <= d.
Proof.
  destruct l as [|x l]; [done|]. cbn. intros [= <-].
  induction l as [|y l [IH1 IH2]]; cbn.
  - split; [left|]. intros d ->%list_elem_of_singleton. lia.
  - split.
    + destruct (Z.min_spec y (foldr Z.min x l)) as [[_ ->]|[_ ->]].
      * right; left.
      * apply elem_of_cons in IH1 as [->|?]; [left|right; by right].
    + intros d [Hd|[Hd|Hd]%elem_of_cons]%elem_of_cons.
      * pose proof (IH2 x ltac:(left)). lia.
      * lia.
      * pose proof (IH2 d ltac:(by right)). lia.
Qed.

(** The two masks of [SequentialTimeFold.next]. *)
Lemma Sequential_next_fold (s : BaseTimeFold) (f : fold) (s' : BaseTimeFold) :
  SequentialTimeFold_next s = (Ok f, s') ->
  f.1 = np_where (fun d => d <? split_point s) (dates s) /\
  f.2 = np_where (fun d => split_point s <=? d) (dates s) /\
  f.2 <> [].
Proof.
  unfold SequentialTimeFold_next.
  destruct (to_timestamp _); [|by intros [=]]. cbn.
  destruct (Datetime.add _ _); [|by intros [=]].
  case_bool_decide as Hnil; cbn; [by intros [=]|].
  by intros [= <- <-].
Qed.

Lemma Sequential_masks_disjoint (p : Z) (l : list Z) :
  disjoint_indices (np_where (fun d => d <? p) l)
                   (np_where (fun d => p <=? d) l).
Proof. apply np_where_disjoint. intros x ?%Z.ltb_lt ?%Z.leb_le. lia. Qed.

Lemma Sequential_masks_partition (p : Z) (l : list Z) :
  np_where (fun d => d <? p) l ++ np_where (fun d => p <=? d) l
  ≡ₚ seq 0 (length l).
Proof.
  apply NoDup_Permutation.
  - apply NoDup_app. split_and!; [apply NoDup_np_where| |apply NoDup_np_where].
    intros i Hi Hi'. by eapply Sequential_masks_disjoint.
  - apply NoDup_seq.
  - intros i. rewrite elem_of_app, elem_of_seq, !elem_of_np_where. split.
    + intros [(x & Hx & _)|(x & Hx & _)]; apply lookup_lt_Some in Hx; lia.
    + intros [_ Hi]. destruct (lookup_lt_is_Some_2 l i ltac:(lia)) as [x Hx].
      destruct (Z.ltb_spec x p).
      * left. exists x. split; [done|]. by apply Z.ltb_lt.
      * right. exists x. split; [done|]. by apply Z.leb_le.
Qed.

Lemma _grab_indices_split (s : BaseTimeFold) (year : Z) (f : fold) :
  _grab_indices s year = Ok f -> split_by s f.
Proof.
  unfold _grab_indices. destruct (_get_date_range s year) as [r|]; [|done].
  cbn. destruct (to_timestamp _); [|done].
  cbn. intros [= <-]. split; cbn; intros i (d & Hd & Hp)%elem_of_np_where;
    exists d; split; try done;
    apply andb_true_iff in Hp as [_ Hp]; [by apply Z.ltb_lt|by apply Z.leb_le].
Qed.

Lemma grab_years_split (s : BaseTimeFold) (years : list Z) (acc f : fold) :
  split_by s acc -> grab_years s years acc = Ok f -> split_by s f.
Proof.
  revert acc. induction years as [|y years IH]; intros acc Hacc; cbn.
  - by intros [= <-].
  - destruct (_grab_indices s y) as [[tr te]|] eqn:Hg; [|done].
    apply IH. apply _grab_indices_split in Hg as [Htr Hte].
    destruct Hacc as [Ha1 Ha2]. split; cbn; intros i [?|?]%elem_of_app; eauto.
Qed.

Lemma split_by_disjoint (s : BaseTimeFold) (f : fold) :
  split_by s f -> disjoint_indices f.1 f.2.
Proof.
  intros [H1 H2] i (d & Hd & Hlt)%H1 (d' & Hd' & Hle)%H2. simplify_eq. lia.
Qed.

Lemma Stratified_next_fold (s : StratifiedTimeFold) (f : fold)
    (s' : StratifiedTimeFold) :
  StratifiedTimeFold_next s = (Ok f, s') ->
  grab_years (incr_n_folds (base s)) (years_list s) ([], []) = Ok f.
Proof.
  unfold StratifiedTimeFold_next.
  case_bool_decide; cbn; [by intros [=]|].
  destruct (grab_years _ _ _) as [[tr te]|]; [|by intros [=]].
  destruct (Datetime.add _ _); [|by intros [=]].
  by intros [= <- _].
Qed.










Lemma datetime_raises (y m d h mi sec : Z) (e : exn) :
  Datetime.datetime y m d h mi sec = Raise e -> e = ValueError.
Proof. unfold Datetime.datetime. destruct (_ && _); by intros [=]. Qed.

Lemma add_raises (t delta : Z) (e : exn) :
  Datetime.add t delta = Raise e -> e = OverflowError.
Proof. unfold Datetime.add. destruct (Datetime.in_range _); by intros [=]. Qed.

Lemma bind_raises {A B} (m : result A) (k : A -> result B) (e : exn) :
  (m ≫= k) = Raise e ->
  m = Raise e \/ exists a, m = Ok a /\ k a = Raise e.
Proof. destruct m as [a|e']; cbn; [by eauto|]. intros [= <-]. by left. Qed.

Lemma bind_ok {A B} (m : result A) (k : A -> result B) (b : B) :
  (m ≫= k) = Ok b -> exists a, m = Ok a /\ k a = Ok b.
Proof. destruct m as [a|e']; cbn; [by eauto|done]. Qed.

Lemma _get_date_range_raises (s : BaseTimeFold) (year : Z) (e : exn) :
  _get_date_range s year = Raise e -> e = ValueError \/ e = OverflowError.
Proof.
  unfold _get_date_range.
  intros [H|(start & _ & [H|(stop & _ & [H|(p1 & _ & [H|(p2 & _ & H)]%bind_raises)
    ]%bind_raises)]%bind_raises)]%bind_raises.
  - apply datetime_raises in H as ->. by left.
  - apply add_raises in H as ->. by right.
  - apply to_timestamp_raises in H as [-> _]. by left.
  - apply to_timestamp_raises in H as [-> _]. by left.
  - done.
Qed.

Lemma _grab_indices_raises_date (s : BaseTimeFold) (year : Z) (e : exn) :
  _grab_indices s year = Raise e -> e = ValueError \/ e = OverflowError.
Proof.
  unfold _grab_indices.
  intros [H|(r & _ & [H|(p & _ & H)]%bind_raises)]%bind_raises.
  - by eapply _get_date_range_raises.
  - apply to_timestamp_raises in H as [-> _]. by left.
  - done.
Qed.




Lemma Stratified_next_empty (s : StratifiedTimeFold) :
  test_indices (base s) = [] ->
  (StratifiedTimeFold_next s).1 = Raise StopIteration.
Proof.
  intros H. unfold StratifiedTimeFold_next. rewrite H. by case_bool_decide.
Qed.

Lemma Stratified_next_step (s : StratifiedTimeFold) (f : fold)
    (s' : StratifiedTimeFold) :
  StratifiedTimeFold_next s = (Ok f, s') ->
  dates (base s') = dates (base s) /\ step_size (base s') = step_size (base s) /\
  split_point (base s') = split_point (base s) + step_size (base s) /\
  test_indices (base s') = f.2 /\
  grab_years (incr_n_folds (base s)) (years_list s) ([], []) = Ok f.
Proof.
  unfold StratifiedTimeFold_next.
  case_bool_decide; cbn; [by intros [=]|].
  destruct (grab_years _ _ _) as [[tr te]|]; [|by intros [=]].
  unfold Datetime.add. destruct (Datetime.in_range _); [|by intros [=]].
  by intros [= <- <-].
Qed.



End DesignBFacts.

Module DesignBMoreFacts.
Import Np NpFacts DatetimeFacts DesignB DesignBFacts DesignBMore.

Lemma np_where_mono {A} (p q : A -> bool) (l : list A) :
  (forall x, p x = true -> q x = true) -> np_where p l ⊆ np_where q l.
Proof.
  intros Hpq i (x & Hx & Hp)%elem_of_np_where.
  apply elem_of_np_where. eauto.
Qed.

(** What a call that yields a fold does to the object. *)
Lemma Sequential_next_state (s : BaseTimeFold) (f : fold) (s' : BaseTimeFold) :
  SequentialTimeFold_next s = (Ok f, s') ->
  dates s' = dates s /\ step_size s' = step_size s /\
  init_split_point s' = init_split_point s /\
  split_point s' = split_point s + step_size s /\
  n_folds s' = S (n_folds s) /\ test_indices s' = f.2.
Proof.
  unfold SequentialTimeFold_next.
  destruct (to_timestamp _); [|by intros [=]]. cbn. unfold Datetime.add.
  destruct (Datetime.in_range _); [|by intros [=]].
  case_bool_decide; cbn; [by intros [=]|]. by intros [= <- <-].
Qed.

(** What a call that raises does to the object. *)
Lemma Sequential_next_raise_state (s : BaseTimeFold) (e : exn)
    (s' : BaseTimeFold) :
  SequentialTimeFold_next s = (Raise e, s') ->
  dates s' = dates s /\ step_size s' = step_size s /\
  n_folds s' = n_folds s /\
  ((e = StopIteration /\ is_timestamp (split_point s) = true /\
    np_where (fun d => split_point s <=? d) (dates s) = [] /\
    test_indices s' = [] /\
    split_point s' = split_point s + step_size s) \/
   (e = OverflowError /\ is_timestamp (split_point s) = true /\
    Datetime.in_range (split_point s + step_size s) = false /\
    split_point s' = split_point s) \/
   (e = ValueError /\ is_timestamp (split_point s) = false /\ s' = s)).
Proof.
  unfold SequentialTimeFold_next.
  destruct (to_timestamp _) as [p|e0] eqn:Hp.
  2:{ apply to_timestamp_raises in Hp as [-> Hp]. intros [= <- <-].
      split_and!; try done. right; right. by split_and!. }
  apply to_timestamp_ok in Hp as [_ Hp].
  cbn. unfold Datetime.add.
  destruct (Datetime.in_range _) eqn:Hr.
  - case_bool_decide as Hnil; cbn; [|by intros [=]].
    intros [= <- <-]. cbn. split_and!; try done. left. by rewrite Hnil.
  - intros [= <- <-]. cbn. split_and!; try done. right; left. by split_and!.
Qed.

Lemma Sequential_folds_cut (k : nat) (s : BaseTimeFold) (fs : list fold)
    (s' : BaseTimeFold) :
  Sequential_folds k s = Some (fs, s') ->
  length fs = k /\
  dates s' = dates s /\ step_size s' = step_size s /\
  init_split_point s' = init_split_point s /\
  split_point s' = split_point s + Z.of_nat k * step_size s /\
  n_folds s' = (n_folds s + k)%nat /\
  forall (j : nat) f, fs !! j = Some f ->
    f.1 = np_where (fun d => d <? split_point s + Z.of_nat j * step_size s)
            (dates s) /\
    f.2 = np_where (fun d => split_point s + Z.of_nat j * step_size s <=? d)
            (dates s).
Proof.
  revert s fs s'. induction k as [|k IH]; intros s fs s'; cbn.
  - intros [= <- <-]. split_and!; try done; lia.
  - destruct (SequentialTimeFold_next s) as [[f|e] s1] eqn:Hnext; [|done].
    destruct (Sequential_folds k s1) as [[fs1 s2]|] eqn:Hfs; [|done].
    intros [= <- <-].
    pose proof (Sequential_next_fold _ _ _ Hnext) as (Htr & Hte & _).
    apply Sequential_next_state in Hnext as (Hd & Hst & Hi & Hsp & Hn & _).
    apply IH in Hfs as (Hlen & Hd' & Hst' & Hi' & Hsp' & Hn' & Hcut).
    split_and!.
    + cbn. by rewrite Hlen.
    + congruence.
    + congruence.
    + congruence.
    + rewrite Hsp', Hsp, Hst. lia.
    + lia.
    + intros [|j] f0; cbn [lookup list_lookup].
      * intros [= <-]. by rewrite Z.mul_0_l, Z.add_0_r.
      * intros Hj%Hcut. rewrite Hd, Hsp, Hst in Hj.
        replace (split_point s + Z.of_nat (S j) * step_size s)
          with (split_point s + step_size s + Z.of_nat j * step_size s) by lia.
        done.
Qed.

Lemma Sequential_stopped (k : nat) (s : BaseTimeFold) :
  0 <= step_size s ->
  (forall d, d ∈ dates s -> d < split_point s) ->
  exists e, (SequentialTimeFold_next (Sequential_calls k s)).1 = Raise e.
Proof.
  revert s. induction k as [|k IH]; intros s Hstep Hlt.
  - cbn [Sequential_calls].
    destruct (SequentialTimeFold_next s) as [[f|e] s1] eqn:Hnext.
    + apply Sequential_next_fold in Hnext as (_ & Hte & Hne).
      exfalso. apply Hne. rewrite Hte. apply np_where_nil.
      intros d Hd%Hlt. apply Z.leb_gt. lia.
    + by exists e.
  - cbn [Sequential_calls].
    destruct (SequentialTimeFold_next s) as [[f|e] s1] eqn:Hnext.
    + apply Sequential_next_fold in Hnext as (_ & Hte & Hne).
      exfalso. apply Hne. rewrite Hte. apply np_where_nil.
      intros d Hd%Hlt. apply Z.leb_gt. lia.
    + cbn. apply Sequential_next_raise_state in Hnext
        as (Hd & Hst & _ & [(_ & _ & _ & _ & Hsp)|[(_ & _ & _ & Hsp)|(_ & _ & ->)]]);
        apply IH; rewrite ?Hd, ?Hst, ?Hsp; try done.
      intros d Hd'%Hlt. lia.
Qed.

(** Every exception of [SequentialTimeFold.next] is the end-of-stream
    signal or comes from a date out of range. *)
Lemma Sequential_next_raises (s : BaseTimeFold) (e : exn) (s' : BaseTimeFold) :
  SequentialTimeFold_next s = (Raise e, s') -> ends_with e.
Proof.
  intros (_ & _ & _ & [(-> & _)|[(-> & _)|(-> & _)]])%Sequential_next_raise_state.
  - by left.
  - right; by left.
  - right; by right.
Qed.

Lemma series_max_spec (l : list Z) (m : Z) :
  series_max l = Some m -> m ∈ l /\ forall d, d ∈ l -> d <= m.
Proof.
  destruct l as [|x l]; [done|]. cbn. intros [= <-].
  induction l as [|y l [IH1 IH2]]; cbn.
  - split; [left|]. intros d ->%list_elem_of_singleton. lia.
  - split.
    + destruct (Z.max_spec y (foldr Z.max x l)) as [[_ ->]|[_ ->]].
      * apply elem_of_cons in IH1 as [->|?]; [left|right; by right].
      * right; left.
    + intros d [Hd|[Hd|Hd]%elem_of_cons]%elem_of_cons.
      * pose proof (IH2 x ltac:(left)). lia.
      * lia.
      * pose proof (IH2 d ltac:(by right)). lia.
Qed.

Lemma elem_of_xrange (lo hi y : Z) : y ∈ xrange lo hi <-> lo <= y < hi.
Proof.
  unfold xrange. rewrite list_elem_of_fmap. split.
  - intros (k & -> & Hk%elem_of_seq). lia.
  - intros Hy. exists (Z.to_nat (y - lo)). split; [lia|].
    apply elem_of_seq. lia.
Qed.

Lemma _grab_indices_window (s : BaseTimeFold) (year : Z) (f : fold) :
  _grab_indices s year = Ok f ->
  forall i, i ∈ f.1 ++ f.2 ->
    exists d, dates s !! i = Some d /\ in_year_window s year d.
Proof.
  unfold _grab_indices, _get_date_range, in_year_window.
  destruct (Datetime.datetime _ _ _ _ _ _) as [start|]; [|done].
  unfold mbind, result_bind, Datetime.add.
  destruct (Datetime.in_range _) eqn:Hr; [|done].
  destruct (to_timestamp start) as [p1|] eqn:H1; [|done].
  apply to_timestamp_ok in H1 as [-> _].
  destruct (to_timestamp (start + _)) as [p2|] eqn:H2; [|done].
  apply to_timestamp_ok in H2 as [-> _].
  destruct (to_timestamp (split_point s)); [|done].
  unfold mret, result_ret. intros [= <-]. cbn [fst snd].
  assert (forall d, in_date_range (date_range start (start + step_size s)) d = true ->
                    start <= d < start + step_size s) as Hwin.
  { intros d. unfold date_range.
    destruct (Z.ltb_spec (start + step_size s) start); [done|]. cbn.
    intros [?%Z.leb_le ?%Z.ltb_lt]%andb_true_iff.
    replace (start + step_size s - start) with (step_size s) in * by lia.
    pose proof (Z.mul_div_le (step_size s) Datetime.us_per_day ltac:(done)).
    lia. }
  intros i [Hi|Hi]%elem_of_app;
    apply elem_of_np_where in Hi as (d & Hd & [Hw _]%andb_true_iff);
    exists d; split; try done; exists start; split; try done; by apply Hwin.
Qed.

Lemma grab_years_window (s : BaseTimeFold) (years : list Z) (acc f : fold) :
  grab_years s years acc = Ok f ->
  forall i, i ∈ f.1 ++ f.2 ->
    i ∈ acc.1 ++ acc.2 \/
    exists d year, dates s !! i = Some d /\ year ∈ years /\
                   in_year_window s year d.
Proof.
  revert acc. induction years as [|y years IH]; intros acc.
  - intros [= <-]. by left.
  - cbn [grab_years].
    destruct (_grab_indices s y) as [[tr te]|] eqn:Hy; [|done].
    intros Hg i Hi. destruct (IH _ Hg i Hi) as [Hacc|(d & y' & ? & ? & ?)].
    + cbn [fst snd] in Hacc.
      assert (i ∈ (tr, te).1 ++ (tr, te).2 \/ i ∈ acc.1 ++ acc.2) as [Hin|?]
        by (cbn [fst snd]; rewrite !elem_of_app in *; tauto); [|by left].
      right. destruct (_grab_indices_window _ _ _ Hy i Hin) as (d & ? & ?).
      exists d, y. split_and!; [done|left|done].
    + right. exists d, y'. split_and!; [done|by right|done].
Qed.

(** A date computation raises a [ValueError] or an [OverflowError]. *)
Lemma grab_years_raises_date (s : BaseTimeFold) (years : list Z) (acc : fold)
    (e : exn) :
  grab_years s years acc = Raise e -> e = ValueError \/ e = OverflowError.
Proof.
  revert acc. induction years as [|y years IH]; intros acc; [done|].
  cbn [grab_years].
  destruct (_grab_indices s y) as [[tr te]|e'] eqn:Hy; [apply IH|].
  intros [= <-]. by eapply _grab_indices_raises_date.
Qed.

(** A year whose window cannot be opened stops the loop over the years. *)
Lemma grab_years_fails (s : BaseTimeFold) (years : list Z) (acc : fold)
    (year : Z) (e : exn) :
  year ∈ years -> _grab_indices s year = Raise e ->
  exists e', grab_years s years acc = Raise e'.
Proof.
  intros Hin Hy. revert acc.
  induction years as [|y years IH]; intros acc; [by apply elem_of_nil in Hin|].
  cbn [grab_years]. destruct (decide (y = year)) as [->|Hne].
  - rewrite Hy. by eexists.
  - destruct (_grab_indices s y) as [[tr te]|e'']; [|by eexists].
    apply IH. apply elem_of_cons in Hin as [?|?]; [congruence|done].
Qed.


End DesignBMoreFacts.

(** ** Design A *)

Module DesignAFacts.
Import Np NpFacts DesignA.

(** A fold the search loop of [SequentialTimeFold.next] finds is cut at
    some test date [d]: the rows before [d], and the rows of the day that
    starts at [d]. *)
Lemma Sequential_search_fold (fuel : nat) (s : BaseTimeFold) (f : fold)
    (s' : BaseTimeFold) :
  Sequential_search fuel s = Some (Ok f, s') ->
  exists d d_plus,
    f.1 = np_where (fun x => x <? d) (all_dates s) /\
    f.2 = np_where (fun x => (d <=? x) && (x <? d_plus)) (all_dates s) /\
    f.2 <> [].
Proof.
  revert s. induction fuel as [|fuel IH]; intros s; cbn; [done|].
  destruct (Datetime.add _ _) as [d_plus|]; [|by intros [=]].
  destruct (slice_bounds _ _); [|by intros [=]].
  destruct (Datetime.sub _ _) as [d'|]; [|by intros [=]].
  case_bool_decide as Hnil.
  - intros (d & dp & H1 & H2 & H3)%IH. by exists d, dp.
  - intros [= <- _]. by exists (test_date s), d_plus.
Qed.

Lemma Sequential_search_disjoint (fuel : nat) (s : BaseTimeFold) (f : fold)
    (s' : BaseTimeFold) :
  Sequential_search fuel s = Some (Ok f, s') -> disjoint_indices f.1 f.2.
Proof.
  intros (d & dp & -> & -> & _)%Sequential_search_fold.
  apply np_where_disjoint.
  intros x ?%Z.ltb_lt [?%Z.leb_le _]%andb_true_iff. lia.
Qed.

Lemma cap_fold (f f' : fold) (s s' : BaseTimeFold) :
  cap f s = (Ok f', s') -> f' = f /\ s' = incr_n_folds s.
Proof. unfold cap. destruct (_ <=? _); by intros [=]. Qed.

Lemma Sequential_next_disjoint (fuel : nat) (s : BaseTimeFold) (f : fold)
    (s' : BaseTimeFold) :
  SequentialTimeFold_next fuel s = Some (Ok f, s') -> disjoint_indices f.1 f.2.
Proof.
  unfold SequentialTimeFold_next.
  destruct (Sequential_search fuel s) as [[[f0|] s0]|] eqn:Hs; [|done..].
  intros [= Hc]. apply cap_fold in Hc as [-> _].
  by eapply Sequential_search_disjoint.
Qed.

(** Resampling answers only indices of the training set it is given. *)
Lemma _resample_subset (s : BaseTimeFold) (draw train out : list nat) :
  _resample s draw train = Ok (Some out) -> forall i, i ∈ out -> i ∈ train.
Proof.
  unfold _resample, random_choice, random_choice_no_replace.
  repeat case_bool_decide; cbn; try done.
  - intros [= <-] i [?|Hi%elem_of_take_idx]%elem_of_app; [done|].
    by apply elem_of_intersect1d in Hi as [_ ?].
  - intros [= <-] i [Hi|Hi%elem_of_take_idx]%elem_of_app.
    + by apply elem_of_intersect1d in Hi as [_ ?].
    + by apply elem_of_setdiff1d in Hi as [? _].
Qed.

Lemma _check_resample_subset (s : BaseTimeFold) (draw train out : list nat) :
  _check_resample s draw train = Ok (Some out) ->
  forall i, i ∈ out -> i ∈ train.
Proof.
  unfold _check_resample. destruct (float_gt _ _).
  - by intros [= <-].
  - apply _resample_subset.
Qed.


Lemma Sequential_search_S (fuel : nat) (s : BaseTimeFold) :
  Sequential_search (S fuel) s =
  match Datetime.add (test_date s) (Datetime.days 1) with
  | Raise e => Some (Raise e, s)
  | Ok test_date_plus =>
      match slice_bounds (test_date s) test_date_plus with
      | Raise e => Some (Raise e, s)
      | Ok _ =>
          match Datetime.sub (test_date s) (step_size s) with
          | Raise e => Some (Raise e, s)
          | Ok d =>
              if bool_decide
                   (np_where
                      (fun x => (test_date s <=? x) && (x <? test_date_plus))
                      (all_dates s) = [])
              then Sequential_search fuel (set_test_date s d)
              else Some (Ok (np_where (fun x => x <? test_date s) (all_dates s),
                             np_where (fun x => (test_date s <=? x)
                                                && (x <? test_date_plus))
                               (all_dates s)),
                         set_test_date s d)
          end
      end
  end.
Proof. reflexivity. Qed.






Lemma Stratified_search_S (fuel : nat) (s : StratifiedTimeFold)
    (acc : list nat) :
  Stratified_search (S fuel) s acc =
  match Datetime.add (test_date (base s)) (step_size (base s)) with
  | Raise e => Some (Raise e, s)
  | Ok test_date_plus =>
      match slice_bounds (test_date (base s)) test_date_plus with
      | Raise e => Some (Raise e, s)
      | Ok _ =>
      match grab_years s (years_list s) acc with
      | Raise e => Some (Raise e, s)
      | Ok gathered =>
          let train_indices :=
            if float_lt (mean (fire_rows (df (base s)) gathered))
                 (cutoff_train_fire_pct s)
            then np_where (fun x => x <? test_date (base s)) (all_dates (base s))
            else gathered in
          match Datetime.sub (test_date (base s)) (step_size (base s)) with
          | Raise e => Some (Raise e, s)
          | Ok d =>
              if bool_decide
                   (np_where (fun x => (test_date (base s) <=? x)
                                       && (x <? test_date_plus))
                      (all_dates (base s)) = [])
              then Stratified_search fuel (set_base s (set_test_date (base s) d))
                     train_indices
              else Some (Ok (train_indices,
                             np_where (fun x => (test_date (base s) <=? x)
                                                && (x <? test_date_plus))
                               (all_dates (base s))),
                         set_base s (set_test_date (base s) d))
          end
      end
      end
  end.
Proof. reflexivity. Qed.






Lemma filter_all {A} (P : A -> Prop) `{!forall x, Decision (P x)} (l : list A) :
  (forall x, x ∈ l -> P x) -> filter P l = l.
Proof.
  induction l as [|x l IH]; intros Hall; [done|].
  rewrite filter_cons_True by (apply Hall; left).
  f_equal. apply IH. intros y Hy. apply Hall. by right.
Qed.

Lemma filter_none {A} (P : A -> Prop) `{!forall x, Decision (P x)} (l : list A) :
  (forall x, x ∈ l -> ~ P x) -> filter P l = [].
Proof.
  induction l as [|x l IH]; intros Hall; [done|].
  rewrite filter_cons_False by (apply Hall; left).
  apply IH. intros y Hy. apply Hall. by right.
Qed.

(** What [_resample] answers under [downsample] when the negatives of the
    training set are at least as many as its positives. *)
Lemma downsample_spec (s : BaseTimeFold) (draw train_indices : list nat) :
  resample_method s = "downsample" ->
  let positive := intersect1d (fire_indices (df s)) train_indices in
  let negative := setdiff1d train_indices (fire_indices (df s)) in
  negative <> [] -> (length positive <= length negative)%nat ->
  permutation_draw (length negative) draw ->
  exists sample,
    _resample s draw train_indices = Ok (Some (positive ++ sample)) /\
    length sample = length positive /\ NoDup sample /\
    (forall i, i ∈ sample -> i ∈ negative) /\
    length (filter (fun i => i ∈ fire_indices (df s)) (positive ++ sample))
    = length positive /\
    length (filter (fun i => i ∉ fire_indices (df s)) (positive ++ sample))
    = length positive.
Proof.
  intros Hm positive negative Hne Hle Hdraw.
  destruct (random_choice_no_replace_spec negative (length positive) draw)
    as (sample & Hs & Hlen & Hnd & Hin); [apply NoDup_unique|done..|].
  exists sample. unfold _resample. rewrite Hm. cbn.
  fold positive negative. rewrite Hs. cbn.
  assert (forall i, i ∈ positive -> i ∈ fire_indices (df s)) as Hpos.
  { intros i Hi. by apply elem_of_intersect1d in Hi as [? _]. }
  assert (forall i, i ∈ sample -> i ∉ fire_indices (df s)) as Hneg.
  { intros i Hi%Hin. by apply elem_of_setdiff1d in Hi as [_ ?]. }
  split_and!; try done.
  - rewrite filter_app, (filter_all _ positive), (filter_none _ sample),
      app_nil_r; [done| |done].
    intros i Hi%Hneg. tauto.
  - rewrite filter_app, (filter_none _ positive), (filter_all _ sample); [|done|].
    + cbn. by rewrite Hlen.
    + intros i Hi%Hpos. tauto.
Qed.

End DesignAFacts.

Module DesignAMoreFacts.
Import Np NpFacts DatetimeFacts DesignA DesignAFacts DesignAMore.

Lemma add_ok (t delta p : Z) : Datetime.add t delta = Ok p -> p = t + delta.
Proof. unfold Datetime.add. destruct (Datetime.in_range _); by intros [=]. Qed.

Lemma sub_ok (t delta p : Z) : Datetime.sub t delta = Ok p -> p = t - delta.
Proof. unfold Datetime.sub. intros ->%add_ok. lia. Qed.


Lemma set_test_date_id (s : BaseTimeFold) : set_test_date s (test_date s) = s.
Proof. by destruct s. Qed.

Lemma stepped_back_0 (s : BaseTimeFold) : stepped_back s 0 = test_date s.
Proof. unfold stepped_back. lia. Qed.

Lemma stepped_back_S (s : BaseTimeFold) (k : nat) :
  stepped_back s (S k) = stepped_back s k - step_size s.
Proof. unfold stepped_back. lia. Qed.

Lemma stepped_back_set (s : BaseTimeFold) (k : nat) :
  stepped_back (set_test_date s (test_date s - step_size s)) k
  = stepped_back s (S k).
Proof. unfold stepped_back. cbn. lia. Qed.

Lemma slice_bounds_raises (d d_plus : Z) (e : exn) :
  slice_bounds d d_plus = Raise e -> e = ValueError.
Proof.
  unfold slice_bounds.
  intros [H|(lo & _ & [H|(hi & _ & H)]%DesignBFacts.bind_raises)
    ]%DesignBFacts.bind_raises; [| |done];
    by apply DesignBFacts.to_timestamp_raises in H as [-> _].
Qed.

(** What the loop of [SequentialTimeFold.next] answers: the fold of the first
    day slice, stepping back from the test date, that holds a row, with the
    test date left one step before it; or the error of a date computation
    out of range, with the test date left where it failed. *)
Lemma Sequential_search_outcome (fuel : nat) (s : BaseTimeFold)
    (r : result fold) (s' : BaseTimeFold) :
  Sequential_search fuel s = Some (r, s') ->
  exists k : nat, (k < fuel)%nat /\
    (forall j : nat, (j < k)%nat ->
       rows_in (all_dates s) (stepped_back s j) (Datetime.days 1) = []) /\
    ((r = Ok (fold_at s k) /\ (fold_at s k).2 <> [] /\
      s' = set_test_date s (stepped_back s (S k))) \/
     (exists e, r = Raise e /\ (e = ValueError \/ e = OverflowError) /\
                s' = set_test_date s (stepped_back s k))).
Proof.
  revert s. induction fuel as [|fuel IH]; intros s; [done|].
  rewrite Sequential_search_S.
  assert (forall e, exists k : nat, (k < S fuel)%nat /\
            (forall j : nat, (j < k)%nat ->
               rows_in (all_dates s) (stepped_back s j) (Datetime.days 1) = []) /\
            ((Raise e = Ok (fold_at s k) /\ (fold_at s k).2 <> [] /\
              s = set_test_date s (stepped_back s (S k))) \/
             (exists e', @Raise fold e = Raise e' /\
                (e = ValueError \/ e = OverflowError ->
                 e' = ValueError \/ e' = OverflowError) /\
                s = set_test_date s (stepped_back s k)))) as Hfail.
  { intros e. exists 0%nat. split; [lia|]. split; [lia|]. right. exists e.
    split; [done|]. split; [done|].
    by rewrite stepped_back_0, set_test_date_id. }
  destruct (Datetime.add _ _) as [p|e] eqn:Hp.
  2:{ intros [= <- <-]. apply DesignBFacts.add_raises in Hp as ->.
      destruct (Hfail OverflowError) as (k & ? & ? & [[? _]|(e' & [= <-] & He & ?)]);
        [done|]. exists k. split_and!; [done..|]. right. exists OverflowError.
      split_and!; [done|by right|done]. }
  apply add_ok in Hp as ->.
  destruct (slice_bounds _ _) as [b|e] eqn:Hb.
  2:{ intros [= <- <-]. apply slice_bounds_raises in Hb as ->.
      destruct (Hfail ValueError) as (k & ? & ? & [[? _]|(e' & [= <-] & He & ?)]);
        [done|]. exists k. split_and!; [done..|]. right. exists ValueError.
      split_and!; [done|by left|done]. }
  destruct (Datetime.sub _ _) as [d|e] eqn:Hd.
  2:{ intros [= <- <-]. unfold Datetime.sub in Hd.
      apply DesignBFacts.add_raises in Hd as ->.
      destruct (Hfail OverflowError) as (k & ? & ? & [[? _]|(e' & [= <-] & He & ?)]);
        [done|]. exists k. split_and!; [done..|]. right. exists OverflowError.
      split_and!; [done|by right|done]. }
  apply sub_ok in Hd as ->. clear Hfail.
  case_bool_decide as Hnil.
  - intros (k & Hk & Hempty & Hr)%IH. exists (S k).
    split; [lia|]. split.
    + intros [|j] Hj.
      * unfold rows_in. by rewrite stepped_back_0.
      * rewrite <- stepped_back_set. apply Hempty. lia.
    + unfold fold_at in *. rewrite !stepped_back_set in Hr.
      destruct Hr as [(-> & Hne & ->)|(e & -> & He & ->)]; [left|right].
      * by split_and!.
      * exists e. by split_and!.
  - intros [= <- <-]. exists 0%nat. split; [lia|]. split; [lia|]. left.
    unfold fold_at, rows_before, rows_in.
    rewrite stepped_back_S, !stepped_back_0. by split_and!.
Qed.

(** The loop of [SequentialTimeFold.next] stops at the first day slice,
    stepping back from the test date, that holds a row. *)
Lemma Sequential_search_steps (fuel : nat) (s : BaseTimeFold) (f : fold)
    (s' : BaseTimeFold) :
  Sequential_search fuel s = Some (Ok f, s') ->
  exists k : nat, (k < fuel)%nat /\
    f = (rows_before (all_dates s) (stepped_back s k),
         rows_in (all_dates s) (stepped_back s k) (Datetime.days 1)) /\
    f.2 <> [] /\
    (forall j : nat, (j < k)%nat ->
       rows_in (all_dates s) (stepped_back s j) (Datetime.days 1) = []) /\
    s' = set_test_date s (stepped_back s k - step_size s).
Proof.
  intros (k & Hk & Hempty & [([= ->] & Hne & ->)|(e & [=] & _)]
    )%Sequential_search_outcome.
  exists k. rewrite stepped_back_S. by split_and!.
Qed.



Lemma Sequential_next_search (fuel : nat) (s : BaseTimeFold) (f : fold)
    (s' : BaseTimeFold) :
  SequentialTimeFold_next fuel s = Some (Ok f, s') ->
  exists s1, Sequential_search fuel s = Some (Ok f, s1) /\
             s' = incr_n_folds s1 /\ Z.of_nat (n_folds s1) <= max_folds s1.
Proof.
  unfold SequentialTimeFold_next.
  destruct (Sequential_search fuel s) as [[[f1|e] s1]|]; [|done..].
  unfold cap. case_match eqn:Hle; [|done]. intros [= <- <-].
  exists s1. split_and!; [done..|]. by apply Z.leb_le.
Qed.

Lemma fold_at_shift (s : BaseTimeFold) (k0 k : nat) :
  fold_at (incr_n_folds (set_test_date s (stepped_back s k0 - step_size s))) k
  = fold_at s (k0 + 1 + k).
Proof.
  unfold fold_at, stepped_back. cbn.
  by replace (test_date s - Z.of_nat k0 * step_size s - step_size s
              - Z.of_nat k * step_size s)
    with (test_date s - Z.of_nat (k0 + 1 + k) * step_size s) by lia.
Qed.

(** The folds of successive calls are cut at test dates further and further
    back. *)
Lemma Sequential_folds_steps (fuels : list nat) (s : BaseTimeFold)
    (fs : list fold) (s' : BaseTimeFold) :
  Sequential_folds fuels s = Some (fs, s') ->
  n_folds s' = (n_folds s + length fs)%nat /\
  (forall (j : nat) f, fs !! j = Some f ->
     exists k : nat, (j <= k)%nat /\ f = fold_at s k /\ f.2 <> []) /\
  (forall (j1 j2 : nat) f1 f2, (j1 < j2)%nat ->
     fs !! j1 = Some f1 -> fs !! j2 = Some f2 ->
     exists k1 k2 : nat, (k1 < k2)%nat /\ f1 = fold_at s k1 /\ f2 = fold_at s k2).
Proof.
  revert s fs s'. induction fuels as [|fuel fuels IH]; intros s fs s'.
  { intros [= <- <-]. cbn. split_and!; [lia|done..]. }
  cbn [Sequential_folds].
  destruct (SequentialTimeFold_next fuel s) as [[[f0|] s1]|] eqn:Hnext; [|done..].
  destruct (Sequential_folds fuels s1) as [[fs1 s2]|] eqn:Hrest; [|done].
  intros [= <- <-].
  apply Sequential_next_search in Hnext as (s0 & Hs & -> & _).
  apply Sequential_search_steps in Hs as (k0 & _ & Hf0 & Hne & _ & ->).
  apply IH in Hrest as (Hn & Hone & Htwo).
  split_and!.
  - rewrite Hn. cbn. lia.
  - intros [|j] f; cbn.
    + intros [= <-]. exists k0. split_and!; [lia|done..].
    + intros (k & Hk & -> & Hne')%Hone. rewrite fold_at_shift in *.
      exists (k0 + 1 + k)%nat. split_and!; [lia|done..].
  - intros [|j1] [|j2] f1 f2 Hj; try lia; cbn.
    + intros [= <-] (k & Hk & -> & _)%Hone. rewrite fold_at_shift.
      exists k0, (k0 + 1 + k)%nat. split_and!; [lia|done..].
    + intros H1 H2.
      destruct (Htwo j1 j2 f1 f2 ltac:(lia) H1 H2) as (k1 & k2 & Hk & -> & ->).
      rewrite !fold_at_shift.
      exists (k0 + 1 + k1)%nat, (k0 + 1 + k2)%nat. split_and!; [lia|done..].
Qed.


(** *** [StratifiedTimeFold] *)

Lemma set_base_set_base (s : StratifiedTimeFold) (b1 b2 : BaseTimeFold) :
  set_base (set_base s b1) b2 = set_base s b2.
Proof. done. Qed.

(** The loop of [StratifiedTimeFold.next] stops at the first slice, a step
    wide and stepping back from the test date, that holds a row. *)
Lemma Stratified_search_steps (fuel : nat) (s : StratifiedTimeFold)
    (acc : list nat) (f : fold) (s' : StratifiedTimeFold) :
  Stratified_search fuel s acc = Some (Ok f, s') ->
  exists k : nat, (k < fuel)%nat /\
    f.2 = rows_in (all_dates (base s)) (stepped_back (base s) k)
            (step_size (base s)) /\
    f.2 <> [] /\
    (forall j : nat, (j < k)%nat ->
       rows_in (all_dates (base s)) (stepped_back (base s) j)
         (step_size (base s)) = []) /\
    s' = set_base s (set_test_date (base s)
                       (stepped_back (base s) k - step_size (base s))).
Proof.
  revert s acc. induction fuel as [|fuel IH]; intros s acc; [done|].
  rewrite Stratified_search_S.
  destruct (Datetime.add _ _) as [p|] eqn:Hp; [|done].
  apply add_ok in Hp as ->.
  destruct (slice_bounds _ _); [|done].
  destruct (grab_years _ _ _) as [gathered|]; [|done]. cbv zeta.
  destruct (Datetime.sub _ _) as [d|] eqn:Hd; [|done].
  apply sub_ok in Hd as ->.
  case_bool_decide as Hnil.
  - intros (k & Hk & Hf & Hne & Hempty & ->)%IH.
    exists (S k). unfold stepped_back in *.
    cbn [test_date set_test_date step_size base set_base all_dates df] in *.
    replace (test_date (base s) - step_size (base s)
             - Z.of_nat k * step_size (base s))
      with (test_date (base s) - Z.of_nat (S k) * step_size (base s)) in * by lia.
    split_and!; [lia|done|done| |done].
    intros [|j] Hj.
    + unfold rows_in. by rewrite Z.mul_0_l, Z.sub_0_r.
    + specialize (Hempty j ltac:(lia)).
      by replace (test_date (base s) - step_size (base s)
                  - Z.of_nat j * step_size (base s))
        with (test_date (base s) - Z.of_nat (S j) * step_size (base s))
        in Hempty by lia.
  - intros [= <- <-]. exists 0%nat. unfold stepped_back, rows_in.
    rewrite Z.mul_0_l, Z.sub_0_r. split_and!; [lia|done|done|lia|done].
Qed.

(** Every index the loops gather is the position of a row. *)
Lemma _grab_indices_length (s : StratifiedTimeFold) (year : Z) (idx : list nat) :
  _grab_indices s year = Ok idx ->
  forall i, i ∈ idx -> (i < length (df (base s)))%nat.
Proof.
  unfold _grab_indices. destruct (_get_date_range s year) as [r|]; [|done].
  cbn. intros [= <-] i Hi%np_where_lt.
  unfold all_dates in Hi. by rewrite length_fmap in Hi.
Qed.

Lemma grab_years_length (s : StratifiedTimeFold) (years : list Z)
    (acc out : list nat) :
  grab_years s years acc = Ok out ->
  (forall i, i ∈ acc -> (i < length (df (base s)))%nat) ->
  forall i, i ∈ out -> (i < length (df (base s)))%nat.
Proof.
  revert acc. induction years as [|y years IH]; intros acc; cbn.
  { by intros [= <-]. }
  destruct (_grab_indices s y) as [idx|] eqn:Hy; [|done].
  intros Hg Hacc. apply (IH _ Hg). intros i [?|?]%elem_of_app; [|by auto].
  by eapply _grab_indices_length.
Qed.

Lemma Stratified_search_length (fuel : nat) (s : StratifiedTimeFold)
    (acc : list nat) (f : fold) (s' : StratifiedTimeFold) :
  Stratified_search fuel s acc = Some (Ok f, s') ->
  (forall i, i ∈ acc -> (i < length (df (base s)))%nat) ->
  forall i, i ∈ f.1 -> (i < length (df (base s)))%nat.
Proof.
  revert s acc. induction fuel as [|fuel IH]; intros s acc; [done|].
  rewrite Stratified_search_S.
  destruct (Datetime.add _ _) as [p|]; [|done].
  destruct (slice_bounds _ _); [|done].
  destruct (grab_years _ _ _) as [gathered|] eqn:Hg; [|done]. cbv zeta.
  destruct (Datetime.sub _ _) as [d|]; [|done].
  intros Hs Hacc.
  assert (forall i,
            i ∈ (if float_lt (mean (fire_rows (df (base s)) gathered))
                      (cutoff_train_fire_pct s)
                 then np_where (fun x => x <? test_date (base s))
                        (all_dates (base s))
                 else gathered) ->
            (i < length (df (base s)))%nat) as Htrain.
  { intros i. destruct (float_lt _ _).
    - intros Hi%np_where_lt. unfold all_dates in Hi.
      by rewrite length_fmap in Hi.
    - by apply (grab_years_length _ _ _ _ Hg). }
  revert Hs. case_bool_decide.
  - intros Hs. by apply (IH _ _ Hs).
  - by intros [= <- <-].
Qed.


(** *** The yearly windows *)

Lemma date_range_back (start db d : Z) :
  in_date_range (date_range (start - Datetime.days db) start) d = true <->
  start - Datetime.days db <= d < start.
Proof.
  unfold date_range, Datetime.days. rewrite us_per_day_eq.
  case_match eqn:Hlt.
  - apply Z.ltb_lt in Hlt. cbn. split; [done|lia].
  - apply Z.ltb_ge in Hlt. cbn.
    replace (start - (start - db * 86400000000)) with (db * 86400000000) by lia.
    rewrite Z.div_mul by lia. rewrite andb_true_iff, Z.leb_le, Z.ltb_lt. lia.
Qed.

Lemma _grab_indices_back_window (s : StratifiedTimeFold) (year : Z)
    (idx : list nat) :
  _grab_indices s year = Ok idx ->
  forall i, i ∈ idx <->
    exists d, all_dates (base s) !! i = Some d /\ in_year_window s year d.
Proof.
  unfold _grab_indices, _get_date_range, in_year_window.
  destruct (if year =? _ then _ else _) as [start|]; [|done].
  unfold mbind, result_bind at 2.
  destruct (Datetime.sub _ _) as [e|] eqn:He; [|done].
  apply sub_ok in He as ->. cbn.
  destruct (to_timestamp (start - _)) as [lo|] eqn:Hlo; [|done].
  apply DesignBFacts.to_timestamp_ok in Hlo as [-> _]. cbn.
  destruct (to_timestamp start) as [hi|] eqn:Hhi; [|done].
  apply DesignBFacts.to_timestamp_ok in Hhi as [-> _]. cbn.
  intros [= <-] i.
  rewrite elem_of_np_where. split.
  - intros (d & Hd & Hin%date_range_back). eauto.
  - intros (d & Hd & start' & [= <-] & Hin). exists d. split; [done|].
    by apply date_range_back.
Qed.

Lemma _get_date_range_month_end (s : StratifiedTimeFold) (year : Z) :
  year <> Datetime.year (test_date (base s)) ->
  Calendar.days_in_month year (Datetime.month (test_date (base s)))
  <= Datetime.day (test_date (base s)) ->
  _get_date_range s year = Raise ValueError.
Proof.
  intros Hy Hd. unfold _get_date_range.
  rewrite (proj2 (Z.eqb_neq _ _) Hy).
  unfold Datetime.datetime, Calendar.valid_ymd.
  rewrite (proj2 (Z.leb_gt (Datetime.day (test_date (base s)) + 1) _))
    by lia.
  by rewrite !andb_false_r.
Qed.

Lemma _grab_indices_raises_ValueError_or_Overflow (s : StratifiedTimeFold)
    (year : Z) (e : exn) :
  _grab_indices s year = Raise e -> e = ValueError \/ e = OverflowError.
Proof.
  unfold _grab_indices, _get_date_range.
  intros [[H|(start & _ & [H|(stop & _ & [H|(lo & _ & [H|(hi & _ & H)
    ]%DesignBFacts.bind_raises)]%DesignBFacts.bind_raises)
    ]%DesignBFacts.bind_raises)]%DesignBFacts.bind_raises|(r & _ & H)
    ]%DesignBFacts.bind_raises.
  - destruct (year =? _); [done|].
    apply DesignBFacts.datetime_raises in H as ->. by left.
  - unfold Datetime.sub in H. apply DesignBFacts.add_raises in H as ->. by right.
  - apply DesignBFacts.to_timestamp_raises in H as [-> _]. by left.
  - apply DesignBFacts.to_timestamp_raises in H as [-> _]. by left.
  - done.
  - done.
Qed.


Lemma grab_years_fails_on_year (s : StratifiedTimeFold) (years : list Z)
    (acc : list nat) (year : Z) (e0 : exn) :
  year ∈ years -> _grab_indices s year = Raise e0 ->
  exists e, grab_years s years acc = Raise e /\
            (e = ValueError \/ e = OverflowError).
Proof.
  revert acc. induction years as [|y years IH]; intros acc Hin Hy.
  { by apply elem_of_nil in Hin. }
  cbn. destruct (_grab_indices s y) as [idx|e1] eqn:Hy1.
  - apply elem_of_cons in Hin as [->|Hin]; [congruence|]. by apply IH.
  - exists e1. split; [done|]. by eapply _grab_indices_raises_ValueError_or_Overflow.
Qed.

(** *** Resampling *)

Lemma fire_rows_cons (df : list Row) (i : nat) (t : list nat) (r : Row) :
  df !! i = Some r -> fire_rows df (i :: t) = fire_bool r :: fire_rows df t.
Proof. unfold fire_rows. cbn. by intros ->. Qed.

(** On a training set of row positions the column read has one entry per
    index, and as many [True] as there are indices of rows with a fire. *)
Lemma fire_rows_count (df : list Row) (train : list nat) :
  (forall i, i ∈ train -> (i < length df)%nat) ->
  length (fire_rows df train) = length train /\
  length (filter (fun b => b = true) (fire_rows df train))
  = length (filter (fun i => i ∈ fire_indices df) train).
Proof.
  induction train as [|i t IH]; intros Hlt; [done|].
  destruct (lookup_lt_is_Some_2 df i) as [r Hr].
  { apply Hlt. left. }
  rewrite (fire_rows_cons _ _ _ _ Hr).
  destruct IH as [IH1 IH2]. { intros j Hj. apply Hlt. by right. }
  split; [cbn; by rewrite IH1|].
  rewrite !filter_cons.
  assert (i ∈ fire_indices df <-> fire_bool r = true) as Hfire.
  { unfold fire_indices. rewrite elem_of_np_where. split.
    - intros (r' & Hr' & ?). by simplify_eq.
    - eauto. }
  destruct (decide (fire_bool r = true)), (decide (i ∈ fire_indices df));
    cbn; try tauto; by rewrite IH2.
Qed.

Lemma length_unique (l : list nat) : NoDup l -> length (unique l) = length l.
Proof.
  intros Hl. apply Permutation_length, NoDup_Permutation;
    [apply NoDup_unique|done|]. intros i. apply elem_of_unique.
Qed.

Lemma length_positive (fire train : list nat) :
  NoDup fire -> NoDup train ->
  length (intersect1d fire train) = length (filter (fun i => i ∈ fire) train).
Proof.
  intros Hf Ht. apply Permutation_length, NoDup_Permutation;
    [apply NoDup_unique|by apply NoDup_filter|].
  intros i. rewrite elem_of_intersect1d, list_elem_of_filter. tauto.
Qed.

Lemma length_negative (fire train : list nat) :
  NoDup train ->
  length (setdiff1d train fire) = length (filter (fun i => i ∉ fire) train).
Proof.
  intros Ht. apply Permutation_length, NoDup_Permutation;
    [apply NoDup_unique|by apply NoDup_filter|].
  intros i. rewrite elem_of_setdiff1d, list_elem_of_filter. tauto.
Qed.

Lemma length_filter_split (fire train : list nat) :
  (length (filter (fun i => i ∈ fire) train)
   + length (filter (fun i => i ∉ fire) train))%nat = length train.
Proof.
  rewrite <- length_app. apply Permutation_length, filter_app_complement.
Qed.

(** A mean of at most a half: no more [True] than [False]. *)
Lemma mean_le_half (col : list bool) (pct : Q) :
  col <> [] -> float_gt (mean col) pct = false -> (pct <= 1 # 2)%Q ->
  (2 * length (filter (fun b => b = true) col) <= length col)%nat.
Proof.
  intros Hne Hgt Hpct. destruct col as [|b col]; [done|].
  unfold float_gt, mean, Qlt_bool in Hgt.
  apply negb_false_iff, Qle_bool_iff in Hgt.
  pose proof (Qle_trans _ _ _ Hgt Hpct) as Hle.
  unfold Qle in Hle. cbn [Qnum Qden] in Hle.
  set (p := length (filter (fun b => b = true) (b :: col))) in *.
  set (n := length (b :: col)) in *.
  assert (n <> 0)%nat by (subst n; cbn; lia).
  assert (Z.pos (Pos.of_nat n) = Z.of_nat n) as Hn.
  { rewrite <- positive_nat_Z. by rewrite Nat2Pos.id. }
  rewrite Hn in Hle. lia.
Qed.

(** *** How a call of [next] ends *)







End DesignAMoreFacts.

(** ** The model runner *)

Module RunModelFacts.
Import RunModel.

Lemma append_assoc (a b c : string) : (a +:+ b) +:+ c = a +:+ (b +:+ c).
Proof.
  induction a as [|x a IH]; [done|].
  change (String x ((a +:+ b) +:+ c) = String x (a +:+ (b +:+ c))).
  by rewrite IH.
Qed.

Lemma append_nil_r (a : string) : a +:+ "" = a.
Proof.
  induction a as [|x a IH]; [done|].
  change (String x (a +:+ "") = String x a). by rewrite IH.
Qed.

(** Writing a sequence of strings at the end of a file adds their
    concatenation to it. *)
Lemma foldl_append (old : string) (writes : list string) :
  foldl String.append old writes
  = old +:+ foldr String.append EmptyString writes.
Proof.
  revert old. induction writes as [|w writes IH]; intros old.
  - cbn. by rewrite append_nil_r.
  - change (foldl String.append (old +:+ w) writes
            = old +:+ (w +:+ foldr String.append EmptyString writes)).
    by rewrite IH, append_assoc.
Qed.

Lemma lookup_log_results (st name : string) (cols : list string)
    (params scores : string) (fs : gmap string string) (path : string) :
  log_results st name cols params scores fs !! path
  = if bool_decide (path = log_filename name)
    then Some (default EmptyString (fs !! path)
               +:+ log_entry st name params cols scores)
    else fs !! path.
Proof.
  unfold log_results, append_to, log_entry. rewrite foldl_append.
  case_bool_decide as Heq.
  - subst path. by rewrite lookup_insert_eq.
  - by rewrite lookup_insert_ne.
Qed.

Lemma starts_with_app (needle post : string) :
  starts_with needle (needle +:+ post) = true.
Proof.
  induction needle as [|x needle IH]; [by destruct post|].
  change (bool_decide (x = x) && starts_with needle (needle +:+ post) = true).
  by rewrite bool_decide_eq_true_2, IH.
Qed.

(** [occurs_in] finds every occurrence. *)
Lemma occurs_in_app (pre needle post : string) :
  occurs_in needle (pre +:+ needle +:+ post) = true.
Proof.
  induction pre as [|x pre IH].
  - change (occurs_in needle (needle +:+ post) = true).
    destruct (needle +:+ post) as [|y rest] eqn:Heq;
      cbn; rewrite <- Heq, starts_with_app; done.
  - change (starts_with needle (String x (pre +:+ needle +:+ post))
            || occurs_in needle (pre +:+ needle +:+ post) = true).
    rewrite IH. apply orb_true_r.
Qed.

Lemma str_mul_dash (n i : nat) (c : Ascii.ascii) :
  String.get i (str_mul "-" n) = Some c -> c = "-"%char.
Proof.
  revert i. induction n as [|n IH]; intros i; [done|].
  change (String.get i (String "-" (str_mul "-" n)) = Some c -> c = "-"%char).
  destruct i as [|i]; cbn; [by intros [= <-]|apply IH].
Qed.

Lemma gt_half_spec (p : Q) : gt_half p = true <-> (50 # 100 < p)%Q.
Proof.
  unfold gt_half. rewrite negb_true_iff, <- not_true_iff_false, Qle_bool_iff.
  split; [apply Qnot_le_lt|apply Qlt_not_le].
Qed.

Lemma column_1_spec (a : list (list Q)) (ps : list Q) :
  column_1 a = Ok ps ->
  length ps = length a /\
  forall i row, a !! i = Some row -> ps !! i = row !! 1%nat.
Proof.
  revert ps. induction a as [|row a IH]; intros ps; cbn.
  - intros [= <-]. split; [done|]. intros i r. by rewrite lookup_nil.
  - destruct (row !! 1%nat) as [p|] eqn:Hp; [|done].
    destruct (column_1 a) as [ps'|]; [|done]. cbn. intros [= <-].
    destruct (IH ps' eq_refl) as [Hlen Hrows]. split; [cbn; by rewrite Hlen|].
    intros [|i] r; cbn; [by intros [= <-]|apply Hrows].
Qed.

End RunModelFacts.

Module RunModelMoreFacts.
Import RunModel RunModelFacts RunModelMore.

Lemma index_of_Some (x : string) (l : list string) (k : nat) :
  index_of x l = Some k ->
  l !! k = Some x /\ forall j, (j < k)%nat -> l !! j <> Some x.
Proof.
  revert k. induction l as [|y l IH]; intros k; [done|]. cbn.
  case_bool_decide as Hxy.
  - intros [= <-]. split; [by rewrite Hxy|]. lia.
  - destruct (index_of x l) as [k'|]; [|done]. cbn. intros [= <-].
    destruct (IH k' eq_refl) as [Hk Hfirst]. split; [done|].
    intros [|j] Hj; cbn; [congruence|]. apply Hfirst. lia.
Qed.

Lemma index_of_None (x : string) (l : list string) :
  index_of x l = None <-> x ∉ l.
Proof.
  induction l as [|y l IH]; cbn.
  - split; [intros _; apply not_elem_of_nil|done].
  - rewrite not_elem_of_cons. case_bool_decide as Hxy.
    + split; [done|]. by intros [? _].
    + destruct (index_of x l) as [k|]; cbn.
      * split; [done|]. intros [_ Hni]. by apply IH in Hni.
      * split; [|done]. intros _. split; [done|]. by apply IH.
Qed.

(** Deleting the one position of a name leaves the other names. *)
Lemma elem_of_delete_NoDup (l : list string) (k : nat) (x y : string) :
  NoDup l -> l !! k = Some x -> y ∈ delete k l <-> y ∈ l /\ y <> x.
Proof.
  revert k. induction l as [|z l IH]; intros k Hnd Hk; [done|].
  apply NoDup_cons in Hnd as [Hz Hnd]. destruct k as [|k]; cbn in *.
  - injection Hk as ->. rewrite elem_of_cons. split.
    + intros Hy. split; [by right|]. by intros ->.
    + by intros [[->|?] ?].
  - rewrite !elem_of_cons, (IH k Hnd Hk). split.
    + intros [->|[? ?]]; [|by auto]. split; [by left|].
      intros ->. apply Hz. by eapply list_elem_of_lookup_2.
    + intros [[->|?] ?]; auto.
Qed.

Lemma length_string_app (a b : string) :
  String.length (a +:+ b) = (String.length a + String.length b)%nat.
Proof.
  induction a as [|x a IH]; [done|].
  change (S (String.length (a +:+ b)) = S (String.length a + String.length b)).
  by rewrite IH.
Qed.

Lemma string_app_inv_head (a b c : string) : a +:+ b = a +:+ c -> b = c.
Proof.
  induction a as [|x a IH]; [done|].
  change (String x (a +:+ b) = String x (a +:+ c) -> b = c).
  intros [= H]. by apply IH.
Qed.

Lemma string_app_inv_tail (a b c : string) : a +:+ c = b +:+ c -> a = b.
Proof.
  revert b. induction a as [|x a IH]; intros [|y b].
  - done.
  - intros H%(f_equal String.length). rewrite !length_string_app in H.
    cbn in H. lia.
  - intros H%(f_equal String.length). rewrite !length_string_app in H.
    cbn in H. lia.
  - change (String x (a +:+ c) = String y (b +:+ c) -> String x a = String y b).
    intros [= -> H]. f_equal. by apply IH.
Qed.

(** Two model names have two log files. *)
Lemma log_filename_inj (n1 n2 : string) :
  log_filename n1 = log_filename n2 -> n1 = n2.
Proof.
  unfold log_filename. intros H%string_app_inv_head.
  by apply string_app_inv_tail in H.
Qed.

(** What a sequence of runs leaves at a path: the entries of the runs that
    log there, in their order, after what the file held. *)
Lemma lookup_log_runs (runs : list run) (fs : gmap string string)
    (path : string) :
  log_runs runs fs !! path =
  match filter (fun r => log_filename (run_name r) = path) runs with
  | [] => fs !! path
  | mine => Some (default EmptyString (fs !! path)
                  +:+ foldr String.append EmptyString (run_entry <$> mine))
  end.
Proof.
  revert fs. induction runs as [|r runs IH]; intros fs; [done|].
  unfold log_runs in *. cbn [foldl]. rewrite IH. rewrite filter_cons.
  unfold log_run. rewrite lookup_log_results.
  destruct (decide (log_filename (run_name r) = path)) as [Heq|Hne].
  - rewrite bool_decide_eq_true_2 by done. cbn [default].
    destruct (filter _ runs) as [|r' mine].
    + cbn [fmap list_fmap foldr]. unfold run_entry, id.
      by rewrite append_nil_r.
    + cbn [fmap list_fmap foldr]. unfold run_entry, id.
      by rewrite append_assoc.
  - by rewrite bool_decide_eq_false_2 by done.
Qed.

Lemma omap_total {A B} (f : A -> option B) (l : list A) :
  (forall x, x ∈ l -> is_Some (f x)) ->
  length (omap f l) = length l /\
  forall i x, l !! i = Some x -> omap f l !! i = f x.
Proof.
  induction l as [|y l IH]; intros Hall; [done|].
  destruct (Hall y ltac:(left)) as [b Hb].
  destruct IH as [IH1 IH2]. { intros x Hx. apply Hall. by right. }
  cbn. rewrite Hb. cbn. split; [by rewrite IH1|].
  intros [|i] x; cbn; [by intros [= <-]|]. apply IH2.
Qed.

Lemma delete_middle {A} (l : list A) (k : nat) (x : A) :
  l !! k = Some x ->
  l = take k (delete k l) ++ x :: drop k (delete k l).
Proof.
  intros Hk. pose proof (lookup_lt_Some _ _ _ Hk) as Hlt.
  rewrite delete_take_drop.
  rewrite take_app_length', drop_app_length' by (rewrite length_take; lia).
  by rewrite take_drop_middle.
Qed.

End RunModelMoreFacts.

(** * The claims of the specification *)

Import Np NpFacts DatetimeFacts Examples.

(** ** C10 *)

(** C10.  In Design B every fold that [SequentialTimeFold.next] yields
    partitions the rows: the train and test arrays together hold every row
    index exactly once, a row dated before the split point in the train
    array and a row dated at or after it in the test array. *)
Theorem SequentialTimeFold_B_fold_partitions (s : DesignB.BaseTimeFold)
    (train test : list nat) (s' : DesignB.BaseTimeFold) :
  DesignB.SequentialTimeFold_next s = (Ok (train, test), s') ->
  train ++ test ≡ₚ seq 0 (length (DesignB.dates s)) /\
  forall i d, DesignB.dates s !! i = Some d ->
    (i ∈ train <-> d < DesignB.split_point s) /\
    (i ∈ test <-> DesignB.split_point s <= d) /\
    (i ∈ train <-> i ∉ test).
Proof.
  intros (Htrain & Htest & _)%DesignBFacts.Sequential_next_fold.
  cbn in Htrain, Htest. subst train test. split.
  - apply DesignBFacts.Sequential_masks_partition.
  - intros i d Hd. rewrite !elem_of_np_where.
    assert ((exists x, DesignB.dates s !! i = Some x /\ (x <? DesignB.split_point s) = true)
            <-> d < DesignB.split_point s) as Htr.
    { split; [intros (x & Hx & ?%Z.ltb_lt); by simplify_eq|].
      intros ?%Z.ltb_lt. eauto. }
    assert ((exists x, DesignB.dates s !! i = Some x /\ (DesignB.split_point s <=? x) = true)
            <-> DesignB.split_point s <= d) as Hte.
    { split; [intros (x & Hx & ?%Z.leb_le); by simplify_eq|].
      intros ?%Z.leb_le. eauto. }
    rewrite Htr, Hte. split_and!; [done..|lia].
Qed.

Lemma SequentialTimeFold_B_fold_partitions_witness :
  [0]%nat ++ [1; 2]%nat ≡ₚ seq 0 (length (DesignB.dates june_B)) /\
  forall i d, DesignB.dates june_B !! i = Some d ->
    (i ∈ [0]%nat <-> d < DesignB.split_point june_B) /\
    (i ∈ [1; 2]%nat <-> DesignB.split_point june_B <= d) /\
    (i ∈ [0]%nat <-> i ∉ [1; 2]%nat).
Proof.
  apply (SequentialTimeFold_B_fold_partitions june_B [0]%nat [1; 2]%nat
           (DesignB.SequentialTimeFold_next june_B).2).
  vm_compute. reflexivity.
Defined.

(** ** C1 *)

(** C1, as the code has it.  Every fold yielded by [SequentialTimeFold]
    (either design) or by the [StratifiedTimeFold] of Design B has no index
    in both its arrays; and the resampling step of Design A answers only
    indices of the training set it is given, so it adds no test index.
    (The [StratifiedTimeFold] of Design A is left out: the windows it
    gathers may cover the test slice.) *)
Theorem time_fold_indices_disjoint :
  (forall s f s',
     DesignB.SequentialTimeFold_next s = (Ok f, s') -> disjoint_indices f.1 f.2) /\
  (forall s f s',
     DesignB.StratifiedTimeFold_next s = (Ok f, s') -> disjoint_indices f.1 f.2) /\
  (forall fuel s f s',
     DesignA.SequentialTimeFold_next fuel s = Some (Ok f, s') ->
     disjoint_indices f.1 f.2) /\
  (forall s draw train_indices resampled,
     DesignA._check_resample s draw train_indices = Ok (Some resampled) ->
     forall i, i ∈ resampled -> i ∈ train_indices).
Proof.
  split_and!.
  - intros s f s' (-> & -> & _)%DesignBFacts.Sequential_next_fold.
    apply DesignBFacts.Sequential_masks_disjoint.
  - intros s f s' Hg%DesignBFacts.Stratified_next_fold.
    eapply DesignBFacts.split_by_disjoint, DesignBFacts.grab_years_split; [|done].
    split; cbn; by intros i ?%elem_of_nil.
  - apply DesignAFacts.Sequential_next_disjoint.
  - apply DesignAFacts._check_resample_subset.
Qed.

Lemma time_fold_indices_disjoint_witness :
  disjoint_indices [0]%nat [1; 2]%nat /\
  disjoint_indices [] [1]%nat /\
  disjoint_indices [0; 1]%nat [2]%nat.
Proof.
  destruct time_fold_indices_disjoint as (HB & HSB & HA & _). split_and!.
  - apply (HB june_B ([0]%nat, [1; 2]%nat)
             (DesignB.SequentialTimeFold_next june_B).2).
    vm_compute. reflexivity.
  - apply (HSB june_stratified_B ([], [1]%nat)
             (DesignB.StratifiedTimeFold_next june_stratified_B).2).
    vm_compute. reflexivity.
  - apply (HA 3%nat june_A ([0; 1]%nat, [2]%nat)
             (DesignA.incr_n_folds
                (DesignA.set_test_date june_A (at_date 2015 6 15)))).
    vm_compute. reflexivity.
Defined.

(** C1 fails for the [StratifiedTimeFold] of Design A.  With a fire on
    2014-06-15 and one on 2015-01-01, a test date of 2014-06-15 and
    [days_back = 366], the window of the year 2015 starts on 2014-06-15:
    row 0 is in the train array and in the test array of the first fold. *)
Lemma Stratified_A_fold_overlaps :
  exists s s',
    overlap_A = Ok s /\
    DesignA.StratifiedTimeFold_next 1 [] s = Some (Ok ([0; 1]%nat, [0]%nat), s') /\
    ~ disjoint_indices [0; 1]%nat [0]%nat.
Proof.
  eexists _, _. split; [vm_compute; reflexivity|].
  split; [vm_compute; reflexivity|].
  intros H. apply (H 0%nat); left.
Qed.

(** The windows and the fallback set of a round of the search stay in the
    training set of the next round.  On the three June rows, with the test
    date two days after the last row and [days_back = 1], the third round
    finds row 2 as its test slice while the training set still holds the
    rows dated before 2015-06-17 of the second round, row 2 among them. *)
Example Stratified_A_carries_training_rows :
  exists s',
    DesignA.StratifiedTimeFold_next 3 [] june_stratified_A
    = Some (Ok ([1; 0; 1; 2]%nat, [2]%nat), s').
Proof. eexists. vm_compute. reflexivity. Qed.

(** ** C8 *)



(** ** C2 *)

Module EndsFacts.



End EndsFacts.




(** ** C4 *)

(** C4 fails at the threshold.  With the defaults of [StratifiedTimeFold]
    ([resample_train_fire_pct = 0.20], [downsample]) and a training set of
    five rows of which one has a fire, the fraction of positive rows is 1/5,
    equal to the threshold, and [_check_resample] resamples: it answers two
    of the five indices.  ([_check_resample] answers the set unchanged only
    when the fraction is strictly greater than the threshold.) *)
Theorem check_resample_resamples_at_threshold :
  let s := resampler 1 4 (20 # 100) "downsample" in
  let train_indices := [0; 1; 2; 3; 4]%nat in
  DesignA.mean (DesignA.fire_rows (DesignA.df s) train_indices) = Some (1 # 5) /\
  (1 # 5 == DesignA.resample_train_fire_pct s)%Q /\
  DesignA._check_resample s [2; 0; 1; 3]%nat train_indices = Ok (Some [0; 3]%nat) /\
  DesignA._check_resample s [2; 0; 1; 3]%nat train_indices
  = DesignA._resample s [2; 0; 1; 3]%nat train_indices.
Proof. cbv zeta. split_and!; reflexivity. Qed.

(** ** C5 *)

(** C5, as the code has it.  When the training set has a negative index and
    at least as many negative indices as positive ones, [_resample] under
    [downsample] answers the positive indices of the training set followed by
    as many of its negative indices, all different; so the answer has as
    many positive rows as the training set and as many negative ones: 10 and
    10 for a training set with 10 positive rows.  When the training set has
    more positive indices than negative ones, [_resample] raises a
    [ValueError], whatever the draw. *)
Theorem downsample_balances (s : DesignA.BaseTimeFold)
    (draw train_indices : list nat) :
  DesignA.resample_method s = "downsample" ->
  let fires := DesignA.fire_indices (DesignA.df s) in
  let positive := intersect1d fires train_indices in
  let negative := setdiff1d train_indices fires in
  (negative <> [] -> (length positive <= length negative)%nat ->
   permutation_draw (length negative) draw ->
   exists sample,
     DesignA._resample s draw train_indices = Ok (Some (positive ++ sample)) /\
     (forall i, i ∈ positive <-> i ∈ train_indices /\ i ∈ fires) /\
     NoDup positive /\
     length sample = length positive /\ NoDup sample /\
     (forall i, i ∈ sample -> i ∈ train_indices /\ i ∉ fires) /\
     length (filter (fun i => i ∈ fires) (positive ++ sample)) = length positive /\
     length (filter (fun i => i ∉ fires) (positive ++ sample)) = length positive /\
     (length positive = 10%nat ->
      length (filter (fun i => i ∈ fires) (positive ++ sample)) = 10%nat /\
      length (filter (fun i => i ∉ fires) (positive ++ sample)) = 10%nat)) /\
  ((length negative < length positive)%nat ->
   DesignA._resample s draw train_indices = Raise ValueError).
Proof.
  intros Hm fires positive negative. split.
  - intros Hne Hle Hdraw.
    destruct (DesignAFacts.downsample_spec s draw train_indices Hm Hne Hle Hdraw)
      as (sample & Hr & Hlen & Hnd & Hin & Hpos & Hneg).
    exists sample. fold fires positive negative in Hr, Hpos, Hneg, Hin.
    split_and!; try done.
    + intros i. unfold positive. rewrite elem_of_intersect1d. tauto.
    + apply NoDup_unique.
    + intros i Hi%Hin. by apply elem_of_setdiff1d in Hi.
    + intros H10. by rewrite Hpos, Hneg.
  - intros Hlt. unfold DesignA._resample, random_choice_no_replace.
    rewrite Hm. rewrite bool_decide_eq_false_2 by done.
    rewrite bool_decide_eq_true_2 by done.
    fold fires. fold positive. fold negative.
    case_bool_decide; [done|].
    by rewrite bool_decide_eq_true_2 by done.
Qed.

Lemma downsample_balances_witness :
  (exists sample,
     DesignA._resample (resampler 2 3 (20 # 100) "downsample") [2; 0; 1]%nat
       [0; 1; 2; 3; 4]%nat = Ok (Some ([0; 1]%nat ++ sample)) /\
     length sample = 2%nat) /\
  DesignA._resample (resampler 3 2 (20 # 100) "downsample") [1; 0]%nat
    [0; 1; 2; 3; 4]%nat = Raise ValueError.
Proof.
  split.
  - destruct (downsample_balances (resampler 2 3 (20 # 100) "downsample")
                [2; 0; 1]%nat [0; 1; 2; 3; 4]%nat ltac:(reflexivity))
      as [Hok _].
    destruct Hok as (sample & Hr & _ & _ & Hlen & _).
    + vm_compute. discriminate.
    + vm_compute. lia.
    + vm_compute.
      change ([2; 0; 1]%nat ≡ₚ [0; 1; 2]%nat).
      etrans; [apply perm_swap|]. apply perm_skip, perm_swap.
    + exists sample. split; [exact Hr|exact Hlen].
  - destruct (downsample_balances (resampler 3 2 (20 # 100) "downsample")
                [1; 0]%nat [0; 1; 2; 3; 4]%nat ltac:(reflexivity))
      as [_ Hraise].
    apply Hraise. vm_compute. lia.
Defined.

(** C5 fails when the positives outnumber the negatives.  On a training set
    of two rows with a fire and one without, [np.random.choice] is asked
    for two of one negative index without replacement and raises: no draw
    makes [_resample] answer. *)
Lemma downsample_raises_on_few_negatives :
  DesignA._resample (resampler 2 1 (20 # 100) "downsample") [0]%nat
    [0; 1; 2]%nat = Raise ValueError /\
  ~ (exists draw resampled,
       DesignA._resample (resampler 2 1 (20 # 100) "downsample") draw
         [0; 1; 2]%nat = Ok (Some resampled)).
Proof.
  split; [reflexivity|]. intros (draw & out & H). revert H.
  unfold DesignA._resample, random_choice_no_replace.
  rewrite bool_decide_eq_false_2 by done.
  rewrite bool_decide_eq_true_2 by done. cbn.
  change (intersect1d _ _) with [0; 1]%nat.
  change (setdiff1d _ _) with [2]%nat.
  cbn. done.
Qed.

(** *** C3 *)

(** C3, as the code has it.  On a name other than [logit], [random_forest],
    [gradient_boosting] and [neural_net], [get_model] raises nothing: it
    answers [None], whatever the train table. *)
Theorem get_model_unknown_name (model_name : string)
    (train_data : RunModel.DataFrame) :
  model_name <> "logit" -> model_name <> "random_forest" ->
  model_name <> "gradient_boosting" -> model_name <> "neural_net" ->
  RunModel.get_model model_name train_data = Ok None.
Proof.
  intros. unfold RunModel.get_model.
  by rewrite !bool_decide_eq_false_2 by done.
Qed.

Lemma get_model_unknown_name_witness :
  RunModel.get_model "svm" four_rows = Ok None.
Proof. apply get_model_unknown_name; discriminate. Defined.

(** C3 fails: [get_model('svm', train)] does not fail with [InvalidInput],
    it returns [None]. *)
Lemma get_model_svm_returns_None :
  RunModel.get_model "svm" four_rows = Ok None /\
  RunModel.get_model "svm" four_rows <> Raise InvalidInput.
Proof. split; [reflexivity|discriminate]. Qed.

(** *** C6 *)

(** C6.  For a fitted network, the hard prediction [predict_with_model]
    answers for a row is true exactly when the probability the network
    predicts for the positive class (column 1) is greater than 0.50; for the
    probabilities 0.2, 0.6, 0.5 and 0.51 the predictions are false, true,
    false and true. *)
Theorem predict_with_model_thresholds :
  (forall test_data predict predict_proba target features ps,
     RunModel.get_target_features test_data = Ok (target, features) ->
     RunModel.column_1 (predict (RunModel.values features)) = Ok ps ->
     exists hard,
       RunModel.predict_with_model test_data
         (RunModel.FittedSequential predict predict_proba)
       = Ok (hard, predict_proba (RunModel.values features)) /\
       length hard = length ps /\
       forall i p, ps !! i = Some p ->
         exists b, hard !! i = Some b /\ (b = true <-> (50 # 100 < p)%Q)) /\
  RunModel.column_1 four_probabilities
  = Ok [2 # 10; 6 # 10; 5 # 10; 51 # 100]%Q /\
  RunModel.predict_with_model four_rows four_network
  = Ok ([false; true; false; true], four_probabilities).
Proof.
  split; [|split; reflexivity].
  intros test_data predict predict_proba target features ps Htf Hps.
  exists (RunModel.gt_half <$> ps). unfold RunModel.predict_with_model.
  rewrite Htf. cbn. rewrite Hps. cbn. split; [done|].
  split; [by rewrite length_fmap|].
  intros i p Hp. exists (RunModel.gt_half p).
  rewrite list_lookup_fmap, Hp. split; [done|].
  apply RunModelFacts.gt_half_spec.
Qed.

Lemma predict_with_model_thresholds_witness :
  exists hard,
    RunModel.predict_with_model four_rows four_network
    = Ok (hard, four_probabilities) /\
    length hard = 4%nat.
Proof.
  destruct predict_with_model_thresholds as [H _].
  destruct (H four_rows (fun _ => four_probabilities)
              (fun _ => four_probabilities)
              [0; 1; 0; 1]%Q
              {| RunModel.columns := ["conf"];
                 RunModel.values := [[30 # 1]; [80 # 1]; [50 # 1]; [60 # 1]]%Q |}
              [2 # 10; 6 # 10; 5 # 10; 51 # 100]%Q)
    as (hard & Hr & Hlen & _); [reflexivity|reflexivity|].
  exists hard. split; [exact Hr|exact Hlen].
Defined.

(** *** C7 *)

(** C7.  [get_grid_params] answers the grid [{penalty: [l2, l1],
    C: [0.1, 0.5, 1, 2, 10]}] for [logit], [{n_estimators: [500],
    max_depth: [3, 5, 10, 20]}] for [random_forest] and
    [{learning_rate: [0.01, 0.05, 0.1]}] for [gradient_boosting]. *)
Theorem get_grid_params_grids :
  RunModel.get_grid_params "logit"
  = Some (list_to_map
            [("penalty", [RunModel.PStr "l2"; RunModel.PStr "l1"]);
             ("C", [RunModel.PFloat (1 # 10); RunModel.PFloat (5 # 10);
                    RunModel.PInt 1; RunModel.PInt 2; RunModel.PInt 10])]) /\
  RunModel.get_grid_params "random_forest"
  = Some (list_to_map
            [("n_estimators", [RunModel.PInt 500]);
             ("max_depth", [RunModel.PInt 3; RunModel.PInt 5;
                            RunModel.PInt 10; RunModel.PInt 20])]) /\
  RunModel.get_grid_params "gradient_boosting"
  = Some (list_to_map
            [("learning_rate", [RunModel.PFloat (1 # 100);
                                RunModel.PFloat (5 # 100);
                                RunModel.PFloat (1 # 10)])]).
Proof. split_and!; reflexivity. Qed.

(** *** C9 *)

(** C9, as the code has it.  [log_results] writes at the end of the log of
    its model name and touches no other file: after two runs with one model
    name the log holds what it held before, then the entry of the first run,
    then the entry of the second.  An entry is a line with the time of the
    run, then a line of 100 dashes, then the model name, the parameters, the
    features and the scores: the dash line is the second line of the entry,
    after the time and before the rest. *)
Theorem log_results_appends (fs : gmap string string)
    (st1 st2 model_name params1 params2 scores1 scores2 : string)
    (columns1 columns2 : list string) :
  let file := RunModel.log_filename model_name in
  let before := default EmptyString (fs !! file) in
  let after :=
    RunModel.log_results st2 model_name columns2 params2 scores2
      (RunModel.log_results st1 model_name columns1 params1 scores1 fs) in
  after !! file
  = Some (before
          +:+ RunModel.log_entry st1 model_name params1 columns1 scores1
          +:+ RunModel.log_entry st2 model_name params2 columns2 scores2) /\
  (forall path, path <> file -> after !! path = fs !! path) /\
  (forall st params columns scores,
     RunModel.log_entry st model_name params columns scores
     = st +:+ RunModel.newline
       +:+ RunModel.str_mul "-" 100 +:+ RunModel.newline
       +:+ "Model Run: " +:+ model_name +:+ RunModel.newline +:+ RunModel.newline
       +:+ "Params: " +:+ params +:+ RunModel.newline +:+ RunModel.newline
       +:+ "Features: " +:+ String.concat ", " columns
       +:+ RunModel.newline +:+ RunModel.newline
       +:+ "Scores: " +:+ scores +:+ RunModel.newline +:+ RunModel.newline) /\
  String.length (RunModel.str_mul "-" 100) = 100%nat /\
  (forall i c, String.get i (RunModel.str_mul "-" 100) = Some c -> c = "-"%char).
Proof.
  cbv zeta. split_and!.
  - rewrite !RunModelFacts.lookup_log_results.
    rewrite !bool_decide_eq_true_2 by done. cbn.
    by rewrite RunModelFacts.append_assoc.
  - intros path Hne. rewrite !RunModelFacts.lookup_log_results.
    by rewrite !bool_decide_eq_false_2 by done.
  - intros st params columns scores.
    unfold RunModel.log_entry, RunModel.log_writes.
    cbn [foldr]. rewrite !RunModelFacts.append_assoc.
    by rewrite RunModelFacts.append_nil_r.
  - reflexivity.
  - apply RunModelFacts.str_mul_dash.
Qed.

(** C9 fails on where the dash line is.  After two runs on an empty file
    system the log is the entry of the first run followed by the entry of
    the second; neither entry comes after a line of 100 dashes, since an
    entry starts with its time. *)
Lemma log_entry_not_preceded_by_dash_line :
  second_run (first_run ∅) !! RunModel.log_filename "logit"
  = Some (first_entry +:+ second_entry) /\
  ~ (exists pre post,
       first_entry +:+ second_entry
       = pre +:+ (dash_line +:+ first_entry) +:+ post) /\
  ~ (exists pre post,
       first_entry +:+ second_entry
       = pre +:+ (dash_line +:+ second_entry) +:+ post).
Proof.
  split_and!.
  - vm_compute. reflexivity.
  - intros (pre & post & H).
    pose proof (RunModelFacts.occurs_in_app pre (dash_line +:+ first_entry) post)
      as Hocc.
    rewrite <- H in Hocc. vm_compute in Hocc. discriminate.
  - intros (pre & post & H).
    pose proof (RunModelFacts.occurs_in_app pre (dash_line +:+ second_entry) post)
      as Hocc.
    rewrite <- H in Hocc. vm_compute in Hocc. discriminate.
Qed.

(** * More properties of the code *)

Import MoreExamples.

(** ** More of Design B *)

(** X1.  In Design B every fold of [SequentialTimeFold] has a test row, and
    each of its train rows is dated before the split point, each of its test
    rows at or after it: no train row is as late as a test row. *)
Theorem Sequential_B_train_before_test (s : DesignB.BaseTimeFold)
    (f : DesignB.fold) (s' : DesignB.BaseTimeFold) :
  DesignB.SequentialTimeFold_next s = (Ok f, s') ->
  f.2 <> [] /\
  forall i j di dj,
    i ∈ f.1 -> j ∈ f.2 ->
    DesignB.dates s !! i = Some di -> DesignB.dates s !! j = Some dj ->
    di < DesignB.split_point s <= dj.
Proof.
  intros (Htr & Hte & Hne)%DesignBFacts.Sequential_next_fold.
  split; [done|]. intros i j di dj Hi Hj Hdi Hdj.
  rewrite Htr in Hi. rewrite Hte in Hj.
  apply elem_of_np_where in Hi as (x & Hx & ?%Z.ltb_lt).
  apply elem_of_np_where in Hj as (y & Hy & ?%Z.leb_le).
  simplify_eq. lia.
Qed.

Lemma Sequential_B_train_before_test_witness :
  [1; 2]%nat <> [] /\
  forall i j di dj,
    i ∈ [0]%nat -> j ∈ [1; 2]%nat ->
    DesignB.dates june_B !! i = Some di -> DesignB.dates june_B !! j = Some dj ->
    di < DesignB.split_point june_B <= dj.
Proof.
  apply (Sequential_B_train_before_test june_B ([0]%nat, [1; 2]%nat)
           (DesignB.SequentialTimeFold_next june_B).2).
  vm_compute. reflexivity.
Defined.

(** X2.  In Design B, after [k] calls of [SequentialTimeFold.next] that each
    yielded a fold, [len] of the iterator has grown by [k], the split point
    has moved by [k] steps, and fold [j] (from 0) is cut at the split point
    the iterator started with plus [j] steps: its train rows are those dated
    before that, its test rows the others. *)
Theorem Sequential_B_folds_cut_at_steps (k : nat) (s : DesignB.BaseTimeFold)
    (fs : list DesignB.fold) (s' : DesignB.BaseTimeFold) :
  DesignB.Sequential_folds k s = Some (fs, s') ->
  length fs = k /\
  DesignBMore.len s' = (DesignBMore.len s + k)%nat /\
  DesignB.split_point s'
  = DesignB.split_point s + Z.of_nat k * DesignB.step_size s /\
  DesignB.init_split_point s' = DesignB.init_split_point s /\
  forall (j : nat) f, fs !! j = Some f ->
    f.1 = np_where
            (fun d => d <? DesignB.split_point s
                           + Z.of_nat j * DesignB.step_size s)
            (DesignB.dates s) /\
    f.2 = np_where
            (fun d => DesignB.split_point s
                      + Z.of_nat j * DesignB.step_size s <=? d)
            (DesignB.dates s).
Proof.
  intros (Hlen & _ & _ & Hi & Hsp & Hn & Hcut)%DesignBMoreFacts.Sequential_folds_cut.
  by split_and!.
Qed.

Lemma Sequential_B_folds_cut_at_steps_witness :
  exists fs s',
    DesignB.Sequential_folds 2 june_B = Some (fs, s') /\
    DesignBMore.len s' = 2%nat /\ DesignB.split_point s' = at_date 2015 6 17.
Proof.
  destruct (DesignB.Sequential_folds 2 june_B) as [[fs s']|] eqn:Hfs;
    [|vm_compute in Hfs; discriminate].
  destruct (Sequential_B_folds_cut_at_steps 2 june_B fs s' Hfs)
    as (_ & Hlen & Hsp & _).
  exists fs, s'. split; [reflexivity|]. split; [exact Hlen|].
  rewrite Hsp. reflexivity.
Defined.

(** X3.  In Design B, with a [step_size] that is not negative, the folds of
    [SequentialTimeFold] nest: a later fold trains on every row an earlier
    fold trained on, and tests only on rows the earlier fold tested on. *)
Theorem Sequential_B_folds_nest (k : nat) (s : DesignB.BaseTimeFold)
    (fs : list DesignB.fold) (s' : DesignB.BaseTimeFold) :
  0 <= DesignB.step_size s ->
  DesignB.Sequential_folds k s = Some (fs, s') ->
  forall (j1 j2 : nat) f1 f2,
    (j1 <= j2)%nat -> fs !! j1 = Some f1 -> fs !! j2 = Some f2 ->
    f1.1 ⊆ f2.1 /\ f2.2 ⊆ f1.2.
Proof.
  intros Hstep (_ & _ & _ & _ & _ & _ & Hcut)%DesignBMoreFacts.Sequential_folds_cut.
  intros j1 j2 f1 f2 Hj (-> & ->)%Hcut (-> & ->)%Hcut.
  assert (Z.of_nat j1 * DesignB.step_size s <= Z.of_nat j2 * DesignB.step_size s)
    by nia.
  split; apply DesignBMoreFacts.np_where_mono; intros x.
  - intros ?%Z.ltb_lt. apply Z.ltb_lt. lia.
  - intros ?%Z.leb_le. apply Z.leb_le. lia.
Qed.

Lemma Sequential_B_folds_nest_witness :
  [0]%nat ⊆ [0; 1]%nat /\ [2]%nat ⊆ [1; 2]%nat.
Proof.
  apply (Sequential_B_folds_nest 2 june_B
           [([0]%nat, [1; 2]%nat); ([0; 1]%nat, [2]%nat)]
           (DesignBMore.Sequential_calls 2 june_B) ltac:(discriminate)
           ltac:(vm_compute; reflexivity) 0%nat 1%nat
           ([0]%nat, [1; 2]%nat) ([0; 1]%nat, [2]%nat));
    [lia|reflexivity|reflexivity].
Defined.

(** X4.  In Design B, with a [step_size] that is not negative, the
    end-of-stream signal of [SequentialTimeFold] is final: once [next] has
    raised it, no later call yields a fold.  Each later call raises the
    signal again, or a [ValueError] once the split point is no [Timestamp]
    ([OutOfBoundsDatetime]), or an [OverflowError] when the split point
    cannot be advanced. *)
Theorem Sequential_B_stop_is_final (s s1 : DesignB.BaseTimeFold) :
  0 <= DesignB.step_size s ->
  DesignB.SequentialTimeFold_next s = (Raise StopIteration, s1) ->
  forall k, exists e,
    (DesignB.SequentialTimeFold_next (DesignBMore.Sequential_calls k s1)).1
    = Raise e /\
    (e = StopIteration \/ e = ValueError \/ e = OverflowError).
Proof.
  intros Hstep Hnext k.
  apply DesignBMoreFacts.Sequential_next_raise_state in Hnext
    as (Hd & Hst & _ & [(_ & _ & Hnil & _ & Hsp)|[(? & _)|(? & _)]]); [|done..].
  destruct (DesignBMoreFacts.Sequential_stopped k s1) as [e He].
  { by rewrite Hst. }
  { rewrite Hd, Hsp. intros d Hd'.
    pose proof (proj1 (np_where_nil _ _) Hnil d Hd') as Hlt.
    cbn in Hlt. apply Z.leb_gt in Hlt. lia. }
  exists e. split; [done|].
  destruct (DesignB.SequentialTimeFold_next _) as [r s2] eqn:Hcall.
  cbn in He. subst r.
  apply DesignBMoreFacts.Sequential_next_raise_state in Hcall
    as (_ & _ & _ & [(-> & _)|[(-> & _)|(-> & _)]]); auto.
Qed.

Lemma Sequential_B_stop_is_final_witness :
  exists e,
    (DesignB.SequentialTimeFold_next
       (DesignBMore.Sequential_calls 3
          (DesignB.SequentialTimeFold_next june_B_done).2)).1 = Raise e /\
    (e = StopIteration \/ e = ValueError \/ e = OverflowError).
Proof.
  apply (Sequential_B_stop_is_final june_B_done
           (DesignB.SequentialTimeFold_next june_B_done).2);
    [discriminate|vm_compute; reflexivity].
Defined.

(** X5.  [_set_years_list] (the same in both designs) lists, for a date
    column that is not empty, the distinct years from the year of the first
    date to the year of the last, and so the year of every date.  On an
    empty column it answers no list: it raises (a [TypeError] on the empty
    [datetime64] column of the embedding, whose extremes are [NaT]). *)
Theorem _set_years_list_covers_dates (dates : list Z) :
  DesignA._set_years_list dates = DesignB._set_years_list dates /\
  (dates = [] ->
   exists e, DesignB._set_years_list dates = Raise e /\
             (e = TypeError \/ e = AttributeError)) /\
  (dates <> [] ->
   exists first last ys,
     series_min dates = Some first /\ series_max dates = Some last /\
     DesignB._set_years_list dates = Ok ys /\
     (forall y, y ∈ ys <-> Datetime.year first <= y <= Datetime.year last) /\
     NoDup ys /\
     forall d, d ∈ dates -> Datetime.year d ∈ ys).
Proof.
  split; [reflexivity|]. split.
  { intros ->. exists TypeError. split; [done|by left]. }
  intros Hne. destruct dates as [|x l]; [done|].
  unfold DesignB._set_years_list.
  destruct (series_min (x :: l)) as [first|] eqn:Hmin; [|done].
  destruct (series_max (x :: l)) as [last|] eqn:Hmax; [|done].
  apply DesignBFacts.series_min_spec in Hmin as [_ Hmin].
  apply DesignBMoreFacts.series_max_spec in Hmax as [_ Hmax].
  eexists first, last, _. split_and!; try done.
  - intros y. rewrite DesignBMoreFacts.elem_of_xrange. lia.
  - unfold xrange. apply NoDup_fmap_2; [|apply NoDup_seq].
    intros a b. lia.
  - intros d Hd. apply DesignBMoreFacts.elem_of_xrange.
    pose proof (year_mono _ _ (Hmin d Hd)).
    pose proof (year_mono _ _ (Hmax d Hd)). lia.
Qed.

Lemma _set_years_list_covers_dates_witness :
  exists ys, DesignB._set_years_list [at_date 2013 5 1; at_date 2015 1 1] = Ok ys /\
             Datetime.year (at_date 2013 5 1) ∈ ys.
Proof.
  destruct (_set_years_list_covers_dates [at_date 2013 5 1; at_date 2015 1 1])
    as (_ & _ & H).
  destruct (H ltac:(discriminate)) as (first & last & ys & _ & _ & Hys & _ & _ & Hin).
  exists ys. split; [exact Hys|]. apply Hin. left.
Defined.

(** X6.  In Design B a [StratifiedTimeFold] as its constructor builds it
    never raises the end-of-stream signal on its first call, since
    [test_indices] starts as a two-element array; a fold it yields may have
    an empty test array, and then the next call raises the signal. *)
Theorem Stratified_B_first_call (dates : list Z) (step_size : Z)
    (init_split_point : option Z) (s : DesignB.StratifiedTimeFold) :
  DesignB.StratifiedTimeFold_init dates step_size init_split_point = Ok s ->
  (DesignB.StratifiedTimeFold_next s).1 <> Raise StopIteration /\
  forall f s',
    DesignB.StratifiedTimeFold_next s = (Ok f, s') -> f.2 = [] ->
    (DesignB.StratifiedTimeFold_next s').1 = Raise StopIteration.
Proof.
  intros Hinit.
  assert (DesignB.test_indices (DesignB.base s) = [3; 4]%nat) as Hti.
  { revert Hinit. unfold DesignB.StratifiedTimeFold_init, DesignB.BaseTimeFold_init.
    destruct init_split_point as [p|].
    - cbn. destruct (DesignB._set_years_list dates); [|done]. by intros [= <-].
    - destruct (DesignB._set_init_split_point dates step_size); [|done]. cbn.
      destruct (DesignB._set_years_list dates); [|done]. by intros [= <-]. }
  split.
  - unfold DesignB.StratifiedTimeFold_next. rewrite Hti. cbn.
    destruct (DesignB.grab_years _ _ _) as [[tr te]|e1] eqn:Hg.
    + destruct (Datetime.add _ _) as [p|e2] eqn:Hadd; [done|].
      apply DesignBFacts.add_raises in Hadd as ->. done.
    + cbn. intros [= ->].
      by destruct (DesignBMoreFacts.grab_years_raises_date _ _ _ _ Hg).
  - intros f s' (_ & _ & _ & Hte & _)%DesignBFacts.Stratified_next_step Hnil.
    apply DesignBFacts.Stratified_next_empty. by rewrite Hte.
Qed.

Lemma Stratified_B_first_call_witness :
  exists s f s',
    DesignB.StratifiedTimeFold_init june_dates (Datetime.days 1)
      (Some (at_date 2015 6 20)) = Ok s /\
    DesignB.StratifiedTimeFold_next s = (Ok f, s') /\ f.2 = [] /\
    (DesignB.StratifiedTimeFold_next s').1 = Raise StopIteration.
Proof.
  destruct (DesignB.StratifiedTimeFold_init june_dates (Datetime.days 1)
              (Some (at_date 2015 6 20))) as [s|] eqn:Hinit;
    [|vm_compute in Hinit; discriminate].
  destruct (Stratified_B_first_call _ _ _ s Hinit) as [_ H].
  exists s, ([], []), (DesignB.StratifiedTimeFold_next s).2.
  assert (DesignB.StratifiedTimeFold_next s
          = (Ok ([], []), (DesignB.StratifiedTimeFold_next s).2)) as Hnext.
  { vm_compute in Hinit. injection Hinit as <-. vm_compute. reflexivity. }
  split; [reflexivity|]. split; [exact Hnext|]. split; [reflexivity|].
  apply (H ([], []) _ Hnext). reflexivity.
Defined.

(** X7.  In Design B, when the split point of a [StratifiedTimeFold] is a
    29th of February, the window of a year that is not a leap year cannot
    be built: [_grab_indices] raises a [ValueError] for it, and a call of
    [next] that gets to gather the windows yields no fold when such a year
    is in [years_list]. *)
Theorem Stratified_B_leap_day (s : DesignB.StratifiedTimeFold) (year : Z) :
  Datetime.month (DesignB.split_point (DesignB.base s)) = 2 ->
  Datetime.day (DesignB.split_point (DesignB.base s)) = 29 ->
  Calendar.is_leap year = false ->
  DesignB._grab_indices (DesignB.base s) year = Raise ValueError /\
  (year ∈ DesignB.years_list s ->
   DesignB.test_indices (DesignB.base s) <> [] ->
   exists e, (DesignB.StratifiedTimeFold_next s).1 = Raise e /\
             (e = ValueError \/ e = OverflowError)).
Proof.
  intros Hm Hd Hleap.
  assert (DesignB._grab_indices (DesignB.base s) year = Raise ValueError) as Hy.
  { unfold DesignB._grab_indices, DesignB._get_date_range.
    rewrite Hm, Hd. unfold Datetime.datetime, Calendar.valid_ymd,
      Calendar.days_in_month. rewrite Hleap.
    by destruct (Datetime.MINYEAR <=? year), (year <=? Datetime.MAXYEAR). }
  split; [done|]. intros Hin Hne.
  unfold DesignB.StratifiedTimeFold_next.
  rewrite bool_decide_eq_false_2 by done. cbn [negb].
  destruct (DesignBMoreFacts.grab_years_fails (DesignB.incr_n_folds (DesignB.base s))
              (DesignB.years_list s) ([], []) year ValueError Hin Hy) as [e He].
  rewrite He. exists e. split; [done|].
  by eapply DesignBMoreFacts.grab_years_raises_date.
Qed.

Lemma Stratified_B_leap_day_witness :
  DesignB._grab_indices (DesignB.base leap_day_B) 2015 = Raise ValueError /\
  exists e, (DesignB.StratifiedTimeFold_next leap_day_B).1 = Raise e /\
            (e = ValueError \/ e = OverflowError).
Proof.
  destruct (Stratified_B_leap_day leap_day_B 2015) as [Hy Hnext];
    [reflexivity..|].
  split; [exact Hy|]. apply Hnext; [left|discriminate].
Defined.

(** X8.  In Design B every row of a fold of [StratifiedTimeFold] is dated in
    the window of a year of [years_list] (from the split point moved to that
    year, for less than a step), the train rows before the split point and
    the test rows at or after it. *)
Theorem Stratified_B_fold_rows (s : DesignB.StratifiedTimeFold)
    (f : DesignB.fold) (s' : DesignB.StratifiedTimeFold) :
  DesignB.StratifiedTimeFold_next s = (Ok f, s') ->
  (forall i, i ∈ f.1 ++ f.2 ->
     exists d year,
       DesignB.dates (DesignB.base s) !! i = Some d /\
       year ∈ DesignB.years_list s /\
       DesignBMore.in_year_window (DesignB.base s) year d) /\
  (forall i d, i ∈ f.1 -> DesignB.dates (DesignB.base s) !! i = Some d ->
     d < DesignB.split_point (DesignB.base s)) /\
  (forall j d, j ∈ f.2 -> DesignB.dates (DesignB.base s) !! j = Some d ->
     DesignB.split_point (DesignB.base s) <= d).
Proof.
  intros Hg%DesignBFacts.Stratified_next_fold. split_and!.
  - intros i Hi.
    destruct (DesignBMoreFacts.grab_years_window _ _ _ _ Hg i Hi)
      as [Hnil|H]; [|done].
    cbn in Hnil. by apply elem_of_nil in Hnil.
  - intros i d Hi Hd.
    apply DesignBFacts.grab_years_split in Hg as [Htr _].
    + destruct (Htr i Hi) as (d' & Hd' & ?). cbn in Hd'. by simplify_eq.
    + split; cbn; by intros ? ?%elem_of_nil.
  - intros j d Hj Hd.
    apply DesignBFacts.grab_years_split in Hg as [_ Hte].
    + destruct (Hte j Hj) as (d' & Hd' & ?). cbn in Hd'. by simplify_eq.
    + split; cbn; by intros ? ?%elem_of_nil.
Qed.

Lemma Stratified_B_fold_rows_witness :
  (DesignB.StratifiedTimeFold_next june_stratified_B).1 = Ok ([], [1]%nat) /\
  forall j d, j ∈ [1]%nat ->
    DesignB.dates (DesignB.base june_stratified_B) !! j = Some d ->
    DesignB.split_point (DesignB.base june_stratified_B) <= d.
Proof.
  split; [vm_compute; reflexivity|].
  destruct (Stratified_B_fold_rows june_stratified_B ([], [1]%nat)
              (DesignB.StratifiedTimeFold_next june_stratified_B).2)
    as (_ & _ & H); [vm_compute; reflexivity|exact H].
Defined.

(** ** More of Design A *)

(** X9.  In Design A a fold of [SequentialTimeFold.next] is cut at the first
    day slice, stepping back from [test_date] by [step_size], that holds a
    row: its test rows are the rows of that day, its train rows all the rows
    dated before it.  The call leaves [test_date] one step before that day
    and adds one to [len]. *)
Theorem Sequential_A_next_fold (fuel : nat) (s : DesignA.BaseTimeFold)
    (f : DesignA.fold) (s' : DesignA.BaseTimeFold) :
  DesignA.SequentialTimeFold_next fuel s = Some (Ok f, s') ->
  exists k : nat,
    (k < fuel)%nat /\
    f = DesignAMore.fold_at s k /\ f.2 <> [] /\
    (forall j : nat, (j < k)%nat ->
       DesignAMore.rows_in (DesignA.all_dates s)
         (DesignAMore.stepped_back s j) (Datetime.days 1) = []) /\
    (forall i j di dj, i ∈ f.1 -> j ∈ f.2 ->
       DesignA.all_dates s !! i = Some di ->
       DesignA.all_dates s !! j = Some dj ->
       di < DesignAMore.stepped_back s k <= dj /\
       dj < DesignAMore.stepped_back s k + Datetime.days 1) /\
    DesignA.test_date s'
    = DesignAMore.stepped_back s k - DesignA.step_size s /\
    DesignAMore.len s' = S (DesignAMore.len s).
Proof.
  intros (s1 & Hs & -> & _)%DesignAMoreFacts.Sequential_next_search.
  apply DesignAMoreFacts.Sequential_search_steps
    in Hs as (k & Hk & -> & Hne & Hempty & ->).
  exists k. split_and!; try done.
  intros i j di dj Hi Hj Hdi Hdj. cbn in Hi, Hj.
  apply elem_of_np_where in Hi as (x & Hx & ?%Z.ltb_lt).
  apply elem_of_np_where in Hj as (y & Hy & [?%Z.leb_le ?%Z.ltb_lt]%andb_true_iff).
  simplify_eq. lia.
Qed.

Lemma Sequential_A_next_fold_witness :
  exists (k : nat) s',
    DesignA.SequentialTimeFold_next 3 june_A
    = Some (Ok ([0; 1]%nat, [2]%nat), s') /\
    ([0; 1]%nat, [2]%nat) = DesignAMore.fold_at june_A k /\
    DesignAMore.len s' = 1%nat.
Proof.
  destruct (DesignA.SequentialTimeFold_next 3 june_A) as [[r s']|] eqn:Hnext;
    [|vm_compute in Hnext; discriminate].
  assert (r = Ok ([0; 1]%nat, [2]%nat)) as ->
    by (vm_compute in Hnext; congruence).
  destruct (Sequential_A_next_fold 3 june_A _ s' Hnext)
    as (k & _ & Hf & _ & _ & _ & _ & Hlen).
  exists k, s'. split; [reflexivity|]. split; [exact Hf|exact Hlen].
Defined.

(** X10.  In Design A, with a [step_size] of a day or more, the folds of
    [SequentialTimeFold] go back in time: a later fold trains on a subset of
    the rows an earlier fold trained on, its test rows are among the rows
    the earlier fold trained on, and no row is tested twice.  [len] counts
    the folds yielded. *)
Theorem Sequential_A_folds_go_back (fuels : list nat)
    (s : DesignA.BaseTimeFold) (fs : list DesignA.fold)
    (s' : DesignA.BaseTimeFold) :
  Datetime.days 1 <= DesignA.step_size s ->
  DesignA.Sequential_folds fuels s = Some (fs, s') ->
  DesignAMore.len s' = (DesignAMore.len s + length fs)%nat /\
  forall (j1 j2 : nat) f1 f2,
    (j1 < j2)%nat -> fs !! j1 = Some f1 -> fs !! j2 = Some f2 ->
    f2.1 ⊆ f1.1 /\ f2.2 ⊆ f1.1 /\ disjoint_indices f1.2 f2.2.
Proof.
  intros Hstep (Hn & _ & Htwo)%DesignAMoreFacts.Sequential_folds_steps.
  split; [done|]. intros j1 j2 f1 f2 Hj H1 H2.
  destruct (Htwo j1 j2 f1 f2 Hj H1 H2) as (k1 & k2 & Hk & -> & ->).
  unfold DesignAMore.fold_at, DesignAMore.rows_before, DesignAMore.rows_in,
    DesignAMore.stepped_back. cbn [fst snd].
  assert (DesignA.test_date s - Z.of_nat k2 * DesignA.step_size s
          + Datetime.days 1
          <= DesignA.test_date s - Z.of_nat k1 * DesignA.step_size s) as Hback.
  { assert (Z.of_nat (k1 + 1) * DesignA.step_size s
            <= Z.of_nat k2 * DesignA.step_size s); [|lia].
    apply Z.mul_le_mono_nonneg_r; [|lia].
    unfold Datetime.days in Hstep. rewrite us_per_day_eq in Hstep. lia. }
  assert (0 < Datetime.days 1) by done.
  split_and!.
  - apply DesignBMoreFacts.np_where_mono. intros x ?%Z.ltb_lt.
    apply Z.ltb_lt. lia.
  - apply DesignBMoreFacts.np_where_mono.
    intros x [?%Z.leb_le ?%Z.ltb_lt]%andb_true_iff. apply Z.ltb_lt. lia.
  - apply np_where_disjoint.
    intros x [?%Z.leb_le ?%Z.ltb_lt]%andb_true_iff
      [?%Z.leb_le ?%Z.ltb_lt]%andb_true_iff. lia.
Qed.

Lemma Sequential_A_folds_go_back_witness :
  [0]%nat ⊆ [0; 1]%nat /\ [1]%nat ⊆ [0; 1]%nat /\
  disjoint_indices [2]%nat [1]%nat.
Proof.
  destruct (DesignA.Sequential_folds [3; 1]%nat june_A) as [[fs s']|] eqn:Hfs;
    [|vm_compute in Hfs; discriminate].
  assert (fs = [([0; 1]%nat, [2]%nat); ([0]%nat, [1]%nat)]) as ->
    by (vm_compute in Hfs; congruence).
  destruct (Sequential_A_folds_go_back [3; 1]%nat june_A _ s'
              ltac:(apply Z.le_refl) Hfs) as [_ H].
  apply (H 0%nat 1%nat ([0; 1]%nat, [2]%nat) ([0]%nat, [1]%nat));
    [lia|reflexivity|reflexivity].
Defined.

(** X11.  In Design A the test rows of a fold of [StratifiedTimeFold.next]
    are the rows of the first slice, a step wide and stepping back from
    [test_date], that holds a row; resampling leaves them alone.  Every
    train index is the position of a row of the table.  The call leaves
    [test_date] one step before the slice and adds one to [len]. *)
Theorem Stratified_A_next_fold (fuel : nat) (draw : list nat)
    (s : DesignA.StratifiedTimeFold) (f : DesignA.fold)
    (s' : DesignA.StratifiedTimeFold) :
  DesignA.StratifiedTimeFold_next fuel draw s = Some (Ok f, s') ->
  exists k : nat,
    (k < fuel)%nat /\
    f.2 = DesignAMore.rows_in (DesignA.all_dates (DesignA.base s))
            (DesignAMore.stepped_back (DesignA.base s) k)
            (DesignA.step_size (DesignA.base s)) /\
    f.2 <> [] /\
    (forall j : nat, (j < k)%nat ->
       DesignAMore.rows_in (DesignA.all_dates (DesignA.base s))
         (DesignAMore.stepped_back (DesignA.base s) j)
         (DesignA.step_size (DesignA.base s)) = []) /\
    (forall i, i ∈ f.1 -> (i < length (DesignA.df (DesignA.base s)))%nat) /\
    DesignA.test_date (DesignA.base s')
    = DesignAMore.stepped_back (DesignA.base s) k
      - DesignA.step_size (DesignA.base s) /\
    DesignAMore.len (DesignA.base s') = S (DesignAMore.len (DesignA.base s)).
Proof.
  unfold DesignA.StratifiedTimeFold_next.
  destruct (DesignA.Stratified_search fuel s [])
    as [[[[tr te]|] s1]|] eqn:Hs; [|done..].
  destruct (DesignA._check_resample _ _ _) as [[tr'|]|] eqn:Hr; [|done..].
  destruct (DesignA.cap _ _) as [r b] eqn:Hcap. intros [= -> <-].
  apply DesignAFacts.cap_fold in Hcap as [-> ->].
  pose proof (DesignAMoreFacts.Stratified_search_length _ _ _ _ _ Hs) as Hlen.
  apply DesignAMoreFacts.Stratified_search_steps
    in Hs as (k & Hk & Hf & Hne & Hempty & ->).
  exists k. split_and!; try done.
  intros i Hi. apply Hlen; [by intros ? ?%elem_of_nil|].
  by apply (DesignAFacts._check_resample_subset _ _ _ _ Hr).
Qed.

Lemma Stratified_A_next_fold_witness :
  exists (k : nat) f s',
    DesignA.StratifiedTimeFold_next 3 [] june_stratified_A = Some (Ok f, s') /\
    f.2 = DesignAMore.rows_in (DesignA.all_dates june_A)
            (DesignAMore.stepped_back june_A k) (Datetime.days 1) /\
    DesignAMore.len (DesignA.base s') = 1%nat.
Proof.
  destruct (DesignA.StratifiedTimeFold_next 3 [] june_stratified_A)
    as [[[f|] s']|] eqn:Hnext; [|vm_compute in Hnext; discriminate..].
  destruct (Stratified_A_next_fold 3 [] june_stratified_A f s' Hnext)
    as (k & _ & Hf & _ & _ & _ & _ & Hlen).
  exists k, f, s'. split; [reflexivity|]. split; [exact Hf|exact Hlen].
Defined.

(** X12.  In Design A [_grab_indices] answers the rows dated in the
    [days_back] days that end at the start of the window: the test date
    itself in the test date's year, the midnight after its day in any other
    year.  The start is left out, so the window of the test date's own year
    holds only rows dated before the test date. *)
Theorem Stratified_A_year_window (s : DesignA.StratifiedTimeFold) (year : Z)
    (idx : list nat) :
  DesignA._grab_indices s year = Ok idx ->
  (forall i, i ∈ idx <->
     exists d, DesignA.all_dates (DesignA.base s) !! i = Some d /\
               DesignAMore.in_year_window s year d) /\
  (year = Datetime.year (DesignA.test_date (DesignA.base s)) ->
   forall i d, i ∈ idx ->
     DesignA.all_dates (DesignA.base s) !! i = Some d ->
     DesignA.test_date (DesignA.base s) - Datetime.days (DesignA.days_back s)
     <= d < DesignA.test_date (DesignA.base s)).
Proof.
  intros Hidx.
  pose proof (DesignAMoreFacts._grab_indices_back_window _ _ _ Hidx) as Hwin.
  split; [done|]. intros -> i d Hi Hd.
  apply Hwin in Hi as (d' & Hd' & start & Hstart & Hin).
  rewrite Z.eqb_refl in Hstart. by simplify_eq.
Qed.

Lemma Stratified_A_year_window_witness :
  DesignA._grab_indices
    (DesignA.set_base june_stratified_A
       (DesignA.set_test_date june_A (at_date 2015 6 16))) 2015
  = Ok [1]%nat /\
  forall i d, i ∈ [1]%nat ->
    DesignA.all_dates june_A !! i = Some d ->
    at_date 2015 6 16 - Datetime.days 1 <= d < at_date 2015 6 16.
Proof.
  split; [vm_compute; reflexivity|].
  destruct (Stratified_A_year_window
              (DesignA.set_base june_stratified_A
                 (DesignA.set_test_date june_A (at_date 2015 6 16)))
              2015 [1]%nat ltac:(vm_compute; reflexivity)) as [_ H].
  apply H. vm_compute. reflexivity.
Defined.

(** X13.  In Design A, when the test date is the last day of its month,
    [_get_date_range] asks for the day after it in every other year, which
    is no date: it raises a [ValueError], and with such a year in
    [years_list] every call of [next] ends with an error and yields no
    fold. *)
Theorem Stratified_A_month_end (s : DesignA.StratifiedTimeFold) (year : Z) :
  year <> Datetime.year (DesignA.test_date (DesignA.base s)) ->
  Calendar.days_in_month year
    (Datetime.month (DesignA.test_date (DesignA.base s)))
  <= Datetime.day (DesignA.test_date (DesignA.base s)) ->
  DesignA._get_date_range s year = Raise ValueError /\
  DesignA._grab_indices s year = Raise ValueError /\
  (year ∈ DesignA.years_list s ->
   forall fuel draw, exists e,
     DesignA.StratifiedTimeFold_next (S fuel) draw s = Some (Raise e, s) /\
     (e = ValueError \/ e = OverflowError)).
Proof.
  intros Hy Hd.
  pose proof (DesignAMoreFacts._get_date_range_month_end s year Hy Hd) as Hr.
  assert (DesignA._grab_indices s year = Raise ValueError) as Hg.
  { unfold DesignA._grab_indices. by rewrite Hr. }
  split_and!; [done..|]. intros Hin fuel draw.
  unfold DesignA.StratifiedTimeFold_next.
  rewrite DesignAFacts.Stratified_search_S.
  destruct (Datetime.add _ _) as [p|e0] eqn:Hadd.
  - destruct (DesignA.slice_bounds _ _) as [b|e1] eqn:Hb.
    + destruct (DesignAMoreFacts.grab_years_fails_on_year s
                  (DesignA.years_list s) [] year ValueError Hin Hg)
        as (e & -> & He).
      by exists e.
    + apply DesignAMoreFacts.slice_bounds_raises in Hb as ->.
      exists ValueError. split; [done|by left].
  - apply DesignBFacts.add_raises in Hadd as ->. exists OverflowError.
    split; [done|by right].
Qed.

Lemma Stratified_A_month_end_witness :
  DesignA._get_date_range month_end_A 2014 = Raise ValueError /\
  exists e,
    DesignA.StratifiedTimeFold_next 1 [] month_end_A
    = Some (Raise e, month_end_A) /\
    (e = ValueError \/ e = OverflowError).
Proof.
  destruct (Stratified_A_month_end month_end_A 2014) as (Hr & _ & Hnext);
    [vm_compute; discriminate|vm_compute; discriminate|].
  split; [exact Hr|]. apply Hnext. left.
Defined.

(** X14.  With the method 'simple upsample' and a training set that has a
    row with a fire, [_resample] returns the training set followed by a
    sample of its fire rows, as many as it has distinct ones: every index
    is kept, the rows without a fire are as many as before, and the fire
    rows grow by the size of the sample. *)
Theorem upsample_appends (s : DesignA.BaseTimeFold)
    (draw train_indices : list nat) :
  DesignA.resample_method s = "simple upsample" ->
  let fire := DesignA.fire_indices (DesignA.df s) in
  let positive := intersect1d fire train_indices in
  positive <> [] ->
  DesignAMore.randint_draw (length positive) (length positive) draw ->
  exists sample,
    DesignA._resample s draw train_indices
    = Ok (Some (train_indices ++ sample)) /\
    length sample = length positive /\
    (forall i, i ∈ sample -> i ∈ positive) /\
    length (filter (fun i => i ∈ fire) (train_indices ++ sample))
    = (length (filter (fun i => i ∈ fire) train_indices)
       + length positive)%nat /\
    length (filter (fun i => i ∉ fire) (train_indices ++ sample))
    = length (filter (fun i => i ∉ fire) train_indices).
Proof.
  intros Hm fire positive Hne [Hlen Hlt].
  exists (take_idx positive draw).
  assert (forall i, i ∈ take_idx positive draw -> i ∈ positive) as Hsub
    by (intros i; apply elem_of_take_idx).
  assert (length (take_idx positive draw) = length positive) as Hsize.
  { rewrite length_take_idx; [done|].
    intros i Hi. by apply (proj1 (Forall_forall _ _) Hlt). }
  split_and!; [|done|done| |].
  - unfold DesignA._resample, random_choice.
    rewrite bool_decide_eq_true_2 by done.
    fold fire. fold positive. rewrite bool_decide_eq_false_2 by done.
    cbn. by rewrite <- Hlen, firstn_all.
  - rewrite filter_app, length_app. f_equal.
    rewrite DesignAFacts.filter_all; [done|].
    intros i Hi%Hsub. by apply elem_of_intersect1d in Hi as [? _].
  - rewrite filter_app, length_app.
    rewrite (DesignAFacts.filter_none (fun i => i ∉ fire) (take_idx positive draw));
      [apply Nat.add_0_r|].
    intros i Hi%Hsub Hni. by apply elem_of_intersect1d in Hi as [? _].
Qed.

Lemma upsample_appends_witness :
  exists sample,
    DesignA._resample (resampler 1 3 (20 # 100) "simple upsample") [0]%nat
      [0; 1; 2; 3]%nat
    = Ok (Some ([0; 1; 2; 3]%nat ++ sample)) /\
    length sample = 1%nat.
Proof.
  destruct (upsample_appends (resampler 1 3 (20 # 100) "simple upsample")
              [0]%nat [0; 1; 2; 3]%nat)
    as (sample & Hr & Hlen & _);
    [reflexivity|vm_compute; discriminate
    |split; [reflexivity|repeat constructor]|].
  exists sample. split; [exact Hr|exact Hlen].
Defined.

(** X15.  With the method 'downsample' and a [resample_train_fire_pct] of at
    most a half (the default is 0.20), [_check_resample] raises no error on
    a non-empty training set of distinct row positions: it returns the set
    unchanged, or its fire rows followed by as many distinct rows without a
    fire. *)
Theorem check_resample_downsample_safe (s : DesignA.BaseTimeFold)
    (draw train_indices : list nat) :
  DesignA.resample_method s = "downsample" ->
  (DesignA.resample_train_fire_pct s <= 1 # 2)%Q ->
  train_indices <> [] -> NoDup train_indices ->
  (forall i, i ∈ train_indices -> (i < length (DesignA.df s))%nat) ->
  let positive :=
    intersect1d (DesignA.fire_indices (DesignA.df s)) train_indices in
  let negative :=
    setdiff1d train_indices (DesignA.fire_indices (DesignA.df s)) in
  permutation_draw (length negative) draw ->
  DesignA._check_resample s draw train_indices = Ok (Some train_indices) \/
  exists sample,
    DesignA._check_resample s draw train_indices
    = Ok (Some (positive ++ sample)) /\
    length sample = length positive /\ NoDup sample /\
    (forall i, i ∈ sample -> i ∈ negative).
Proof.
  intros Hm Hpct Hne Hnd Hlt positive negative Hdraw.
  unfold DesignA._check_resample.
  destruct (DesignA.float_gt _ _) eqn:Hgt; [by left|right].
  destruct (DesignAMoreFacts.fire_rows_count _ _ Hlt) as [Hrows Hfires].
  apply DesignAMoreFacts.mean_le_half in Hgt; [|
    intros Hnil; rewrite Hnil in Hrows; by destruct train_indices|done].
  rewrite Hrows, Hfires in Hgt.
  pose proof (DesignAMoreFacts.length_filter_split
                (DesignA.fire_indices (DesignA.df s)) train_indices) as Hsplit.
  assert (length positive
          = length (filter (fun i => i ∈ DesignA.fire_indices (DesignA.df s))
                      train_indices)) as Hp.
  { apply DesignAMoreFacts.length_positive; [apply NoDup_np_where|done]. }
  assert (length negative
          = length (filter (fun i => i ∉ DesignA.fire_indices (DesignA.df s))
                      train_indices)) as Hn.
  { by apply DesignAMoreFacts.length_negative. }
  assert (length train_indices <> 0)%nat by (by destruct train_indices).
  destruct (DesignAFacts.downsample_spec s draw train_indices Hm)
    as (sample & Hr & Hlen & Hnds & Hsub & _); [| |done|].
  - fold negative. intros Hnil. rewrite Hnil in Hn. cbn in Hn. lia.
  - fold positive. fold negative. lia.
  - exists sample. by split_and!.
Qed.

Lemma check_resample_downsample_safe_witness :
  DesignA._check_resample (resampler 1 4 (20 # 100) "downsample")
    [2; 0; 1; 3]%nat [0; 1; 2; 3; 4]%nat = Ok (Some [0; 1; 2; 3; 4]%nat) \/
  exists sample,
    DesignA._check_resample (resampler 1 4 (20 # 100) "downsample")
      [2; 0; 1; 3]%nat [0; 1; 2; 3; 4]%nat = Ok (Some ([0]%nat ++ sample)) /\
    length sample = 1%nat /\ NoDup sample /\
    (forall i, i ∈ sample -> i ∈ [1; 2; 3; 4]%nat).
Proof.
  apply (check_resample_downsample_safe
           (resampler 1 4 (20 # 100) "downsample")
           [2; 0; 1; 3]%nat [0; 1; 2; 3; 4]%nat).
  - reflexivity.
  - vm_compute. discriminate.
  - discriminate.
  - repeat (constructor; [by (intros H; repeat (apply elem_of_cons in H as [H|H]; [discriminate|]); by apply elem_of_nil in H)|]). constructor.
  - intros i Hi. cbn.
    repeat (apply elem_of_cons in Hi as [->|Hi]; [lia|]).
    by apply elem_of_nil in Hi.
  - unfold permutation_draw.
    change ([2; 0; 1; 3]%nat ≡ₚ [0; 1; 2; 3]%nat).
    etrans; [apply perm_swap|]. apply perm_skip. apply perm_swap.
Defined.

(** ** More of the model runner *)

(** X16.  On a table with distinct column names, one of them [fire_bool],
    and rows as wide as the header, [get_target_features] answers the
    [fire_bool] column and the table without it: the other columns are all
    kept, there is one target per row, and putting a row's target back at
    the position of [fire_bool] gives the row of the table. *)
Theorem get_target_features_splits (d : RunModel.DataFrame) :
  "fire_bool" ∈ RunModel.columns d -> NoDup (RunModel.columns d) ->
  (forall row, row ∈ RunModel.values d ->
     length row = length (RunModel.columns d)) ->
  exists k target features,
    RunModel.get_target_features d = Ok (target, features) /\
    RunModel.columns d !! k = Some "fire_bool" /\
    (forall c, c ∈ RunModel.columns features <->
               c ∈ RunModel.columns d /\ c <> "fire_bool") /\
    RunModel.n_columns features = RunModel.n_columns d - 1 /\
    length target = length (RunModel.values d) /\
    length (RunModel.values features) = length (RunModel.values d) /\
    forall i row, RunModel.values d !! i = Some row ->
      exists t rest,
        target !! i = Some t /\
        RunModel.values features !! i = Some rest /\
        Z.of_nat (length rest) = RunModel.n_columns features /\
        row = take k rest ++ t :: drop k rest.
Proof.
  intros Hin Hnd Hrows. unfold RunModel.get_target_features.
  destruct (RunModel.index_of "fire_bool" (RunModel.columns d)) as [k|] eqn:Hk.
  2:{ by apply RunModelMoreFacts.index_of_None in Hk. }
  apply RunModelMoreFacts.index_of_Some in Hk as [Hk _].
  pose proof (lookup_lt_Some _ _ _ Hk) as Hlt.
  assert (forall row, row ∈ RunModel.values d -> is_Some (row !! k)) as Hall.
  { intros row Hrow%Hrows. apply lookup_lt_is_Some. lia. }
  destruct (RunModelMoreFacts.omap_total _ _ Hall) as [Hlen Hlook].
  eexists k, _, _. split; [done|]. cbn [RunModel.columns RunModel.values].
  assert (RunModel.n_columns
            {| RunModel.columns := delete k (RunModel.columns d);
               RunModel.values := delete k <$> RunModel.values d |}
          = RunModel.n_columns d - 1) as Hwidth.
  { unfold RunModel.n_columns. cbn. rewrite length_delete by eauto. lia. }
  split_and!; [done| |done|done|by rewrite length_fmap|].
  - intros c. by apply RunModelMoreFacts.elem_of_delete_NoDup.
  - intros i row Hi.
    assert (row ∈ RunModel.values d) as Hrow
      by by eapply list_elem_of_lookup_2.
    destruct (Hall row Hrow) as [t Ht]. exists t, (delete k row).
    split_and!.
    + rewrite <- Ht. apply (Hlook i row Hi).
    + by rewrite list_lookup_fmap, Hi.
    + rewrite Hwidth. unfold RunModel.n_columns.
      rewrite length_delete by eauto. rewrite (Hrows row Hrow). lia.
    + by apply RunModelMoreFacts.delete_middle.
Qed.

Lemma get_target_features_splits_witness :
  exists k target features,
    RunModel.get_target_features four_rows = Ok (target, features) /\
    RunModel.columns four_rows !! k = Some "fire_bool" /\
    RunModel.n_columns features = 1.
Proof.
  destruct (get_target_features_splits four_rows)
    as (k & target & features & Hr & Hk & _ & Hw & _).
  - right. left.
  - apply NoDup_cons. split.
    + intros [H|H]%elem_of_cons; [discriminate|by apply elem_of_nil in H].
    + apply NoDup_singleton.
  - intros row Hrow.
    repeat (apply elem_of_cons in Hrow as [->|Hrow]; [reflexivity|]).
    by apply elem_of_nil in Hrow.
  - exists k, target, features. split; [exact Hr|]. split; [exact Hk|exact Hw].
Defined.

(** X17.  [get_target_features] raises exactly when the table has no
    [fire_bool] column, and then an [AttributeError]; [predict_with_model]
    then raises it too, whatever the model. *)
Theorem get_target_features_missing_column (d : RunModel.DataFrame) :
  (RunModel.get_target_features d = Raise AttributeError <->
   "fire_bool" ∉ RunModel.columns d) /\
  (forall e, RunModel.get_target_features d = Raise e -> e = AttributeError) /\
  (forall m, "fire_bool" ∉ RunModel.columns d ->
     RunModel.predict_with_model d m = Raise AttributeError).
Proof.
  assert (RunModel.get_target_features d = Raise AttributeError <->
          "fire_bool" ∉ RunModel.columns d) as Hiff.
  { rewrite <- RunModelMoreFacts.index_of_None.
    unfold RunModel.get_target_features.
    by destruct (RunModel.index_of _ _). }
  split_and!; [done| |].
  - unfold RunModel.get_target_features.
    destruct (RunModel.index_of _ _); [done|]. by intros e [= <-].
  - intros m Hni%Hiff. unfold RunModel.predict_with_model. by rewrite Hni.
Qed.

(** X18.  On a train table with distinct column names, the network
    [get_model] builds for 'neural_net' takes as many inputs as the feature
    table [get_target_features] hands to its fit has columns, and that
    table has no [fire_bool] column. *)
Theorem neural_net_input_width (train : RunModel.DataFrame)
    (target : list Q) (features : RunModel.DataFrame) :
  NoDup (RunModel.columns train) ->
  RunModel.get_target_features train = Ok (target, features) ->
  ("fire_bool" ∉ RunModel.columns features) /\
  exists rest loss optimizer,
    RunModel.get_model "neural_net" train
    = Ok (Some (RunModel.Sequential
                  (RunModel.Dense (RunModel.n_columns features) 200 "uniform"
                   :: rest) loss optimizer)).
Proof.
  intros Hnd. unfold RunModel.get_target_features.
  destruct (RunModel.index_of _ _) as [k|] eqn:Hk; [|done].
  apply RunModelMoreFacts.index_of_Some in Hk as [Hk _]. intros [= <- <-].
  split.
  - cbn. rewrite (RunModelMoreFacts.elem_of_delete_NoDup _ _ _ _ Hnd Hk).
    by intros [_ ?].
  - eexists _, _, _. unfold RunModel.get_model, RunModel.get_neural_net.
    cbn. do 4 f_equal. unfold RunModel.n_columns. cbn.
    rewrite length_delete by eauto.
    pose proof (lookup_lt_Some _ _ _ Hk). f_equal. lia.
Qed.

Lemma neural_net_input_width_witness :
  exists rest loss optimizer,
    RunModel.get_model "neural_net" four_rows
    = Ok (Some (RunModel.Sequential
                  (RunModel.Dense 1 200 "uniform" :: rest) loss optimizer)).
Proof.
  destruct (neural_net_input_width four_rows [0; 1; 0; 1]%Q
              {| RunModel.columns := ["conf"];
                 RunModel.values := [[30 # 1]; [80 # 1]; [50 # 1]; [60 # 1]]%Q |})
    as [_ H].
  - apply NoDup_cons. split.
    + intros [H|H]%elem_of_cons; [discriminate|by apply elem_of_nil in H].
    + apply NoDup_singleton.
  - reflexivity.
  - exact H.
Defined.

(** X19.  [get_grid_params] answers a grid exactly for the names for which
    [get_model] answers a model that is no network, the three classifiers;
    [get_model] answers a network for 'neural_net' only, and where it
    answers no model there is no grid either. *)
Theorem grid_params_for_classifiers (model_name : string)
    (train : RunModel.DataFrame) :
  exists m,
    RunModel.get_model model_name train = Ok m /\
    (is_Some (RunModel.get_grid_params model_name) <->
     is_Some m /\ RunModelMore.is_sequential m = false) /\
    (RunModelMore.is_sequential m = true <-> model_name = "neural_net") /\
    (is_Some (RunModel.get_grid_params model_name) <->
     model_name ∈ ["logit"; "random_forest"; "gradient_boosting"]).
Proof.
  unfold RunModel.get_model, RunModel.get_grid_params.
  destruct (decide (model_name = "logit")) as [->|H1].
  { eexists. split; [reflexivity|]. cbn. split_and!.
    - split; [intros _; by split|by eauto].
    - done.
    - split; [intros _; left|by eauto]. }
  destruct (decide (model_name = "random_forest")) as [->|H2].
  { eexists. split; [reflexivity|]. cbn. split_and!.
    - split; [intros _; by split|by eauto].
    - done.
    - split; [intros _; right; left|by eauto]. }
  destruct (decide (model_name = "gradient_boosting")) as [->|H3].
  { eexists. split; [reflexivity|]. cbn. split_and!.
    - split; [intros _; by split|by eauto].
    - done.
    - split; [intros _; do 2 right; left|by eauto]. }
  rewrite !(bool_decide_eq_false_2 (model_name = "logit")) by done.
  rewrite !(bool_decide_eq_false_2 (model_name = "random_forest")) by done.
  rewrite !(bool_decide_eq_false_2 (model_name = "gradient_boosting")) by done.
  assert (model_name ∉ ["logit"; "random_forest"; "gradient_boosting"]) as Hni.
  { rewrite !not_elem_of_cons. split_and!; try done. apply not_elem_of_nil. }
  destruct (decide (model_name = "neural_net")) as [->|H4].
  { eexists. split; [reflexivity|]. cbn. split_and!.
    - split; [by intros ?%is_Some_None|by intros [_ ?]].
    - done.
    - split; [by intros ?%is_Some_None|done]. }
  rewrite bool_decide_eq_false_2 by done.
  eexists. split; [reflexivity|]. cbn. split_and!.
  - split; [by intros ?%is_Some_None|by intros [?%is_Some_None _]].
  - done.
  - split; [by intros ?%is_Some_None|done].
Qed.

(** X20.  After any sequence of runs, the log of a model name holds what it
    held before followed by the entries of the runs with that name, in the
    order of the runs; runs with other names leave it alone, and a file
    that is the log of no run is as it was. *)
Theorem log_results_runs (runs : list RunModelMore.run)
    (fs : gmap string string) (model_name : string) :
  RunModelMore.log_runs runs fs !! RunModel.log_filename model_name
  = match filter (fun r => RunModelMore.run_name r = model_name) runs with
    | [] => fs !! RunModel.log_filename model_name
    | mine =>
        Some (default EmptyString (fs !! RunModel.log_filename model_name)
              +:+ foldr String.append EmptyString
                    (RunModelMore.run_entry <$> mine))
    end /\
  forall path,
    (forall r, r ∈ runs ->
       path <> RunModel.log_filename (RunModelMore.run_name r)) ->
    RunModelMore.log_runs runs fs !! path = fs !! path.
Proof.
  split.
  - rewrite RunModelMoreFacts.lookup_log_runs.
    rewrite (list_filter_iff
               (fun r => RunModel.log_filename (RunModelMore.run_name r)
                         = RunModel.log_filename model_name)
               (fun r => RunModelMore.run_name r = model_name)); [done|].
    intros r. split; [apply RunModelMoreFacts.log_filename_inj|by intros ->].
  - intros path Hpath. rewrite RunModelMoreFacts.lookup_log_runs.
    rewrite DesignAFacts.filter_none; [done|].
    intros r Hr Heq. by apply (Hpath r Hr).
Qed.
